(** * nixcord, generate-plugin-options: evaluator, option patterns,
      type classification and default resolution

    A shallow embedding of the TypeScript sources under
    [scripts/generate-plugin-options/src/core/ast] and of the statements
    proved about them.  The parse tree of ts-morph is an inductive type,
    the queries of the type checker are a record of functions, a JavaScript
    [number] is an abstract type with the operations the code uses, and
    unbounded recursion through declarations is cut by a fuel argument:
    [None] means that the call gives no result.  It does not return; or, at
    the one lookup that can leave the tables of the source for
    [Object.prototype], it hands back an object of the JavaScript run time,
    where the embedding does not follow it. *)

From stdpp Require Import base option list strings gmap pretty.
From Stdlib Require Import ZArith QArith Ascii.
Local Open Scope Z_scope.
Local Open Scope string_scope.
Local Open Scope list_scope.
Local Set Warnings "-register-all".

(** ** JavaScript numbers *)

(** The operations on IEEE doubles that the sources use.  Nothing below
    depends on how they round. *)
Class JsNumber (number : Type) := {
  ofZ : Z → number;
  isInteger : number → bool;              (* Number.isInteger *)
  sameValueZero : number → number → bool; (* membership in a Set *)
  bitOr : number → number → number;
  bitAnd : number → number → number;
  bitXor : number → number → number;
  shiftLeft : number → number → number;
  shiftRight : number → number → number;
  shiftRightUnsigned : number → number → number;
  plus : number → number → number;
  minus : number → number → number;
  times : number → number → number;
  divide : number → number → number;
  remainder : number → number → number;
  numberToString : number → string;       (* String(n) *)
  parseInt10 : number → number;           (* parseInt(n.toString(), 10) *)
  schemaNumber : number → bool;           (* z.number().safeParse(n).success *)
}.

(** true-myth's [Result]. *)
Inductive Result (T E : Type) : Type :=
| Ok (value : T)
| Err (error : E).
Arguments Ok {T E} value.
Arguments Err {T E} error.

Definition isOk {T E} (r : Result T E) : bool :=
  match r with Ok _ => true | Err _ => false end.

Definition isErr {T E} (r : Result T E) : bool := negb (isOk r).

(** ** The parse tree *)

(** Operator tokens of a binary expression. *)
Inductive OperatorToken : Type :=
| BarToken
| AmpersandToken
| CaretToken
| LessThanLessThanToken
| GreaterThanGreaterThanToken
| GreaterThanGreaterThanGreaterThanToken
| PlusToken
| MinusToken
| AsteriskToken
| SlashToken
| PercentToken
| EqualsEqualsEqualsToken
| OtherToken (text : string).

(** The name node of an object-literal member; [getName()] returns its
    source text, so a quoted name keeps its quotes. *)
Inductive PropertyName : Type :=
| IdentifierName (text : string)
| StringLiteralName (text : string) (literalValue : string)
| OtherName (text : string).

Definition getNameText (n : PropertyName) : string :=
  match n with
  | IdentifierName t => t
  | StringLiteralName t _ => t
  | OtherName t => t
  end.

(** Lookup in a table keyed by strings. *)
Definition assoc {A} (key : string) (table : list (string * A)) : option A :=
  snd <$> List.find (λ entry, String.eqb (fst entry) key) table.

Section Ast.
Context {number : Type}.

(** Expression nodes, one constructor per [SyntaxKind] the sources test
    for.  An identifier carries its position: two identifier nodes are the
    same object iff they stand at the same place. *)
Inductive Node : Type :=
| StringLiteral (literalValue : string)
| NumericLiteral (literalValue : number)
| NoSubstitutionTemplateLiteral (literalValue : string)
| TrueKeyword
| FalseKeyword
| NullKeyword
| UndefinedKeyword
| BigIntLiteral (text : string)
| TemplateExpression
| AsExpression (expression : Node) (typeNode : string)
| TypeAssertionExpression (expression : Node)
| ParenthesizedExpression (expression : Node)
| Identifier (pos : nat) (text : string)
| PropertyAccessExpression (expression : Node) (name : string)
| ElementAccessExpression (expression : Node) (argument : Node)
| BinaryExpression (leftNode : Node) (operatorToken : OperatorToken) (rightNode : Node)
| ArrayLiteralExpression (elements : list Node)
| ObjectLiteralExpression (properties : list ObjectLiteralElement)
| SpreadElement (expression : Node)
| CallExpression (expression : Node) (arguments : list Node)
| ArrowFunction (body : Node)
| OtherNode (kindName : string)
with ObjectLiteralElement : Type :=
| PropertyAssignment (name : PropertyName) (initializer : option Node)
| ShorthandPropertyAssignment (name : string)
| SpreadAssignment (expression : Node)
| MethodDeclaration (name : PropertyName)
| GetAccessor (name : PropertyName)
| SetAccessor (name : PropertyName).

(** [export type EnumLiteral = string | number | boolean]. *)
Inductive EnumLiteral : Type :=
| LString (s : string)
| LNumber (n : number)
| LBoolean (b : bool).

(** The messages of [createEvaluationError], one constructor per template. *)
Inductive EvaluationMessage : Type :=
| ExpectedLiteralValue
| ExpectedPropertyAccessExpression
| CannotResolvePropertyAccess
| ExpectedBinaryExpression
| OperandsMustBeNumbers
| UnsupportedBinaryOperator
| CannotUnwrapNode
| CannotResolveIdentifier
| CannotEvaluateNode
| MissingValueProperty
| ValueHasNoInitializer
| SpreadMustBeIdentifier
| CannotResolveSpread
| SpreadNotArrayLiteral.

Record EvaluationError : Type := createEvaluationError {
  message : EvaluationMessage;
  node : Node;
}.

Definition EvaluationResult : Type := Result EnumLiteral EvaluationError.

(** What a symbol's value declaration is. *)
Inductive Declaration : Type :=
| VariableDeclaration (initializer : option Node)
| EnumMember (value : option EnumLiteral) (initializer : option Node)
| ArrowFunctionDeclaration (body : Node)
| InitializedDeclaration (initializer : option Node)
| PlainDeclaration.

Record Symbol : Type := {
  getValueDeclaration : option Declaration;
  getAliasedValueDeclaration : option Declaration;
}.

(** What [inferTypeFromTypeScriptType] reads off a type. *)
Record TsType : Type := {
  typeSymbolName : option string;
  typeText : string;
  unionTypeTexts : list string;
}.

(** The queries of ts-morph that reach outside the node at hand.
    [getVariableDeclaration name] is the initializer of the top-level
    declaration of [name] in the source file, [getTypeAtLocation] is [None]
    when there is no type or the query throws. *)
Record TypeChecker : Type := {
  getSymbol : Node → option Symbol;
  getSymbolAtLocation : Node → option Symbol;
  getVariableDeclaration : string → option (option Node);
  getTypeAtLocation : Node → option TsType;
}.

(** The errors and results of [extractor/types.ts]. *)
Inductive ExtractionErrorKind : Type :=
| CannotEvaluate
| UnsupportedPattern
| InvalidNodeType
| MissingProperty
| UnresolvableSymbol.

Inductive ExtractionMessage : Type :=
| MissingValuePropertyMessage
| NoEvaluableElements
| FailedToExtractOptions (errors : list EvaluationMessage)
| ExpectedNodeOfKind (kindName : string)
| ExpectedArrayFromPattern
| ArrayFromRequiresArgument
| ArrayFromArgumentNotSupported
| ExpectedMapCall (methodName : string)
| UnsupportedMapPattern
| ExpectedCallExpression
| ExpectedMethodCall
| EvaluationFailed (message : EvaluationMessage).

Record ExtractionError : Type := createExtractionError {
  errorKind : ExtractionErrorKind;
  errorMessage : ExtractionMessage;
  errorNode : Node;
}.

Record SelectOptions : Type := {
  values : list EnumLiteral;
  labels : gmap string string;
}.

Definition SelectOptionsResult : Type := Result SelectOptions ExtractionError.

(** A run-time value of type [unknown]: what a default can be. *)
Inductive Value : Type :=
| VUndefined
| VNull
| VString (s : string)
| VNumber (n : number)
| VBoolean (b : bool)
| VArray (items : list Value)
| VObject (fields : list (string * Value)).

End Ast.
Arguments Node : clear implicits.
Arguments ObjectLiteralElement : clear implicits.
Arguments EnumLiteral : clear implicits.
Arguments EvaluationError : clear implicits.
Arguments EvaluationResult : clear implicits.
Arguments Declaration : clear implicits.
Arguments Symbol : clear implicits.
Arguments TypeChecker : clear implicits.
Arguments ExtractionError : clear implicits.
Arguments SelectOptions : clear implicits.
Arguments SelectOptionsResult : clear implicits.
Arguments Value : clear implicits.


(** ** Numbers and a checker to run the definitions on *)

(** Exact rationals standing for doubles: they agree with them on the
    integers and halves used below, where nothing overflows or divides by
    zero. *)
Module Rational.

Definition trunc (q : Q) : Z := Z.quot (Qnum q) (Zpos (Qden q)).

Definition toUint32 (q : Q) : Z := trunc q `mod` 2 ^ 32.

Definition toInt32 (q : Q) : Z :=
  let m := toUint32 q in if Z.leb (2 ^ 31) m then m - 2 ^ 32 else m.

Definition int32 (z : Z) : Q := inject_Z (toInt32 (inject_Z z)).

Definition integral (q : Q) : bool := Z.eqb (Z.pos (Qden (Qred q))) 1.

Definition toString (q : Q) : string :=
  if integral q then pretty (trunc q)
  else String.append (pretty (Qnum (Qred q)))
         (String.append "/" (pretty (Z.pos (Qden (Qred q))))).

#[global] Instance jsNumber : JsNumber Q := {|
  ofZ := inject_Z;
  isInteger := integral;
  sameValueZero := Qeq_bool;
  bitOr a b := inject_Z (Z.lor (toInt32 a) (toInt32 b));
  bitAnd a b := inject_Z (Z.land (toInt32 a) (toInt32 b));
  bitXor a b := inject_Z (Z.lxor (toInt32 a) (toInt32 b));
  shiftLeft a b := int32 (Z.shiftl (toInt32 a) (toUint32 b `mod` 32));
  shiftRight a b := inject_Z (Z.shiftr (toInt32 a) (toUint32 b `mod` 32));
  shiftRightUnsigned a b := inject_Z (Z.shiftr (toUint32 a) (toUint32 b `mod` 32));
  plus := Qplus;
  minus := Qminus;
  times := Qmult;
  divide := Qdiv;
  remainder a b := Qminus a (Qmult b (inject_Z (trunc (Qdiv a b))));
  numberToString := toString;
  parseInt10 q := inject_Z (trunc q);
  schemaNumber _ := true;
|}.

End Rational.

(** A source file made of top-level [const name = init] declarations: every
    identifier is bound to the declaration of its name. *)
Definition declares (declarations : list (string * Node Q)) : TypeChecker Q := {|
  getSymbol n :=
    match n with
    | Identifier _ text =>
        init ← assoc text declarations;
        Some {| getValueDeclaration := Some (VariableDeclaration (Some init));
                getAliasedValueDeclaration := None |}
    | _ => None
    end;
  getSymbolAtLocation _ := None;
  getVariableDeclaration text := Some <$> assoc text declarations;
  getTypeAtLocation _ := None;
|}.

(** The text of the nodes whose text the code reads: names and dotted
    accesses. *)
Fixpoint sourceText (n : Node Q) : string :=
  match n with
  | Identifier _ text => text
  | PropertyAccessExpression expression name =>
      String.append (sourceText expression) (String.append "." name)
  | _ => ""
  end.

(** The option types of the plugin API, by number. *)
Definition optionTypes (n : Q) : option string :=
  assoc (Rational.toString n)
    [("0", "STRING"); ("1", "NUMBER"); ("2", "BIGINT"); ("3", "BOOLEAN");
     ("4", "SELECT"); ("5", "SLIDER"); ("6", "COMPONENT"); ("7", "CUSTOM")].

(** Stand-ins for the parts of the extractor that are parameters below:
    matchers that turn every call down, a fold of call expressions that
    finds nothing, and patterns that match no text. *)
Definition noMatch (fuel : nat) (call : Node Q) : option (SelectOptionsResult Q) :=
  Some (Err (createExtractionError UnsupportedPattern UnsupportedMapPattern call)).

Definition noThemeMatch (fuel : nat) (target call : Node Q)
  : option (SelectOptionsResult Q) :=
  Some (Err (createExtractionError UnsupportedPattern UnsupportedMapPattern call)).

Definition noFold (fuel : nat) (valueObj : list (ObjectLiteralElement Q))
  : option (Result (Value Q) (ExtractionError Q)) :=
  Some (Ok VUndefined).

Definition noPattern (text : string) : bool := false.

(** [name: init] and [OptionType.NAME]. *)
Definition property (name : string) (init : Node Q) : ObjectLiteralElement Q :=
  PropertyAssignment (IdentifierName name) (Some init).

Definition optionType (name : string) : Node Q :=
  PropertyAccessExpression (Identifier 0 "OptionType") name.

(** [{ value: v }] and [{ value: v, default: true }]. *)
Definition choice (v : Node Q) : Node Q :=
  ObjectLiteralExpression [property "value" v].

Definition defaultChoice (v : Node Q) : Node Q :=
  ObjectLiteralExpression [property "value" v; property "default" TrueKeyword].

(** [(1 + 2)]. *)
Definition onePlusTwo : Node Q :=
  BinaryExpression (NumericLiteral 1%Q) PlusToken (NumericLiteral 2%Q).

(** [{ type: OptionType.STRING, options: [{ value: true }, { value: false }] }]. *)
Definition stringWithBooleanChoices : list (ObjectLiteralElement Q) :=
  [property "type" (optionType "STRING");
   property "options" (ArrayLiteralExpression [choice TrueKeyword; choice FalseKeyword])].

(** [{ type: OptionType.SELECT, options: [{ value: "x" }, { value: "y", default: true }] }]
    and the same without the marker. *)
Definition selectWithMarker : list (ObjectLiteralElement Q) :=
  [property "type" (optionType "SELECT");
   property "options"
     (ArrayLiteralExpression [choice (StringLiteral "x"); defaultChoice (StringLiteral "y")])].

Definition selectWithoutMarker : list (ObjectLiteralElement Q) :=
  [property "type" (optionType "SELECT");
   property "options"
     (ArrayLiteralExpression [choice (StringLiteral "x"); choice (StringLiteral "y")])].

(** [const LIST = ["x"]] and
    [{ type: OptionType.SELECT, options: [{ value: "a" }, { value: "b", default: true }],
       default: LIST }]. *)
Definition listDeclaration : list (string * Node Q) :=
  [("LIST", ArrayLiteralExpression [StringLiteral "x"])].

Definition selectWithListDefault : list (ObjectLiteralElement Q) :=
  [property "type" (optionType "SELECT");
   property "options"
     (ArrayLiteralExpression [choice (StringLiteral "a"); defaultChoice (StringLiteral "b")]);
   property "default" (Identifier 7 "LIST")].

(** [{ type: OptionType.STRING, default: ["a", "b"] }]. *)
Definition stringWithArrayDefault : list (ObjectLiteralElement Q) :=
  [property "type" (optionType "STRING");
   property "default" (ArrayLiteralExpression [StringLiteral "a"; StringLiteral "b"])].

(** [{ type: OptionType.COMPONENT, get default() { ... } }]. *)
Definition componentWithGetter : list (ObjectLiteralElement Q) :=
  [property "type" (optionType "COMPONENT"); GetAccessor (IdentifierName "default")].

(** [{ type: OptionType.STRING, hidden: true }] and [{ type: OptionType.BOOLEAN }]. *)
Definition hiddenString : list (ObjectLiteralElement Q) :=
  [property "type" (optionType "STRING"); property "hidden" TrueKeyword].

Definition plainBoolean : list (ObjectLiteralElement Q) :=
  [property "type" (optionType "BOOLEAN")].





(** [const a = b; const b = a]. *)
Definition cyclicDeclarations : list (string * Node Q) :=
  [("a", Identifier 2 "b"); ("b", Identifier 1 "a")].

(** [("x") as const]. *)
Definition wrappedString : Node Q :=
  AsExpression (ParenthesizedExpression (StringLiteral "x")) "const".

(** [ActivityType.LISTENING]. *)
Definition listening : Node Q :=
  PropertyAccessExpression (Identifier 9 "ActivityType") "LISTENING".

(** [(1 + 2) * "x"], without the parentheses of the source text. *)
Definition sumTimesString : Node Q :=
  BinaryExpression onePlusTwo AsteriskToken (StringLiteral "x").

(** [[{ value: 1, label: "One" }, { value: 2 }]]. *)
Definition labelledChoices : list (Node Q) :=
  [ObjectLiteralExpression
     [property "value" (NumericLiteral 1%Q); property "label" (StringLiteral "One")];
   choice (NumericLiteral 2%Q)].


(** [{ type: OptionType.SELECT,
       options: [{ value: "x" }, { value: "y", default: true }] as const }]. *)
Definition selectWithWrappedOptions : list (ObjectLiteralElement Q) :=
  [property "type" (optionType "SELECT");
   property "options"
     (AsExpression
        (ArrayLiteralExpression [choice (StringLiteral "x"); defaultChoice (StringLiteral "y")])
        "const")].

(** [{ type: OptionType.COMPONENT, component: () => null }]. *)
Definition bareComponent : list (ObjectLiteralElement Q) :=
  [property "type" (optionType "COMPONENT"); property "component" (ArrowFunction NullKeyword)].

(** [{ visible: { type: OptionType.BOOLEAN },
       secret: { type: OptionType.STRING, hidden: true },
       count: 1 }]. *)
Definition threeProperties : list (PropertyName * option (Node Q)) :=
  [(IdentifierName "visible", Some (ObjectLiteralExpression plainBoolean));
   (IdentifierName "secret", Some (ObjectLiteralExpression hiddenString));
   (IdentifierName "count", Some (NumericLiteral 1%Q))].

Section Extractor.
Context {number : Type} `{JsNumber number}.
Context (checker : TypeChecker number).

Local Abbreviation Node := (Node number).
Local Abbreviation ObjectLiteralElement := (ObjectLiteralElement number).
Local Abbreviation EnumLiteral := (EnumLiteral number).
Local Abbreviation EvaluationResult := (EvaluationResult number).
Local Abbreviation Declaration := (Declaration number).
Local Abbreviation Symbol := (Symbol number).
Local Abbreviation EvaluationError := (EvaluationError number).
Local Abbreviation ExtractionError := (ExtractionError number).
Local Abbreviation SelectOptions := (SelectOptions number).
Local Abbreviation SelectOptionsResult := (SelectOptionsResult number).
Local Abbreviation Value := (Value number).

(** ** foundation.ts *)

Definition isCollectionKind (node : Node) : bool :=
  match node with
  | ArrayLiteralExpression _ | ObjectLiteralExpression _ => true
  | _ => false
  end.

Fixpoint unwrapNode (node : Node) : Node :=
  match node with
  | AsExpression expression _ => unwrapNode expression
  | TypeAssertionExpression expression => unwrapNode expression
  | ParenthesizedExpression expression => unwrapNode expression
  | _ => node
  end.

Definition isWrappedNode (node : Node) : bool :=
  match node with
  | AsExpression _ _ | TypeAssertionExpression _ | ParenthesizedExpression _ => true
  | _ => false
  end.

Definition getArrowFunctionBody (node : Node) : option Node :=
  match node with
  | ArrowFunction body => Some (unwrapNode body)
  | _ => None
  end.

Definition evaluateLiteral (node : Node) : EvaluationResult :=
  let unwrapped := unwrapNode node in
  match unwrapped with
  | StringLiteral v => Ok (LString v)
  | NumericLiteral v => Ok (LNumber v)
  | NoSubstitutionTemplateLiteral v => Ok (LString v)
  | TrueKeyword => Ok (LBoolean true)
  | FalseKeyword => Ok (LBoolean false)
  | _ => Err (createEvaluationError ExpectedLiteralValue unwrapped)
  end.

Definition isLiteralKind (node : Node) : bool :=
  match node with
  | StringLiteral _ | NumericLiteral _ | NoSubstitutionTemplateLiteral _
  | TrueKeyword | FalseKeyword => true
  | _ => false
  end.

Definition isLiteralNode (node : Node) : bool := isLiteralKind (unwrapNode node).

(** [node.getSymbol() ?? checker.getSymbolAtLocation(node)]. *)
Definition symbolOf (node : Node) : option Symbol :=
  match getSymbol checker node with
  | Some symbol => Some symbol
  | None => getSymbolAtLocation checker node
  end.

Definition resolveIdentifier (identifier : Node) : option Node :=
  symbol ← symbolOf identifier;
  valueDecl ← getValueDeclaration symbol;
  match valueDecl with
  | VariableDeclaration init => unwrapNode <$> init
  | _ => None
  end.

Definition resolveIdentifierWithFallback (node : Node) : option Node :=
  match node with
  | Identifier _ text =>
      match resolveIdentifier node with
      | Some resolved => Some resolved
      | None =>
          init ← mjoin (getVariableDeclaration checker text);
          Some (unwrapNode init)
      end
  | _ => None
  end.

Definition EXTERNAL_ENUMS : list (string * list (string * Z)) :=
  [ ("ActivityType",
      [("PLAYING", 0); ("STREAMING", 1); ("LISTENING", 2); ("WATCHING", 3);
       ("CUSTOM", 4); ("COMPETING", 5)]);
    ("StatusType", [("ONLINE", 0); ("IDLE", 1); ("DND", 2); ("INVISIBLE", 3)]);
    ("ChannelType", [("GUILD_TEXT", 0); ("DM", 1); ("GUILD_VOICE", 2)]) ].

(** The properties of [Object.prototype], which every plain object inherits. *)
Definition OBJECT_PROTOTYPE_NAMES : list string :=
  ["constructor"; "hasOwnProperty"; "isPrototypeOf"; "propertyIsEnumerable";
   "toLocaleString"; "toString"; "valueOf"; "__proto__";
   "__defineGetter__"; "__defineSetter__"; "__lookupGetter__"; "__lookupSetter__"].

Definition isInheritedName (name : string) : bool :=
  existsb (String.eqb name) OBJECT_PROTOTYPE_NAMES.

(** What [EXTERNAL_ENUMS[enumName]?.[member]] finds.  The table and its
    entries are plain objects, so a name that is not a key of its own is
    looked up on [Object.prototype]: [ActivityType.toString] is a function,
    and [constructor.length] is whatever the function [Object] holds under
    [length].  Such a lookup is [ExternalInherited]; what it finds is outside
    the table and is not followed. *)
Inductive ExternalLookup : Type :=
| ExternalNumber (value : Z)
| ExternalInherited
| ExternalUndefined.

Definition getExternalEnumValue (enumName member : string) : ExternalLookup :=
  match assoc enumName EXTERNAL_ENUMS with
  | Some members =>
      match assoc member members with
      | Some value => ExternalNumber value
      | None => if isInheritedName member then ExternalInherited else ExternalUndefined
      end
  | None => if isInheritedName enumName then ExternalInherited else ExternalUndefined
  end.

(** [getName()] of a member of an object literal; a spread has none. *)
Definition getName (p : ObjectLiteralElement) : option string :=
  match p with
  | PropertyAssignment name _ => Some (getNameText name)
  | ShorthandPropertyAssignment name => Some name
  | SpreadAssignment _ => None
  | MethodDeclaration name => Some (getNameText name)
  | GetAccessor name => Some (getNameText name)
  | SetAccessor name => Some (getNameText name)
  end.

(** ts-morph's [ObjectLiteralExpression.getProperty(name)]: the first member
    of that name. *)
Definition getProperty (properties : list ObjectLiteralElement) (name : string)
  : option ObjectLiteralElement :=
  List.find
    (λ p, match getName p with Some n => String.eqb n name | None => false end)
    properties.

(** ['getInitializer' in decl ? decl.getInitializer() : undefined]. *)
Definition getInitializerOf (decl : Declaration) : option Node :=
  match decl with
  | VariableDeclaration init => init
  | EnumMember _ init => init
  | InitializedDeclaration init => init
  | ArrowFunctionDeclaration _ | PlainDeclaration => None
  end.

(** The step [if (init?.getKind() === AsExpression) init = init.getExpression()]. *)
Definition stripAsExpression (init : option Node) : option Node :=
  match init with
  | Some (AsExpression expression _) => Some expression
  | _ => init
  end.

(** The block of [evaluatePropertyAccess] that looks the member up in an
    object literal; the source has it twice, for [baseInit] and [altInit].
    [Some r] when that block returns [r], [None] when control falls through. *)
Definition evaluateObjectMember (init : option Node) (name : string)
    (evaluateValue : Node → option EvaluationResult)
  : option (option EvaluationResult) :=
  match init with
  | Some (ObjectLiteralExpression properties) =>
      match getProperty properties name with
      | Some (PropertyAssignment _ (Some init)) => Some (evaluateValue init)
      | _ => None
      end
  | _ => None
  end.

Definition evaluateEnumMember (valueDecl : option Declaration)
    (evaluateValue : Node → option EvaluationResult)
  : option (option EvaluationResult) :=
  match valueDecl with
  | Some (EnumMember value init) =>
      match value with
      | Some (LNumber n) => Some (Some (Ok (LNumber n)))
      | Some (LString s) => Some (Some (Ok (LString s)))
      | _ => evaluateValue <$> init
      end
  | _ => None
  end.

Definition evaluateThroughBase (baseExpr : Node) (name : string)
    (evaluateValue : Node → option EvaluationResult)
  : option (option EvaluationResult) :=
  match baseExpr with
  | Identifier _ text =>
      let baseSym := symbolOf baseExpr in
      let baseDecl :=
        match baseSym ≫= getValueDeclaration with
        | Some decl => Some decl
        | None => baseSym ≫= getAliasedValueDeclaration
        end in
      let baseInit := stripAsExpression (baseDecl ≫= getInitializerOf) in
      match evaluateObjectMember baseInit name evaluateValue with
      | Some r => Some r
      | None =>
          match baseInit with
          | Some _ => None
          | None =>
              let altInit :=
                stripAsExpression (mjoin (getVariableDeclaration checker text)) in
              evaluateObjectMember altInit name evaluateValue
          end
      end
  | _ => None
  end.

(** The keys of [EXTERNAL_ENUMS] and the names of [Object.prototype] are
    identifiers, so only an identifier base can have one of them as its
    text. *)
Definition baseText (baseExpr : Node) : option string :=
  match baseExpr with
  | Identifier _ text => Some text
  | _ => None
  end.

Definition evaluatePropertyAccess (node : Node)
    (evaluateValue : Node → option EvaluationResult) : option EvaluationResult :=
  match node with
  | PropertyAccessExpression baseExpr name =>
      let valueDecl := symbolOf node ≫= getValueDeclaration in
      match evaluateEnumMember valueDecl evaluateValue with
      | Some r => r
      | None =>
          match evaluateThroughBase baseExpr name evaluateValue with
          | Some r => r
          | None =>
              match baseText baseExpr with
              | Some text =>
                  match getExternalEnumValue text name with
                  | ExternalNumber value => Some (Ok (LNumber (ofZ value)))
                  | ExternalInherited => None
                  | ExternalUndefined =>
                      Some (Err (createEvaluationError CannotResolvePropertyAccess node))
                  end
              | None => Some (Err (createEvaluationError CannotResolvePropertyAccess node))
              end
          end
      end
  | _ => Some (Err (createEvaluationError ExpectedPropertyAccessExpression node))
  end.

Definition BINARY_OPERATORS (token : OperatorToken)
  : option (number → number → number) :=
  match token with
  | BarToken => Some bitOr
  | AmpersandToken => Some bitAnd
  | CaretToken => Some bitXor
  | LessThanLessThanToken => Some shiftLeft
  | GreaterThanGreaterThanToken => Some shiftRight
  | GreaterThanGreaterThanGreaterThanToken => Some shiftRightUnsigned
  | PlusToken => Some plus
  | MinusToken => Some minus
  | AsteriskToken => Some times
  | SlashToken => Some divide
  | PercentToken => Some remainder
  | EqualsEqualsEqualsToken | OtherToken _ => None
  end.

Definition evaluateBinaryExpression (node : Node)
    (evaluateOperand : Node → option EvaluationResult) : option EvaluationResult :=
  match node with
  | BinaryExpression leftNode operatorToken rightNode =>
      leftResult ← evaluateOperand leftNode;
      rightResult ← evaluateOperand rightNode;
      match leftResult, rightResult with
      | Err error, _ => Some (Err error)
      | _, Err error => Some (Err error)
      | Ok (LNumber l), Ok (LNumber r) =>
          match BINARY_OPERATORS operatorToken with
          | None => Some (Err (createEvaluationError UnsupportedBinaryOperator node))
          | Some op => Some (Ok (LNumber (op l r)))
          end
      | Ok _, Ok _ => Some (Err (createEvaluationError OperandsMustBeNumbers node))
      end
  | _ => Some (Err (createEvaluationError ExpectedBinaryExpression node))
  end.

Definition isSupportedBinaryExpression (node : Node) : bool :=
  match node with
  | BinaryExpression _ operatorToken _ => bool_decide (is_Some (BINARY_OPERATORS operatorToken))
  | _ => false
  end.

(** [resolved !== node]: the node under evaluation is an identifier, and two
    identifier nodes are one object iff they stand at the same position. *)
Definition sameNode (a b : Node) : bool :=
  match a, b with
  | Identifier p _, Identifier q _ => Nat.eqb p q
  | _, _ => false
  end.

Fixpoint evaluate (fuel : nat) (node : Node) : option EvaluationResult :=
  match fuel with
  | O => None
  | S fuel' =>
      if isLiteralNode node then Some (evaluateLiteral node)
      else
        match node with
        | AsExpression _ _ | TypeAssertionExpression _ | ParenthesizedExpression _ =>
            match resolveIdentifierWithFallback node with
            | Some unwrapped => evaluate fuel' unwrapped
            | None => Some (Err (createEvaluationError CannotUnwrapNode node))
            end
        | Identifier _ _ =>
            match resolveIdentifierWithFallback node with
            | Some resolved =>
                if sameNode resolved node
                then Some (Err (createEvaluationError CannotResolveIdentifier node))
                else evaluate fuel' resolved
            | None => Some (Err (createEvaluationError CannotResolveIdentifier node))
            end
        | PropertyAccessExpression _ _ => evaluatePropertyAccess node (evaluate fuel')
        | _ =>
            if isSupportedBinaryExpression node
            then evaluateBinaryExpression node (evaluate fuel')
            else Some (Err (createEvaluationError CannotEvaluateNode node))
        end
  end.

(** [tryEvaluate]: the inner [None] is [undefined]. *)
Definition tryEvaluate (fuel : nat) (node : Node) : option (option EnumLiteral) :=
  result ← evaluate fuel node;
  Some (match result with Ok value => Some value | Err _ => None end).

(** [node] evaluates to [r]: the call returns [r] once the recursion is given
    room. *)
Definition evaluatesTo (node : Node) (r : EvaluationResult) : Prop :=
  ∃ fuel, evaluate fuel node = Some r.

(** ** utils/node-helpers.ts *)

(** Modelled from the spec: [utils/node-helpers.ts] is not among the sources.
    [getPropertyAssignment] is the member of that name when it is a property
    assignment, the way the settings extractor writes it inline
    ([getProperty(name)?.asKind(PropertyAssignment)]). *)
Definition getPropertyAssignment (properties : list ObjectLiteralElement)
    (name : string) : option (PropertyName * option Node) :=
  match getProperty properties name with
  | Some (PropertyAssignment propName init) => Some (propName, init)
  | _ => None
  end.

(** Modelled from the spec: the initializer of that property assignment. *)
Definition getPropertyInitializer (properties : list ObjectLiteralElement)
    (name : string) : option Node :=
  prop ← getPropertyAssignment properties name;
  snd prop.

(** Modelled from the spec: the property assignments of an object literal, in
    source order. *)
Definition iteratePropertyAssignments (properties : list ObjectLiteralElement)
  : list (PropertyName * option Node) :=
  omap (λ p, match p with
             | PropertyAssignment name init => Some (name, init)
             | _ => None
             end) properties.

(** ** extractor/types.ts *)

(** Modelled from the spec: [createSelectOptionsResult(values, labels)] of
    [extractor/types.ts], a successful result holding the two. *)
Definition createSelectOptionsResult (values : list EnumLiteral)
    (labels : gmap string string) : SelectOptionsResult :=
  Ok {| values := values; labels := labels |}.

(** ** select/options/array-patterns.ts *)

Definition VALUE_PROPERTY : string := "value".
Definition LABEL_PROPERTY : string := "label".
Definition DEFAULT_PROPERTY : string := "default".

(** [String(value)], the key of a label. *)
Definition literalToString (value : EnumLiteral) : string :=
  match value with
  | LString s => s
  | LNumber n => numberToString n
  | LBoolean true => "true"
  | LBoolean false => "false"
  end.

Definition ValueAndLabel : Type := (EnumLiteral * option string)%type.

(** [values] and [labels] are mutated in place in the source; here they are
    the state handed on. *)
Definition addValueAndLabel (state : list EnumLiteral * gmap string string)
    (valueResult : Result ValueAndLabel EvaluationError)
  : list EnumLiteral * gmap string string :=
  match valueResult with
  | Ok (value, label) =>
      (state.1 ++ [value],
       match label with
       | Some l => <[literalToString value := l]> state.2
       | None => state.2
       end)
  | Err _ => state
  end.

(** When the value property has no initializer the source attaches the
    property to the error; the object literal stands for it here. *)
Definition extractValueAndLabel (fuel : nat) (obj : Node)
    (properties : list ObjectLiteralElement)
  : option (Result ValueAndLabel EvaluationError) :=
  match getPropertyAssignment properties VALUE_PROPERTY with
  | None => Some (Err (createEvaluationError MissingValueProperty obj))
  | Some (_, None) => Some (Err (createEvaluationError ValueHasNoInitializer obj))
  | Some (_, Some valueInit) =>
      valueResult ← evaluate fuel valueInit;
      match valueResult with
      | Err error => Some (Err error)
      | Ok value =>
          let label :=
            match getPropertyAssignment properties LABEL_PROPERTY with
            | Some (_, Some (StringLiteral l)) => Some l
            | _ => None
            end in
          match label with
          | Some l => if String.eqb l "" then Some (Ok (value, None))
                      else Some (Ok (value, Some l))
          | None => Some (Ok (value, None))
          end
      end
  end.

(** One turn of the loops over array elements that keep object literals only. *)
Definition addObjectElement (fuel : nat)
    (state : option (list EnumLiteral * gmap string string)) (elem : Node)
  : option (list EnumLiteral * gmap string string) :=
  st ← state;
  match elem with
  | ObjectLiteralExpression properties =>
      r ← extractValueAndLabel fuel elem properties;
      Some (addValueAndLabel st r)
  | _ => Some st
  end.

Definition extractFromSpreadElement (fuel : nat) (spread expr : Node)
  : option (Result (list EnumLiteral * gmap string string) EvaluationError) :=
  match expr with
  | Identifier _ _ =>
      let valueDecl := symbolOf expr ≫= getValueDeclaration in
      match valueDecl ≫= getInitializerOf with
      | None => Some (Err (createEvaluationError CannotResolveSpread spread))
      | Some (ArrayLiteralExpression elements) =>
          st ← foldl (addObjectElement fuel) (Some ([], ∅)) elements;
          Some (Ok st)
      | Some _ => Some (Err (createEvaluationError SpreadNotArrayLiteral spread))
      end
  | _ => Some (Err (createEvaluationError SpreadMustBeIdentifier spread))
  end.

Definition extractOptionsFromArrayMap (fuel : nat) (arr : Node)
  : option SelectOptionsResult :=
  match arr with
  | ArrayLiteralExpression elements =>
      results ← mapM (evaluate fuel) elements;
      let values := omap (λ r, match r with Ok v => Some v | Err _ => None end) results in
      let errors := omap (λ r, match r with Ok _ => None | Err e => Some (message e) end) results in
      if bool_decide (0 < length errors)%nat && bool_decide (length values = 0%nat)
      then Some (Err (createExtractionError CannotEvaluate (FailedToExtractOptions errors) arr))
      else Some (createSelectOptionsResult values ∅)
  | _ => Some (Err (createExtractionError InvalidNodeType
                      (ExpectedNodeOfKind "ArrayLiteralExpression") arr))
  end.

(** [isArrayFromCall] of [select/patterns]: a call of [Array.from]. *)
Definition isArrayFromCallee (expr : Node) : bool :=
  match expr with
  | PropertyAccessExpression (Identifier _ text) name =>
      String.eqb text "Array" && String.eqb name "from"
  | _ => false
  end.

Definition isArrayFromCall (call : Node) : bool :=
  match call with
  | CallExpression expr _ => isArrayFromCallee expr
  | _ => false
  end.

(** [resolveIdentifierInitializerNode] of [node-utils.ts]. *)
Definition resolveIdentifierInitializerNode (node : Node) : option Node :=
  match node with
  | Identifier _ _ => resolveIdentifier node
  | _ => None
  end.

Definition extractOptionsFromArrayFrom (fuel : nat) (call : Node)
  : option SelectOptionsResult :=
  if negb (isArrayFromCall call)
  then Some (Err (createExtractionError UnsupportedPattern ExpectedArrayFromPattern call))
  else
    match call with
    | CallExpression _ args =>
        match args with
        | [] => Some (Err (createExtractionError MissingProperty ArrayFromRequiresArgument call))
        | firstArg :: _ =>
            match firstArg with
            | ArrayLiteralExpression _ => extractOptionsFromArrayMap fuel firstArg
            | Identifier _ _ =>
                match resolveIdentifierInitializerNode firstArg with
                | Some (ArrayLiteralExpression elements) =>
                    extractOptionsFromArrayMap fuel (ArrayLiteralExpression elements)
                | _ => Some (Err (createExtractionError UnsupportedPattern
                                    ArrayFromArgumentNotSupported call))
                end
            | _ => Some (Err (createExtractionError UnsupportedPattern
                                ArrayFromArgumentNotSupported call))
            end
        end
    | _ => Some (Err (createExtractionError UnsupportedPattern ExpectedArrayFromPattern call))
    end.

Definition hasMissingValueProp (elements : list Node) : bool :=
  existsb (λ element,
    match element with
    | ObjectLiteralExpression properties =>
        bool_decide (getPropertyAssignment properties VALUE_PROPERTY = None)
    | _ => false
    end) elements.

(** The body of the loop of [extractOptionsFromObjectArray]. *)
Definition addArrayElement (fuel : nat)
    (state : option (list EnumLiteral * gmap string string)) (element : Node)
  : option (list EnumLiteral * gmap string string) :=
  st ← state;
  match element with
  | ObjectLiteralExpression properties =>
      r ← extractValueAndLabel fuel element properties;
      Some (addValueAndLabel st r)
  | SpreadElement expr =>
      spreadResult ← extractFromSpreadElement fuel element expr;
      match spreadResult with
      | Ok (spreadValues, spreadLabels) =>
          Some (st.1 ++ spreadValues, spreadLabels ∪ st.2)
      | Err _ => Some st
      end
  | _ => Some st
  end.

Definition extractOptionsFromObjectArray (fuel : nat) (arr : Node)
    (elements : list Node) : option SelectOptionsResult :=
  let hasElements := bool_decide (0 < length elements)%nat in
  st ← foldl (addArrayElement fuel) (Some ([], ∅)) elements;
  if bool_decide (length st.1 = 0%nat) && hasElements
  then Some (Err (createExtractionError CannotEvaluate
                    (if hasMissingValueProp elements
                     then MissingValuePropertyMessage else NoEvaluableElements) arr))
  else Some (createSelectOptionsResult st.1 st.2).

(** ** select/options/index.ts *)

(** The matchers of [object-patterns.ts] and [theme-patterns.ts] rest on
    helpers of [utils/node-helpers.ts] that are not among the sources
    ([isMethodCall], [getPropertyName]); they are parameters, and what is
    proved below holds whatever they return. *)
Context (extractOptionsFromObjectKeys extractOptionsFromObjectValues
           : nat → Node → option SelectOptionsResult).
Context (extractOptionsFromThemePattern
           : nat → Node → Node → option SelectOptionsResult).

Definition OPTIONS_PROPERTY : string := "options".
Definition METHOD_NAME_MAP : string := "map".

Definition emptyOptions : SelectOptionsResult :=
  Ok {| values := []; labels := ∅ |}.

Definition extractFromMapCall (fuel : nat) (propName : string) (target call : Node)
  : option SelectOptionsResult :=
  if negb (String.eqb propName METHOD_NAME_MAP)
  then Some (Err (createExtractionError UnsupportedPattern (ExpectedMapCall propName) call))
  else
    arrayResult ← extractOptionsFromArrayMap fuel target;
    if isOk arrayResult then Some arrayResult
    else
      let thenTheme :=
        themeResult ← extractOptionsFromThemePattern fuel target call;
        if isOk themeResult then Some themeResult
        else Some (Err (createExtractionError UnsupportedPattern UnsupportedMapPattern call)) in
      match target with
      | CallExpression _ _ =>
          keysResult ← extractOptionsFromObjectKeys fuel target;
          if isOk keysResult then Some keysResult
          else
            valuesResult ← extractOptionsFromObjectValues fuel target;
            if isOk valuesResult then Some valuesResult else thenTheme
      | _ => thenTheme
      end.

Definition extractFromCallExpression (fuel : nat) (call : Node)
  : option SelectOptionsResult :=
  match call with
  | CallExpression expr _ =>
      if isArrayFromCallee expr then extractOptionsFromArrayFrom fuel call
      else
        match expr with
        | PropertyAccessExpression target propName =>
            extractFromMapCall fuel propName target call
        | _ => Some (Err (createExtractionError UnsupportedPattern ExpectedMethodCall call))
        end
  | _ => Some (Err (createExtractionError InvalidNodeType ExpectedCallExpression call))
  end.

(** [node] is the object literal of one setting, given by its members. *)
Definition extractSelectOptions (fuel : nat) (properties : list ObjectLiteralElement)
  : option SelectOptionsResult :=
  match getProperty properties OPTIONS_PROPERTY with
  | Some (PropertyAssignment _ (Some initializer)) =>
      let initUnwrapped := unwrapNode initializer in
      match initUnwrapped with
      | ArrayLiteralExpression elements =>
          extractOptionsFromObjectArray fuel initUnwrapped elements
      | CallExpression _ _ =>
          result ← extractFromCallExpression fuel initUnwrapped;
          Some (if isOk result then result else emptyOptions)
      | _ => Some emptyOptions
      end
  | _ => Some emptyOptions
  end.

(** ** enum-resolver.ts and select/default (the default marker) *)

Definition EnumValueResult : Type := Result EnumLiteral ExtractionError.

Definition resolveEnumLikeValue (fuel : nat) (valueInitializer : Node)
  : option EnumValueResult :=
  result ← evaluate fuel valueInitializer;
  Some (match result with
        | Ok value => Ok value
        | Err error =>
            Err (createExtractionError CannotEvaluate
                   (EvaluationFailed (message error)) (node error))
        end).

(** [SelectDefaultResult]: the inner [None] is [undefined]. *)
Definition SelectDefaultResult : Type := Result (option EnumLiteral) ExtractionError.

Definition okValue {T E} (r : Result T E) : option T :=
  match r with Ok v => Some v | Err _ => None end.

Definition extractDefaultFromArrowFunction (fuel : nat) (args : list Node) (obj : Node)
  : option SelectDefaultResult :=
  match args with
  | [] => Some (Ok None)
  | arg0 :: _ =>
      match getArrowFunctionBody arg0 with
      | Some (ObjectLiteralExpression bodyObj) =>
          let defProp := getPropertyAssignment bodyObj DEFAULT_PROPERTY in
          let valueInit := getPropertyInitializer bodyObj VALUE_PROPERTY in
          let afterTrue :=
            match defProp with
            | Some (_, Some (BinaryExpression _ _ rightNode)) =>
                val ← resolveEnumLikeValue fuel rightNode;
                match val with
                | Ok v => Some (Ok (Some v))
                | Err _ =>
                    match valueInit with
                    | None => Some (Ok None)
                    | Some vi =>
                        valueVal ← resolveEnumLikeValue fuel vi;
                        Some (Ok (okValue valueVal))
                    end
                end
            | Some (_, Some (CallExpression _ _)) =>
                match obj with
                | ArrayLiteralExpression (firstEl :: _) =>
                    match firstEl with
                    | StringLiteral v => Some (Ok (Some (LString v)))
                    | _ =>
                        val ← resolveEnumLikeValue fuel firstEl;
                        Some (Ok (okValue val))
                    end
                | _ => Some (Ok None)
                end
            | _ => Some (Ok None)
            end in
          match defProp, valueInit with
          | Some (_, Some TrueKeyword), Some vi =>
              valueVal ← resolveEnumLikeValue fuel vi;
              match valueVal with
              | Ok v => Some (Ok (Some v))
              | Err _ => afterTrue
              end
          | _, _ => afterTrue
          end
      | _ => Some (Ok None)
      end
  end.

(** [find(elements, el => f(el) is Ok with a value)] followed by [f] on the
    element found: [f] is pure, so the second call returns what the first did. *)
Fixpoint findFirstDefault (f : Node → option SelectDefaultResult)
    (elements : list Node) : option SelectDefaultResult :=
  match elements with
  | [] => Some (Ok None)
  | el :: rest =>
      result ← f el;
      match result with
      | Ok (Some _) => Some result
      | _ => findFirstDefault f rest
      end
  end.

Definition findDefaultInElement (fuel : nat)
    (findDefaultInArrayLiteral : list Node → option SelectDefaultResult)
    (element : Node) : option SelectDefaultResult :=
  match element with
  | ObjectLiteralExpression obj =>
      match getPropertyAssignment obj DEFAULT_PROPERTY with
      | Some (_, Some TrueKeyword) =>
          match getPropertyInitializer obj VALUE_PROPERTY with
          | None => Some (Ok None)
          | Some valueInit =>
              val ← evaluate fuel valueInit;
              Some (Ok (okValue val))
          end
      | _ => Some (Ok None)
      end
  | SpreadElement expr =>
      match expr with
      | Identifier _ _ =>
          match resolveIdentifierInitializerNode expr with
          | Some (ArrayLiteralExpression elements) => findDefaultInArrayLiteral elements
          | _ => Some (Ok None)
          end
      | _ => Some (Ok None)
      end
  | _ => Some (Ok None)
  end.

Fixpoint findDefaultInArrayLiteral (fuel : nat) (elements : list Node)
  : option SelectDefaultResult :=
  match fuel with
  | O => None
  | S fuel' =>
      findFirstDefault
        (findDefaultInElement fuel (findDefaultInArrayLiteral fuel')) elements
  end.

Definition firstPropertyAssignmentName (properties : list ObjectLiteralElement)
  : option string :=
  match List.find (λ p, match p with PropertyAssignment _ _ => true | _ => false end)
          properties with
  | Some p => getName p
  | None => None
  end.

(** The branch of [extractDefaultFromCallExpression] for
    [Object.keys(x).map(...)]. *)
Definition extractDefaultFromKeysCall (targetCall : Node) (args : list Node)
  : SelectDefaultResult :=
  match targetCall with
  | CallExpression (PropertyAccessExpression _ innerName) keysArgs =>
      if String.eqb innerName "keys" then
        match keysArgs with
        | [] => Ok None
        | objTarget :: _ =>
            match objTarget, args with
            | Identifier _ text, arg0 :: _ =>
                match getArrowFunctionBody arg0 with
                | Some (ObjectLiteralExpression bodyObj) =>
                    match getPropertyAssignment bodyObj DEFAULT_PROPERTY with
                    | Some (_, defInit) =>
                        let hasDefaultTrue :=
                          match defInit with
                          | Some TrueKeyword => true
                          | Some (BinaryExpression _ EqualsEqualsEqualsToken _) => true
                          | _ => false
                          end in
                        if hasDefaultTrue then
                          let resolvedObj :=
                            match resolveIdentifierInitializerNode objTarget with
                            | Some (ObjectLiteralExpression ps) => Some ps
                            | _ =>
                                match mjoin (getVariableDeclaration checker text) with
                                | Some (ObjectLiteralExpression ps) => Some ps
                                | _ => None
                                end
                            end in
                          match resolvedObj ≫= firstPropertyAssignmentName with
                          | Some name => Ok (Some (LString name))
                          | None => Ok None
                          end
                        else Ok None
                    | None => Ok None
                    end
                | _ => Ok None
                end
            | _, _ => Ok None
            end
        end
      else Ok None
  | _ => Ok None
  end.

Definition hasDefinedValue (r : SelectDefaultResult) : bool :=
  match r with Ok (Some _) => true | _ => false end.

Definition extractDefaultFromCallExpression (fuel : nat) (call : Node)
  : option SelectDefaultResult :=
  match call with
  | CallExpression (PropertyAccessExpression target propName) args =>
      if negb (String.eqb propName "map") then Some (Ok None)
      else
        match target with
        | ArrayLiteralExpression _ =>
            result ← extractDefaultFromArrowFunction fuel args target;
            Some (if hasDefinedValue result then result else Ok None)
        | Identifier _ _ =>
            result ← extractDefaultFromArrowFunction fuel args target;
            Some (if hasDefinedValue result then result else Ok None)
        | CallExpression _ _ => Some (extractDefaultFromKeysCall target args)
        | _ => Some (Ok None)
        end
  | _ => Some (Ok None)
  end.

Definition extractSelectDefault (fuel : nat) (properties : list ObjectLiteralElement)
  : option SelectDefaultResult :=
  match getPropertyAssignment properties OPTIONS_PROPERTY with
  | Some (_, Some initializer) =>
      let initUnwrapped := default initializer (getArrowFunctionBody initializer) in
      match initUnwrapped with
      | CallExpression _ _ =>
          result ← extractDefaultFromCallExpression fuel initUnwrapped;
          Some (if hasDefinedValue result then result else Ok None)
      | ArrayLiteralExpression elements => findDefaultInArrayLiteral fuel elements
      | _ => Some (Ok None)
      end
  | _ => Some (Ok None)
  end.

(** ** extractor/constants.ts *)

(** Modelled from the spec: [constants.ts] is not among the sources.  The
    target types are the closed enumeration of the specification
    ([Bool | Str | Int | Float | NullableStr | Attrs | ListOfStr |
    ListOfAttrs | Enum]), under the names the code gives them. *)
Inductive NixType : Type :=
| NIX_TYPE_BOOL
| NIX_TYPE_STR
| NIX_TYPE_INT
| NIX_TYPE_FLOAT
| NIX_TYPE_ATTRS
| NIX_TYPE_NULL_OR_STR
| NIX_TYPE_LIST_OF_STR
| NIX_TYPE_LIST_OF_ATTRS
| NIX_ENUM_TYPE.

#[local] Instance NixType_eq_dec : EqDecision NixType.
Proof. solve_decision. Defined.

(** [finalNixType.includes('nullOr')]. *)
Definition includesNullOr (t : NixType) : bool :=
  match t with NIX_TYPE_NULL_OR_STR => true | _ => false end.

(** Modelled from the spec: the annotation tokens, named after the option
    types of the specification. *)
Definition OPTION_TYPE_BOOLEAN : string := "BOOLEAN".
Definition OPTION_TYPE_STRING : string := "STRING".
Definition OPTION_TYPE_NUMBER : string := "NUMBER".
Definition OPTION_TYPE_BIGINT : string := "BIGINT".
Definition OPTION_TYPE_SELECT : string := "SELECT".
Definition OPTION_TYPE_SLIDER : string := "SLIDER".
Definition OPTION_TYPE_COMPONENT : string := "COMPONENT".
Definition OPTION_TYPE_CUSTOM : string := "CUSTOM".
Definition TS_TYPE_STRING : string := "string".
Definition TS_TYPE_NUMBER : string := "number".
Definition TS_TYPE_BOOLEAN : string := "boolean".
Definition TS_ARRAY_BRACKET_PATTERN : string := "[]".
Definition TS_ARRAY_GENERIC_PATTERN : string := "Array<".
Definition BOOLEAN_ENUM_LENGTH : nat := 2.
Definition TYPE_PROPERTY : string := "type".
Definition COMPONENT_PROPERTY : string := "component".
Definition NAME_PROPERTY : string := "name".
Definition DESCRIPTION_PROPERTY : string := "description".

(** The regular expressions on the text of a type node
    ([STRING_ARRAY_TYPE_PATTERN], and [/\[\]$/] or [/\bArray<.+>\b/]), the
    source text of a node, and the table [OptionTypeMap] of
    [shared/types.ts]. *)
Context (STRING_ARRAY_TYPE_PATTERN : string → bool).
Context (isArrayTypeText : string → bool).
Context (getText : Node → string).
Context (OptionTypeMap : number → option string).

(** [hay.includes(needle)]. *)
Fixpoint includes (hay needle : string) : bool :=
  if String.prefix needle hay then true
  else match hay with
       | EmptyString => false
       | String _ rest => includes rest needle
       end.

Definition ofLiteral (l : EnumLiteral) : Value :=
  match l with
  | LString s => VString s
  | LNumber n => VNumber n
  | LBoolean b => VBoolean b
  end.

Definition isUndefined (v : Value) : bool :=
  match v with VUndefined => true | _ => false end.

(** ** extractor/type-helpers.ts *)

Definition checkPropertyAccessCustom (node : Node) : bool :=
  match node with
  | PropertyAccessExpression _ name => String.eqb name OPTION_TYPE_CUSTOM
  | _ => false
  end.

Definition isCustomTypeInNode (node : Node) : bool :=
  checkPropertyAccessCustom node || includes (getText node) OPTION_TYPE_CUSTOM.

Definition getDefaultPropertyInitializer (obj : list ObjectLiteralElement)
  : option Node :=
  getPropertyInitializer obj DEFAULT_PROPERTY.

Definition isCustomType (valueObj : list ObjectLiteralElement)
    (typeNode : option Node) : bool :=
  match getProperty valueObj TYPE_PROPERTY with
  | Some (PropertyAssignment _ (Some typeInit)) =>
      if isCustomTypeInNode typeInit then true
      else match typeNode with
           | Some t => isCustomTypeInNode t
           | None => false
           end
  | _ => match typeNode with
         | Some t => isCustomTypeInNode t
         | None => false
         end
  end.

(** Equality of the members of a [Set]. *)
Definition sameLiteral (a b : EnumLiteral) : bool :=
  match a, b with
  | LString x, LString y => String.eqb x y
  | LNumber x, LNumber y => sameValueZero x y
  | LBoolean x, LBoolean y => Bool.eqb x y
  | _, _ => false
  end.

(** [new Set(values).size]. *)
Fixpoint setSize (values : list EnumLiteral) : nat :=
  match values with
  | [] => 0
  | v :: rest =>
      if existsb (sameLiteral v) rest then setSize rest else S (setSize rest)
  end.

Definition isBooleanLiteral (v : EnumLiteral) : bool :=
  match v with LBoolean _ => true | _ => false end.

Definition isBooleanEnumValues (values : list EnumLiteral) : bool :=
  if negb (Nat.eqb (length values) BOOLEAN_ENUM_LENGTH) then false
  else if negb (Nat.eqb (setSize values) BOOLEAN_ENUM_LENGTH) then false
  else forallb isBooleanLiteral values.

(** ** extractor/default-value-checks *)

Definition isStringLiteral (node : Node) : bool :=
  match node with StringLiteral _ => true | _ => false end.

Definition isObjectLiteral (node : Node) : bool :=
  match node with ObjectLiteralExpression _ => true | _ => false end.

Definition isStringArray (elements : list Node) : bool :=
  forallb isStringLiteral elements.

Definition isStringArrayAsExpr (expression : Node) (typeNode : string) : bool :=
  STRING_ARRAY_TYPE_PATTERN typeNode &&
  match expression with ArrayLiteralExpression _ => true | _ => false end.

Definition checkStringArrayInit (init : Node) : bool :=
  match init with
  | ArrayLiteralExpression elements => isStringArray elements
  | AsExpression expression typeNode => isStringArrayAsExpr expression typeNode
  | _ => false
  end.

(** [ident.getSymbol()?.getValueDeclaration()], then its initializer. *)
Definition getIdentifierInit (ident : Node) : option Node :=
  symbol ← getSymbol checker ident;
  valueDecl ← getValueDeclaration symbol;
  getInitializerOf valueDecl.

Definition hasStringArrayDefault (obj : list ObjectLiteralElement) : bool :=
  match getDefaultPropertyInitializer obj with
  | None => false
  | Some init =>
      match init with
      | Identifier _ _ =>
          match getIdentifierInit init with
          | Some valueInit => checkStringArrayInit valueInit
          | None => false
          end
      | _ => checkStringArrayInit init
      end
  end.

Definition resolveIdentifierArrayDefault (obj : list ObjectLiteralElement) : bool :=
  match getDefaultPropertyInitializer obj with
  | Some (Identifier p text) =>
      match getIdentifierInit (Identifier p text) with
      | Some (ArrayLiteralExpression elements) => isStringArray elements
      | Some (AsExpression (ArrayLiteralExpression elements) _) => isStringArray elements
      | _ => false
      end
  | _ => false
  end.

Definition isArrayExprWithObjects (node : Node) : bool :=
  match node with
  | ArrayLiteralExpression elements =>
      negb (bool_decide (elements = [])) && forallb isObjectLiteral elements
  | _ => false
  end.

Definition arrowBodyOf (init : option Node) : option Node :=
  match init with
  | Some (ArrowFunction body) => Some (unwrapNode body)
  | _ => None
  end.

Definition resolveFuncBody (node : Node) : option Node :=
  match node with
  | Identifier _ text =>
      let symbol := getSymbol checker node in
      let valueDecl :=
        match symbol ≫= getValueDeclaration with
        | Some decl => Some decl
        | None => symbol ≫= getAliasedValueDeclaration
        end in
      match valueDecl with
      | None => None
      | Some (ArrowFunctionDeclaration body) => Some (unwrapNode body)
      | Some decl =>
          match arrowBodyOf (getInitializerOf decl) with
          | Some body => Some body
          | None => arrowBodyOf (mjoin (getVariableDeclaration checker text))
          end
      end
  | _ => None
  end.

Definition hasObjectArrayDefault (obj : list ObjectLiteralElement) : bool :=
  match getDefaultPropertyInitializer obj with
  | None => false
  | Some init =>
      match init with
      | ArrayLiteralExpression _ => isArrayExprWithObjects init
      | AsExpression expression typeNode =>
          if isArrayTypeText typeNode then isArrayExprWithObjects expression else false
      | CallExpression callee _ =>
          match callee with
          | Identifier _ _ =>
              match resolveFuncBody callee with
              | Some b => isArrayExprWithObjects (unwrapNode b)
              | None => false
              end
          | _ => false
          end
      | Identifier _ _ =>
          match (symbolOf init ≫= getValueDeclaration) ≫= getInitializerOf with
          | None => false
          | Some valueInit =>
              let unwrapped :=
                match valueInit with
                | AsExpression expression _ => expression
                | _ => valueInit
                end in
              isArrayExprWithObjects unwrapped
          end
      | _ => false
      end
  end.

Definition hasEmptyArrayWithTypeAnnotation (obj : list ObjectLiteralElement) : bool :=
  match getDefaultPropertyInitializer obj with
  | None => false
  | Some init =>
      match init with
      | AsExpression expression typeNode =>
          match expression with
          | ArrayLiteralExpression elements =>
              isArrayTypeText typeNode && bool_decide (elements = [])
          | _ => false
          end
      | CallExpression callee _ =>
          match callee with
          | Identifier _ _ =>
              match getSymbol checker callee with
              | None => false
              | Some symbol =>
                  let valueDecl :=
                    match getValueDeclaration symbol with
                    | Some decl => Some decl
                    | None => getAliasedValueDeclaration symbol
                    end in
                  let funcBody :=
                    match valueDecl with
                    | Some (ArrowFunctionDeclaration body) => Some body
                    | Some decl =>
                        match getInitializerOf decl with
                        | Some (ArrowFunction body) => Some body
                        | _ => None
                        end
                    | None => None
                    end in
                  match unwrapNode <$> funcBody with
                  | Some (ArrayLiteralExpression elems) =>
                      bool_decide (elems = []) ||
                      forallb (λ el, match el with
                                     | ObjectLiteralExpression _ | CallExpression _ _ => true
                                     | _ => false
                                     end) elems
                  | _ => false
                  end
              end
          | _ => false
          end
      | _ => false
      end
  end.

(** ** parser.ts: the table from annotation and default to target type *)

Definition inferNixTypeFromRuntimeDefault (defaultValue : Value) : NixType :=
  match defaultValue with
  | VUndefined => NIX_TYPE_STR
  | VBoolean _ => NIX_TYPE_BOOL
  | VArray _ => NIX_TYPE_ATTRS
  | VString _ => NIX_TYPE_STR
  | VNumber val => if isInteger val then NIX_TYPE_INT else NIX_TYPE_FLOAT
  | VObject _ => NIX_TYPE_ATTRS
  | VNull => NIX_TYPE_STR
  end.

Definition extractEnumValueFromDeclaration (valueDeclaration : Declaration)
  : option number :=
  match valueDeclaration with
  | EnumMember value init =>
      match value with
      | Some (LNumber n) => Some n
      | _ =>
          match init with
          | Some (NumericLiteral v) => Some (parseInt10 v)
          | _ => None
          end
      end
  | _ => None
  end.

(** The outer [None] is an exception that leaves the function: true-myth's
    [Maybe.just] refuses [undefined], which is what [OptionTypeMap[val]] is
    for a number outside the table; the property-access case catches it. *)
Definition resolveOptionTypeNameFromNode (typeNode : Node) : option (option string) :=
  match typeNode with
  | PropertyAccessExpression _ propName =>
      match getSymbol checker typeNode ≫= getValueDeclaration with
      | Some valueDecl =>
          match extractEnumValueFromDeclaration valueDecl with
          | Some val =>
              match OptionTypeMap val with
              | Some typeValue => Some (Some typeValue)
              | None => Some (Some propName)
              end
          | None => Some (Some propName)
          end
      | None => Some (Some propName)
      end
  | Identifier _ _ =>
      match getSymbol checker typeNode ≫= getValueDeclaration with
      | Some valueDecl =>
          match extractEnumValueFromDeclaration valueDecl with
          | Some val => Some <$> OptionTypeMap val
          | None => Some None
          end
      | None => Some None
      end
  | NumericLiteral v => Some <$> OptionTypeMap (parseInt10 v)
  | _ => Some None
  end.

(** [typeof opt] is [string], [number] or [boolean]. *)
Definition asEnumLiteral (opt : Value) : option EnumLiteral :=
  match opt with
  | VString s => Some (LString s)
  | VNumber n => Some (LNumber n)
  | VBoolean b => Some (LBoolean b)
  | _ => None
  end.

(** [EnumValueSchema.safeParse(value)]: the value when the parse succeeds. *)
Definition parseEnumValue (value : Value) : option EnumLiteral :=
  match value with
  | VString s => Some (LString s)
  | VNumber n => if schemaNumber n then Some (LNumber n) else None
  | VBoolean b => Some (LBoolean b)
  | _ => None
  end.

(** One element under [OptionsArraySchema]: an object whose [value] is
    missing, [undefined] or an enum value; [None] when the parse fails.  The
    fields of an object are listed once per key. *)
Definition parseOption (element : Value) : option (option EnumLiteral) :=
  match element with
  | VObject fields =>
      match assoc "value" fields with
      | None | Some VUndefined => Some None
      | Some value => Some <$> parseEnumValue value
      end
  | _ => None
  end.

(** [options] is [unknown]: an array of primitives is filtered, an array of
    objects is read through their [value] fields, and anything else gives
    no choice. *)
Definition buildEnumValuesFromOptions (options : Value) : list EnumLiteral :=
  let validOptions :=
    match options with
    | VArray items => omap asEnumLiteral items
    | _ => []
    end in
  if bool_decide (0 < length validOptions)%nat then validOptions
  else
    match options with
    | VArray items =>
        match mapM parseOption items with
        | Some data => omap id data
        | None => []
        end
    | _ => []
    end.

Definition nixTypeForComponentOrCustom (defaultValue : Value) : NixType :=
  match defaultValue with
  | VUndefined => NIX_TYPE_ATTRS
  | VArray _ => NIX_TYPE_STR
  | _ => inferNixTypeFromRuntimeDefault defaultValue
  end.

Definition mentions (typeName token : string) : bool :=
  String.eqb typeName token || includes typeName token.

Definition inferTypeFromTypeScriptType (typeNode : Node) (defaultValue : Value)
  : option NixType :=
  match getTypeAtLocation checker typeNode with
  | None => None
  | Some type =>
      let typeName := default (typeText type) (typeSymbolName type) in
      if mentions typeName TS_TYPE_STRING then Some NIX_TYPE_STR
      else if mentions typeName TS_TYPE_NUMBER then
        Some (match defaultValue with
              | VNumber val => if isInteger val then NIX_TYPE_INT else NIX_TYPE_FLOAT
              | _ => NIX_TYPE_INT
              end)
      else if mentions typeName TS_TYPE_BOOLEAN then Some NIX_TYPE_BOOL
      else if includes typeName TS_ARRAY_BRACKET_PATTERN
              || includes typeName TS_ARRAY_GENERIC_PATTERN then Some NIX_TYPE_ATTRS
      else
        match unionTypeTexts type with
        | [] => None
        | typeNames =>
            if forallb (λ n, mentions n TS_TYPE_STRING) typeNames then Some NIX_TYPE_STR
            else if forallb (λ n, mentions n TS_TYPE_NUMBER) typeNames then Some NIX_TYPE_INT
            else if forallb (λ n, mentions n TS_TYPE_BOOLEAN) typeNames then Some NIX_TYPE_BOOL
            else None
        end
  end.

(** [setting.type]: absent, a bare number, some other value that is not a
    node, or a node. *)
Inductive SettingType : Type :=
| TypeUndefined
| TypeNumber (n : number)
| TypeOtherValue
| TypeNode (typeNode : Node).

(** The three fields of the setting that [tsTypeToNixType] reads. *)
Record RawSetting : Type := {
  rawType : SettingType;
  rawDefault : Value;
  rawOptions : Value;
}.

Record NixTypeResult : Type := {
  nixType : NixType;
  enumValues : option (list EnumLiteral);
}.

Definition isComponentOrCustomName (typeValue : string) : bool :=
  String.eqb typeValue OPTION_TYPE_COMPONENT || String.eqb typeValue OPTION_TYPE_CUSTOM.

(** The branch of [tsTypeToNixType] for a type that is not a node. *)
Definition nixTypeWithoutTypeNode (typeNumber : option number) (setting : RawSetting)
  : NixTypeResult :=
  if match typeNumber ≫= OptionTypeMap with
     | Some typeValue => isComponentOrCustomName typeValue
     | None => false
     end
  then {| nixType := nixTypeForComponentOrCustom (rawDefault setting); enumValues := None |}
  else
    let enumValues := buildEnumValuesFromOptions (rawOptions setting) in
    if negb (bool_decide (enumValues = [])) then
      if isBooleanEnumValues enumValues
      then {| nixType := NIX_TYPE_BOOL; enumValues := None |}
      else {| nixType := NIX_ENUM_TYPE; enumValues := Some enumValues |}
    else {| nixType := inferNixTypeFromRuntimeDefault (rawDefault setting);
            enumValues := None |}.

(** The [match(typeName.value)] of [tsTypeToNixType]. *)
Definition nixTypeForTypeName (typeName : string) (setting : RawSetting)
  : NixTypeResult :=
  if String.eqb typeName OPTION_TYPE_BOOLEAN then
    {| nixType := NIX_TYPE_BOOL; enumValues := None |}
  else if String.eqb typeName OPTION_TYPE_STRING then
    {| nixType := NIX_TYPE_STR; enumValues := None |}
  else if String.eqb typeName OPTION_TYPE_NUMBER then
    {| nixType := match rawDefault setting with
                  | VNumber val => if isInteger val then NIX_TYPE_INT else NIX_TYPE_FLOAT
                  | _ => NIX_TYPE_FLOAT
                  end;
       enumValues := None |}
  else if String.eqb typeName OPTION_TYPE_BIGINT then
    {| nixType := NIX_TYPE_INT; enumValues := None |}
  else if String.eqb typeName OPTION_TYPE_SELECT then
    let enumValues := buildEnumValuesFromOptions (rawOptions setting) in
    if isBooleanEnumValues enumValues then {| nixType := NIX_TYPE_BOOL; enumValues := None |}
    else if Nat.eqb (length enumValues) 0 then {| nixType := NIX_TYPE_STR; enumValues := None |}
    else {| nixType := NIX_ENUM_TYPE; enumValues := Some enumValues |}
  else if String.eqb typeName OPTION_TYPE_SLIDER then
    {| nixType := NIX_TYPE_FLOAT; enumValues := None |}
  else if String.eqb typeName OPTION_TYPE_COMPONENT then
    {| nixType := nixTypeForComponentOrCustom (rawDefault setting); enumValues := None |}
  else if String.eqb typeName OPTION_TYPE_CUSTOM then
    {| nixType := nixTypeForComponentOrCustom (rawDefault setting); enumValues := None |}
  else {| nixType := inferNixTypeFromRuntimeDefault (rawDefault setting);
          enumValues := None |}.

(** [None] when the resolution of the annotation throws. *)
Definition tsTypeToNixType (setting : RawSetting) : option NixTypeResult :=
  match rawType setting with
  | TypeUndefined | TypeOtherValue => Some (nixTypeWithoutTypeNode None setting)
  | TypeNumber n => Some (nixTypeWithoutTypeNode (Some n) setting)
  | TypeNode type =>
      typeName ← resolveOptionTypeNameFromNode type;
      match typeName with
      | Some name => Some (nixTypeForTypeName name setting)
      | None =>
          let inferredType := inferTypeFromTypeScriptType type (rawDefault setting) in
          let enumValues := buildEnumValuesFromOptions (rawOptions setting) in
          match inferredType with
          | Some t => Some {| nixType := t; enumValues := Some enumValues |}
          | None => Some {| nixType := inferNixTypeFromRuntimeDefault (rawDefault setting);
                            enumValues := Some enumValues |}
          end
      end
  end.

(** ** extractor/type-inference: the single-pass classifier *)

Record SettingProperties : Type := {
  typeNode : option Node;
  description : option string;
  placeholder : option string;
  restartNeeded : bool;
  hidden : bool;
  defaultLiteralValue : Value;
}.

Record Classification : Type := {
  classifiedType : NixType;
  classifiedDefault : Value;
}.

Definition classifyComponentOrCustom (valueObj : list ObjectLiteralElement)
    (baseType : NixType) (defaultValue : Value) : Classification :=
  match getProperty valueObj DEFAULT_PROPERTY with
  | Some (GetAccessor _) =>
      {| classifiedType := NIX_TYPE_NULL_OR_STR; classifiedDefault := VNull |}
  | _ =>
      let init := getDefaultPropertyInitializer valueObj in
      let keep (t : NixType) := {| classifiedType := t; classifiedDefault := defaultValue |} in
      if match init with Some (StringLiteral _) => true | _ => false end
      then keep NIX_TYPE_STR
      else if match defaultValue with VString _ => true | _ => false end
      then keep NIX_TYPE_STR
      else if match init with Some (Identifier _ _) => isCustomType valueObj None | _ => false end
      then keep NIX_TYPE_ATTRS
      else if bool_decide (baseType = NIX_TYPE_ATTRS)
              || bool_decide (baseType = NIX_TYPE_LIST_OF_ATTRS)
              || bool_decide (baseType = NIX_TYPE_LIST_OF_STR)
      then keep baseType
      else if match defaultValue with VUndefined | VObject _ | VNull => true | _ => false end
      then keep NIX_TYPE_ATTRS
      else keep baseType
  end.

Definition classifySetting (valueObj : list ObjectLiteralElement)
    (props : SettingProperties) (baseType : NixType) : Classification :=
  let defaultValue := defaultLiteralValue props in
  let typeNodeText := match typeNode props with Some t => getText t | None => "" end in
  let isComponentOrCustom :=
    match typeNode props with
    | Some t => includes (getText t) OPTION_TYPE_COMPONENT
                || includes (getText t) OPTION_TYPE_CUSTOM
    | None => false
    end in
  let hasStringArray := hasStringArrayDefault valueObj in
  let hasIdentifierStringArray :=
    isUndefined defaultValue && resolveIdentifierArrayDefault valueObj in
  let hasObjectArray := hasObjectArrayDefault valueObj in
  let hasEmptyTypedArray := hasEmptyArrayWithTypeAnnotation valueObj in
  let init := getDefaultPropertyInitializer valueObj in
  let emptyList (t : NixType) := {| classifiedType := t; classifiedDefault := VArray [] |} in
  if hasStringArray || hasIdentifierStringArray then emptyList NIX_TYPE_LIST_OF_STR
  else if hasObjectArray
          && negb match init with Some (Identifier _ _) => true | _ => false end
  then emptyList NIX_TYPE_LIST_OF_ATTRS
  else if hasEmptyTypedArray then
    if includes typeNodeText OPTION_TYPE_CUSTOM
    then emptyList NIX_TYPE_LIST_OF_ATTRS else emptyList NIX_TYPE_LIST_OF_STR
  else if match init with Some (ArrayLiteralExpression []) => true | _ => false end
  then emptyList NIX_TYPE_LIST_OF_STR
  else if isComponentOrCustom
  then classifyComponentOrCustom valueObj baseType defaultValue
  else {| classifiedType := baseType; classifiedDefault := defaultValue |}.

Record TypeInferenceResult : Type := {
  finalNixType : NixType;
  selectEnumValues : option (list EnumLiteral);
  inferredDefault : Value;
}.

(** [a ?? b]. *)
Definition nullish (a b : Value) : Value :=
  match a with VUndefined | VNull => b | _ => a end.

Definition inferNixTypeAndEnumValues (fuel : nat) (valueObj : list ObjectLiteralElement)
    (props : SettingProperties) (rawSetting : RawSetting) : option TypeInferenceResult :=
  base ← tsTypeToNixType rawSetting;
  astEnumResult ← extractSelectOptions fuel valueObj;
  let astEnumLiterals :=
    match astEnumResult with Ok o => values o | Err _ => [] end in
  let hasAstEnumValues := negb (bool_decide (astEnumLiterals = [])) in
  let selectEnumValues :=
    match enumValues base with
    | Some (v :: vs) => Some (v :: vs)
    | _ => if hasAstEnumValues then Some astEnumLiterals else None
    end in
  let isBooleanEnum :=
    match selectEnumValues with
    | Some vs =>
        Nat.eqb (length vs) BOOLEAN_ENUM_LENGTH
        && forallb isBooleanLiteral vs
        && Nat.eqb (setSize vs) BOOLEAN_ENUM_LENGTH
    | None => false
    end in
  if isBooleanEnum then
    Some {| finalNixType := NIX_TYPE_BOOL; selectEnumValues := None;
            inferredDefault := defaultLiteralValue props |}
  else
    match selectEnumValues with
    | Some vs =>
        Some {| finalNixType := NIX_ENUM_TYPE; selectEnumValues := Some vs;
                inferredDefault := defaultLiteralValue props |}
    | None =>
        let classification := classifySetting valueObj props (nixType base) in
        Some {| finalNixType := classifiedType classification;
                selectEnumValues := None;
                inferredDefault :=
                  nullish (classifiedDefault classification) (defaultLiteralValue props) |}
    end.

(** ** extractor/default-value-resolution.ts *)

(** [extractDefaultValue] of [default-value.ts] folds the call expression of
    a default into a value; it is reached for one shape of default only, and
    is a parameter: what is proved below holds whatever it returns. *)
Context (extractDefaultValue
           : nat → list ObjectLiteralElement → option (Result Value ExtractionError)).

Definition BARE_COMPONENT_ALLOWED_PROPS : list string :=
  ["type"; "component"; "description"; "name"; "restartNeeded"; "hidden"; "placeholder"].

Definition bareKey (name : PropertyName) : option string :=
  match name with
  | IdentifierName text => Some text
  | StringLiteralName _ literalValue => Some literalValue
  | OtherName _ => None
  end.

Definition isBareComponentSetting (obj : list ObjectLiteralElement) : bool :=
  let hasOnlyAllowed :=
    forallb (λ p,
      let nameNode :=
        match p with
        | PropertyAssignment name _ => Some name
        | MethodDeclaration name => Some name
        | _ => None
        end in
      match nameNode ≫= bareKey with
      | None => true
      | Some key =>
          String.eqb key "" || existsb (String.eqb key) BARE_COMPONENT_ALLOWED_PROPS
      end) obj in
  hasOnlyAllowed
  && negb (bool_decide (is_Some (getProperty obj DEFAULT_PROPERTY)))
  && bool_decide (is_Some (getProperty obj COMPONENT_PROPERTY)).

Definition resolveAttrsDefault (fuel : nat) (valueObj : list ObjectLiteralElement)
  : option Value :=
  match getProperty valueObj DEFAULT_PROPERTY with
  | Some (PropertyAssignment _ (Some (Identifier _ _))) =>
      Some (if hasObjectArrayDefault valueObj then VArray [] else VObject [])
  | Some (PropertyAssignment _ (Some (CallExpression _ _))) =>
      result ← extractDefaultValue fuel valueObj;
      Some (match result with Ok value => value | Err _ => VObject [] end)
  | Some (GetAccessor _) => Some VNull
  | _ => Some (VObject [])
  end.

Record ResolvedDefaultValue : Type := {
  resolvedNixType : NixType;
  resolvedDefault : Value;
}.

(** The test shared by the two blocks of [resolveDefaultValue] that turn a
    string or nullable string into an attribute set. *)
Definition promotesToAttrs (valueObj : list ObjectLiteralElement) : bool :=
  let initIdent :=
    match getDefaultPropertyInitializer valueObj with
    | Some (Identifier _ _) => true
    | _ => false
    end in
  let customType := isCustomType valueObj None in
  let hasObjArray := hasObjectArrayDefault valueObj in
  initIdent && (customType || hasObjArray).

Definition attrsPromotionDefault (valueObj : list ObjectLiteralElement) : Value :=
  if hasObjectArrayDefault valueObj then VArray [] else VObject [].

Definition selectDefaultValue (result : SelectDefaultResult) : option EnumLiteral :=
  match result with Ok (Some v) => Some v | _ => None end.

Definition resolveDefaultValue (fuel : nat) (valueObj : list ObjectLiteralElement)
    (finalNixType : NixType) (defaultLiteralValue : Value)
    (selectEnumValues : option (list EnumLiteral)) : option ResolvedDefaultValue :=
  if isUndefined defaultLiteralValue
     && (resolveIdentifierArrayDefault valueObj || hasStringArrayDefault valueObj)
  then Some {| resolvedNixType := NIX_TYPE_LIST_OF_STR; resolvedDefault := VArray [] |}
  else
    defaultValue ←
      (if bool_decide (finalNixType = NIX_TYPE_BOOL) && isUndefined defaultLiteralValue
       then
         result ← extractSelectDefault fuel valueObj;
         Some (match selectDefaultValue result with
               | Some v => ofLiteral v
               | None => VBoolean false
               end)
       else Some defaultLiteralValue);
    defaultValue ←
      (if bool_decide (finalNixType = NIX_ENUM_TYPE) && isUndefined defaultLiteralValue
       then
         result ← extractSelectDefault fuel valueObj;
         Some (match selectDefaultValue result with
               | Some v => ofLiteral v
               | None =>
                   match selectEnumValues with
                   | Some (first :: _) => ofLiteral first
                   | _ => VUndefined
                   end
               end)
       else Some defaultValue);
    let '(finalNixTypeWithNull, defaultValue) :=
      if bool_decide (finalNixType = NIX_TYPE_STR) && isUndefined defaultValue
      then
        if promotesToAttrs valueObj
        then (NIX_TYPE_ATTRS, attrsPromotionDefault valueObj)
        else (NIX_TYPE_NULL_OR_STR, VNull)
      else (finalNixType, defaultValue) in
    let isNullOrType := includesNullOr finalNixType || includesNullOr finalNixTypeWithNull in
    let '(finalNixTypeWithNull, defaultValue) :=
      if isNullOrType && isUndefined defaultLiteralValue
      then
        (if includesNullOr finalNixType && negb (includesNullOr finalNixTypeWithNull)
         then finalNixType else finalNixTypeWithNull, VNull)
      else (finalNixTypeWithNull, defaultValue) in
    defaultValue ←
      (if bool_decide (finalNixType = NIX_TYPE_ATTRS) && isUndefined defaultValue
       then resolveAttrsDefault fuel valueObj
       else Some defaultValue);
    defaultValue ←
      (if bool_decide (finalNixType = NIX_TYPE_ATTRS) && isUndefined defaultValue
       then
         if isBareComponentSetting valueObj then Some (VObject [])
         else resolveAttrsDefault fuel valueObj
       else Some defaultValue);
    let '(finalNixTypeWithNull, defaultValue) :=
      if bool_decide (finalNixType = NIX_TYPE_NULL_OR_STR)
         && match defaultValue with VNull => true | _ => false end
         && promotesToAttrs valueObj
      then (NIX_TYPE_ATTRS, attrsPromotionDefault valueObj)
      else (finalNixTypeWithNull, defaultValue) in
    Some {| resolvedNixType := finalNixTypeWithNull; resolvedDefault := defaultValue |}.

(** ** extractor/settings-extractor.ts *)

(** [extractLiteralValue(node, checker)] on the initializer of [default]. *)
Fixpoint extractLiteralValue (fuel : nat) (node : Node) : option Value :=
  match node with
  | StringLiteral v => Some (VString v)
  | NumericLiteral v => Some (VNumber v)
  | BigIntLiteral raw =>
      Some (VString (if String.eqb (String.substring (String.length raw - 1) 1 raw) "n"
                        || String.eqb (String.substring (String.length raw - 1) 1 raw) "N"
                     then String.substring 0 (String.length raw - 1) raw else raw))
  | TrueKeyword => Some (VBoolean true)
  | FalseKeyword => Some (VBoolean false)
  | ArrayLiteralExpression elements =>
      VArray <$> (fix each (els : list Node) : option (list Value) :=
                    match els with
                    | [] => Some []
                    | el :: rest =>
                        v ← extractLiteralValue fuel el;
                        vs ← each rest;
                        Some (v :: vs)
                    end) elements
  | PropertyAccessExpression _ _ =>
      result ← evaluate fuel node;
      Some (match result with Ok value => ofLiteral value | Err _ => VUndefined end)
  | _ => Some VUndefined
  end.

(** Modelled from the spec: [extractStringLiteralValue] of
    [utils/node-helpers.ts], the value of a property that is a string
    literal. *)
Definition extractStringLiteralValue (obj : list ObjectLiteralElement) (name : string)
  : option string :=
  match getPropertyInitializer obj name with
  | Some (StringLiteral v) => Some v
  | _ => None
  end.

Definition isTrueKeyword (node : option Node) : bool :=
  match node with Some TrueKeyword => true | _ => false end.

(** [valueObj.getProperty('hidden')?.asKind(PropertyAssignment)
     ?.getInitializer()?.getKind() === TrueKeyword]. *)
Definition hasHiddenMarker (valueObj : list ObjectLiteralElement) : bool :=
  match getProperty valueObj "hidden" with
  | Some (PropertyAssignment _ init) => isTrueKeyword init
  | _ => false
  end.

Definition extractProperties (fuel : nat) (valueObj : list ObjectLiteralElement)
  : option SettingProperties :=
  let typeNode := getPropertyInitializer valueObj "type" in
  let description :=
    match extractStringLiteralValue valueObj DESCRIPTION_PROPERTY with
    | Some d => Some d
    | None => extractStringLiteralValue valueObj NAME_PROPERTY
    end in
  let placeholder := extractStringLiteralValue valueObj "placeholder" in
  let restartNeeded := isTrueKeyword (getPropertyInitializer valueObj "restartNeeded") in
  let hidden := hasHiddenMarker valueObj in
  defaultLiteralValue ←
    match getPropertyInitializer valueObj "default" with
    | Some init => extractLiteralValue fuel init
    | None => Some VUndefined
    end;
  Some {| typeNode := typeNode; description := description; placeholder := placeholder;
          restartNeeded := restartNeeded; hidden := hidden;
          defaultLiteralValue := defaultLiteralValue |}.

Record PluginSetting : Type := {
  settingName : string;
  settingType : NixType;
  settingDescription : option string;
  settingDefault : Value;
  settingEnumValues : option (list EnumLiteral);
  settingEnumLabels : option (gmap string string);
  settingExample : option string;
  settingHidden : option bool;
  settingRestartNeeded : bool;
}.

Definition buildPluginSetting (key : string) (finalNixType : NixType)
    (description : option string) (defaultValue : Value)
    (selectEnumValues : option (list EnumLiteral))
    (enumLabels : option (gmap string string)) (placeholder : option string)
    (hidden restartNeeded : bool) : PluginSetting :=
  {| settingName := key;
     settingType := finalNixType;
     settingDescription :=
       match description with
       | Some d =>
           if String.eqb d "" then None
           else Some (if restartNeeded then String.append d " (restart required)" else d)
       | None => None
       end;
     settingDefault := defaultValue;
     settingEnumValues :=
       match selectEnumValues with
       | Some (v :: vs) => Some (v :: vs)
       | _ => None
       end;
     settingEnumLabels :=
       match enumLabels with
       | Some l => if bool_decide (l = ∅) then None else Some l
       | None => None
       end;
     settingExample := placeholder;
     settingHidden := if hidden then Some true else None;
     settingRestartNeeded := restartNeeded |}.

(** [Record<string, PluginSetting | PluginConfig>]. *)
Inductive SettingsEntry : Type :=
| SettingEntry (setting : PluginSetting)
| ConfigEntry (name : string) (settings : gmap string SettingsEntry).

Definition isSettingsGroup (nestedProperties : list (PropertyName * option Node)) : bool :=
  let hasTypeProperty :=
    existsb (λ p, String.eqb (getNameText p.1) "type"
                  || String.eqb (getNameText p.1) "description") nestedProperties in
  let hasNestedSettings :=
    existsb (λ p, match p.2 with
                  | Some (ObjectLiteralExpression _) => true
                  | _ => false
                  end) nestedProperties in
  hasNestedSettings && negb hasTypeProperty.

(** The predicate of the [filter] of [extractSettingsFromPropertyIterable]. *)
Definition keepsProperty (skipHiddenCheck : bool) (propAssignment : PropertyName * option Node)
  : bool :=
  match propAssignment.2 with
  | Some (ObjectLiteralExpression valueObj) =>
      negb (String.eqb (getNameText propAssignment.1) "")
      && (skipHiddenCheck || negb (hasHiddenMarker valueObj))
  | _ => false
  end.

(** The leaf of the [reduce]: one setting, or none when it is hidden. *)
Definition extractSetting (fuel : nat) (skipHiddenCheck : bool) (key : string)
    (valueObj : list ObjectLiteralElement) : option (option PluginSetting) :=
  props ← extractProperties fuel valueObj;
  if negb skipHiddenCheck && hidden props then Some None
  else
    optionsResult ← extractSelectOptions fuel valueObj;
    let extractedOptions := values <$> okValue optionsResult in
    let extractedLabels := labels <$> okValue optionsResult in
    let rawSetting :=
      {| rawType := match typeNode props with
                    | Some t => TypeNode t
                    | None => TypeUndefined
                    end;
         rawDefault := defaultLiteralValue props;
         rawOptions := match extractedOptions with
                       | Some choices => VArray (ofLiteral <$> choices)
                       | None => VUndefined
                       end |} in
    typed ← tsTypeToNixType rawSetting;
    resolved ← resolveDefaultValue fuel valueObj (nixType typed)
                 (defaultLiteralValue props) (enumValues typed);
    Some (Some (buildPluginSetting key (resolvedNixType resolved) (description props)
                  (resolvedDefault resolved) (enumValues typed) extractedLabels
                  (placeholder props) (hidden props) (restartNeeded props))).

(** The body of the [reduce], with the recursive call for a group given as
    [recurse]. *)
Definition addProperty (fuel : nat) (skipHiddenCheck : bool)
    (recurse : list (PropertyName * option Node) → option (gmap string SettingsEntry))
    (acc : option (gmap string SettingsEntry))
    (propAssignment : PropertyName * option Node)
  : option (gmap string SettingsEntry) :=
  acc ← acc;
  let key := getNameText propAssignment.1 in
  match propAssignment.2 with
  | Some (ObjectLiteralExpression valueObj) =>
      let nestedProperties := iteratePropertyAssignments valueObj in
      if isSettingsGroup nestedProperties then
        settings ← recurse nestedProperties;
        Some (<[key := ConfigEntry key settings]> acc)
      else
        setting ← extractSetting fuel skipHiddenCheck key valueObj;
        match setting with
        | Some s => Some (<[key := SettingEntry s]> acc)
        | None => Some acc
        end
  | _ => None
  end.

Fixpoint extractSettingsFromPropertyIterable (fuel : nat)
    (properties : list (PropertyName * option Node)) (skipHiddenCheck : bool)
  : option (gmap string SettingsEntry) :=
  match fuel with
  | O => None
  | S fuel' =>
      foldl
        (addProperty fuel skipHiddenCheck
           (λ nested, extractSettingsFromPropertyIterable fuel' nested skipHiddenCheck))
        (Some ∅)
        (List.filter (keepsProperty skipHiddenCheck) properties)
  end.

Definition extractSettingsFromObject (fuel : nat) (objExpr : list ObjectLiteralElement)
    (skipHiddenCheck : bool) : option (gmap string SettingsEntry) :=
  extractSettingsFromPropertyIterable fuel (iteratePropertyAssignments objExpr)
    skipHiddenCheck.

(** ** The vocabulary of the statements *)

(** How a block of [evaluatePropertyAccess] uses its callback: it falls
    through, returns a fixed answer, or returns the callback's answer on one
    node, and which of the three does not depend on the callback. *)
Definition callbackShape
    (block : (Node → option EvaluationResult) → option (option EvaluationResult))
  : Prop :=
  (∀ f, block f = None)
  ∨ (∃ c, ∀ f, block f = Some (Some c))
  ∨ (∃ n, ∀ f, block f = Some (f n)).

(** The target type the text of C6 gives a [NUMBER] setting: the integer
    type unless the default is a number that is not integral. *)
Definition claimedNumberType (defaultValue : Value) : NixType :=
  match defaultValue with
  | VNumber val => if isInteger val then NIX_TYPE_INT else NIX_TYPE_FLOAT
  | _ => NIX_TYPE_INT
  end.

(** An element of the options array that carries the marker [default: true]. *)
Definition carriesDefaultMarker (element : Node) : bool :=
  match element with
  | ObjectLiteralExpression obj =>
      match getPropertyAssignment obj DEFAULT_PROPERTY with
      | Some (_, Some TrueKeyword) => true
      | _ => false
      end
  | _ => false
  end.

(** An element that carries no marker and brings none in: not a spread. *)
Definition unmarked (element : Node) : bool :=
  negb (carriesDefaultMarker element)
  && match element with SpreadElement _ => false | _ => true end.

(** The operators that C3 lists, each with the operation of JavaScript it
    stands for. *)
Definition listedOperators : list (OperatorToken * (number → number → number)) :=
  [(BarToken, bitOr); (AmpersandToken, bitAnd); (CaretToken, bitXor);
   (LessThanLessThanToken, shiftLeft); (GreaterThanGreaterThanToken, shiftRight);
   (GreaterThanGreaterThanGreaterThanToken, shiftRightUnsigned);
   (PlusToken, plus); (MinusToken, minus); (AsteriskToken, times);
   (SlashToken, divide); (PercentToken, remainder)].












Definition propertyNames (properties : list (PropertyName * option Node)) : list string :=
  (λ p, getNameText p.1) <$> properties.


(** ** nix/utils/nix-escape.ts *)

(** A string is the sequence of its code units, here those below 256; the
    characters the two escaping functions look for are ASCII, and every other
    unit is copied. *)
Definition BACKSLASH_CHAR : ascii := "\"%char.
Definition DOLLAR_CHAR : ascii := "$"%char.
Definition OPEN_BRACE_CHAR : ascii := "{"%char.
Definition DOUBLE_QUOTE_CHAR : ascii := "034"%char.
Definition ESCAPED_BACKSLASH : string := "\\".
Definition ESCAPED_INTERPOLATION : string := "\${".
Definition ESCAPED_QUOTE : string := String BACKSLASH_CHAR (String DOUBLE_QUOTE_CHAR "").

(** The loop over the index [i] is a recursion on what is left of the
    string; the step of two characters skips the brace as well. *)
Fixpoint escapeNixDoubleQuotedString (str : string) : string :=
  match str with
  | EmptyString => ""
  | String char rest =>
      let otherwise :=
        if Ascii.eqb char DOUBLE_QUOTE_CHAR
        then ESCAPED_QUOTE +:+ escapeNixDoubleQuotedString rest
        else String char (escapeNixDoubleQuotedString rest) in
      if Ascii.eqb char BACKSLASH_CHAR
      then ESCAPED_BACKSLASH +:+ escapeNixDoubleQuotedString rest
      else
        match rest with
        | String next rest' =>
            if Ascii.eqb char DOLLAR_CHAR && Ascii.eqb next OPEN_BRACE_CHAR
            then ESCAPED_INTERPOLATION +:+ escapeNixDoubleQuotedString rest'
            else otherwise
        | EmptyString => otherwise
        end
  end.

Definition SINGLE_QUOTE_CHAR : ascii := "'"%char.
Definition SPACE_CHAR : ascii := " "%char.
Definition NEWLINE_CHAR : ascii := "010"%char.
Definition NIX_MULTILINE_START : string := "''".
Definition ESCAPED_DOUBLE_QUOTE : string := "'''".
Definition DOLLAR_PREFIX : string := "''$".
Definition ESCAPED_NEWLINE : string :=
  String SINGLE_QUOTE_CHAR (String SINGLE_QUOTE_CHAR
    (String BACKSLASH_CHAR (String NEWLINE_CHAR ""))).

(** [str.replace(/ab/g, replacement)] for a pattern of two given characters:
    the matches are taken from left to right and do not overlap.  None of the
    replacement strings of this file holds a [$] that [replace] would read
    as a reference to the match. *)
Fixpoint replacePair (a b : ascii) (replacement : string) (str : string) : string :=
  match str with
  | EmptyString => ""
  | String x rest =>
      match rest with
      | String y rest' =>
          if Ascii.eqb x a && Ascii.eqb y b
          then replacement +:+ replacePair a b replacement rest'
          else String x (replacePair a b replacement rest)
      | EmptyString => String x ""
      end
  end.

(** [str.replace(/a/g, replacement)] for a pattern of one character. *)
Fixpoint replaceChar (a : ascii) (replacement : string) (str : string) : string :=
  match str with
  | EmptyString => ""
  | String x rest =>
      if Ascii.eqb x a then replacement +:+ replaceChar a replacement rest
      else String x (replaceChar a replacement rest)
  end.

(** [str.endsWith(suffix)]. *)
Fixpoint endsWith (str suffix : string) : bool :=
  String.eqb str suffix
  || match str with
     | EmptyString => false
     | String _ rest => endsWith rest suffix
     end.

(** The class [\s] of a regular expression, among the units below 256. *)
Definition isWhiteSpace (c : ascii) : bool :=
  match c with
  | "009" | "010" | "011" | "012" | "013" | " " | "160" => true
  | _ => false
  end%char.

(** [SINGLE_QUOTE_AT_END_PATTERN], [/\s'$/]: the last two characters are a
    white space and a single quote. *)
Fixpoint matchesSingleQuoteAtEnd (str : string) : bool :=
  match str with
  | EmptyString => false
  | String c rest =>
      match rest with
      | String q EmptyString => isWhiteSpace c && Ascii.eqb q SINGLE_QUOTE_CHAR
      | _ => matchesSingleQuoteAtEnd rest
      end
  end.

Definition escapeNixString (str : string) : string :=
  let escaped :=
    replacePair BACKSLASH_CHAR NEWLINE_CHAR ESCAPED_NEWLINE
      (replaceChar DOLLAR_CHAR DOLLAR_PREFIX
         (replacePair SINGLE_QUOTE_CHAR SINGLE_QUOTE_CHAR ESCAPED_DOUBLE_QUOTE str)) in
  if endsWith escaped (String SINGLE_QUOTE_CHAR "")
     && negb (endsWith escaped NIX_MULTILINE_START)
     && negb (matchesSingleQuoteAtEnd escaped)
  then escaped +:+ String SPACE_CHAR ""
  else escaped.


(** ** More vocabulary of the statements *)

(** An expression that names nothing on the way the evaluator takes through
    it: no identifier and no property access among the operands of its binary
    expressions. *)
Fixpoint namesNothing (node : Node) : bool :=
  match node with
  | Identifier _ _ | PropertyAccessExpression _ _ => false
  | BinaryExpression leftNode _ rightNode => namesNothing leftNode && namesNothing rightNode
  | _ => true
  end.

(** The depth of the binary expressions of a node. *)
Fixpoint operatorDepth (node : Node) : nat :=
  match node with
  | BinaryExpression leftNode _ rightNode =>
      S (operatorDepth leftNode `max` operatorDepth rightNode)
  | _ => 0
  end.

(** An element of an array literal that is a spread. *)
Definition isSpreadElement (element : Node) : bool :=
  match element with SpreadElement _ => true | _ => false end.

(** The [name] field of an entry of the result: that of the setting, or that
    of the group. *)
Definition entryName (entry : SettingsEntry) : string :=
  match entry with
  | SettingEntry setting => settingName setting
  | ConfigEntry name _ => name
  end.

(** The strings that [escapeNixDoubleQuotedString] leaves as they are. *)
Definition needsNoEscape (str : string) : bool :=
  negb (includes str (String BACKSLASH_CHAR ""))
  && negb (includes str (String DOUBLE_QUOTE_CHAR ""))
  && negb (includes str (String DOLLAR_CHAR (String OPEN_BRACE_CHAR ""))).

(** The reading that undoes [escapeNixDoubleQuotedString]: a backslash makes
    the character after it literal.  It serves in the proofs only. *)
Fixpoint unescapeDoubleQuoted (str : string) : string :=
  match str with
  | EmptyString => ""
  | String c rest =>
      if Ascii.eqb c BACKSLASH_CHAR then
        match rest with
        | String d rest' => String d (unescapeDoubleQuoted rest')
        | EmptyString => String c ""
        end
      else String c (unescapeDoubleQuoted rest)
  end.

(** [count] single quotes. *)
Fixpoint singleQuotes (count : nat) : string :=
  match count with
  | O => ""
  | S n => String SINGLE_QUOTE_CHAR (singleQuotes n)
  end.

(** Every [$] of [str] stands after two single quotes at least, [quotes]
    being the number of single quotes right before [str].  It serves in the
    proofs only. *)
Fixpoint dollarsGuarded (quotes : nat) (str : string) : Prop :=
  match str with
  | EmptyString => True
  | String c rest =>
      if Ascii.eqb c DOLLAR_CHAR then (2 ≤ quotes)%nat ∧ dollarsGuarded 0 rest
      else if Ascii.eqb c SINGLE_QUOTE_CHAR then dollarsGuarded (S quotes) rest
      else dollarsGuarded 0 rest
  end.

(** * What the code does *)

(** ** The evaluator *)

Lemma isLiteralNode_literal_result (node : Node) :
  isLiteralNode node = true → ∃ value, evaluateLiteral node = Ok value.
Proof.
  unfold isLiteralNode, evaluateLiteral.
  destruct (unwrapNode node); simpl; intros; try discriminate; eauto.
Qed.

Lemma evaluateObjectMember_shape (init : option Node) (name : string) :
  callbackShape (evaluateObjectMember init name).
Proof.
  unfold callbackShape, evaluateObjectMember.
  destruct init as [[]|]; try (left; reflexivity).
  destruct (getProperty _ _) as [[? [init|]| | | | |]|]; try (left; reflexivity).
  right; right. eexists. reflexivity.
Qed.

Lemma evaluateEnumMember_shape (valueDecl : option Declaration) :
  callbackShape (evaluateEnumMember valueDecl).
Proof.
  unfold callbackShape, evaluateEnumMember.
  destruct valueDecl as [[| value init | | |]|]; try (left; reflexivity).
  destruct value as [[]|]; try (right; left; eexists; reflexivity);
    (destruct init; [right; right; eexists; reflexivity | left; reflexivity]).
Qed.

Lemma evaluateThroughBase_shape (baseExpr : Node) (name : string) :
  callbackShape (evaluateThroughBase baseExpr name).
Proof.
  unfold evaluateThroughBase.
  destruct baseExpr; try (left; reflexivity).
  cbv zeta.
  generalize (stripAsExpression (mjoin (getVariableDeclaration checker text))).
  match goal with
  | |- context [evaluateObjectMember ?i name] => generalize i
  end.
  intros baseInit altInit.
  destruct (evaluateObjectMember_shape baseInit name) as [Hn|[[c Hc]|[n Hn']]].
  - destruct baseInit.
    + left. intros f. rewrite Hn. reflexivity.
    + destruct (evaluateObjectMember_shape altInit name) as [Hm|[[c Hc]|[n Hn']]].
      * left. intros f. rewrite Hn. apply Hm.
      * right; left. exists c. intros f. rewrite Hn. apply Hc.
      * right; right. exists n. intros f. rewrite Hn. apply Hn'.
  - right; left. exists c. intros f. rewrite Hc. reflexivity.
  - right; right. exists n. intros f. rewrite Hn'. reflexivity.
Qed.

(** The answer of [evaluatePropertyAccess] is fixed by the node, or is the
    callback's answer on one node fixed by it. *)
Lemma evaluatePropertyAccess_shape (node : Node) :
  (∃ c, ∀ f, evaluatePropertyAccess node f = c)
  ∨ (∃ n, ∀ f, evaluatePropertyAccess node f = f n).
Proof.
  destruct node; try (left; eexists; intros; simpl; reflexivity).
  unfold evaluatePropertyAccess.
  match goal with
  | |- context [evaluateEnumMember ?d] =>
      destruct (evaluateEnumMember_shape d) as [He|[[c Hc]|[n Hn]]]
  end.
  - match goal with
    | |- context [evaluateThroughBase ?b ?m] =>
        destruct (evaluateThroughBase_shape b m) as [Hb|[[c Hc]|[n Hn]]]
    end.
    + left. eexists. intros f. rewrite He, Hb. reflexivity.
    + left. exists (Some c). intros f. rewrite He, Hc. reflexivity.
    + right. exists n. intros f. rewrite He, Hn. reflexivity.
  - left. exists (Some c). intros f. rewrite Hc. reflexivity.
  - right. exists n. intros f. rewrite Hn. reflexivity.
Qed.

Lemma evaluate_mono (fuel fuel' : nat) (node : Node) (r : EvaluationResult) :
  (fuel ≤ fuel')%nat → evaluate fuel node = Some r → evaluate fuel' node = Some r.
Proof.
  revert fuel' node r.
  induction fuel as [|fuel IH]; intros fuel' node r Hle Hev; [discriminate|].
  destruct fuel' as [|fuel']; [lia|].
  assert (Hle' : (fuel ≤ fuel')%nat) by lia.
  simpl in *.
  destruct (isLiteralNode node); [exact Hev|].
  destruct node; try exact Hev.
  - destruct (resolveIdentifierWithFallback _) as [resolved|]; [|exact Hev].
    destruct (sameNode _ _); eauto.
  - match goal with
    | |- evaluatePropertyAccess ?pa _ = _ =>
        destruct (evaluatePropertyAccess_shape pa) as [[c Hc]|[n Hn]]
    end.
    + rewrite Hc in *. exact Hev.
    + rewrite Hn in *. eauto.
  - destruct (isSupportedBinaryExpression _); [|exact Hev].
    simpl in *.
    match type of Hev with
    | context [evaluate fuel ?a ≫= _] =>
        destruct (evaluate fuel a) as [r1|] eqn:E1; [|discriminate]
    end.
    simpl in Hev.
    match type of Hev with
    | context [evaluate fuel ?b ≫= _] =>
        destruct (evaluate fuel b) as [r2|] eqn:E2; [|discriminate]
    end.
    rewrite (IH _ _ _ Hle' E1). simpl.
    rewrite (IH _ _ _ Hle' E2). exact Hev.
Qed.

Lemma evaluatesTo_functional (node : Node) (r1 r2 : EvaluationResult) :
  evaluatesTo node r1 → evaluatesTo node r2 → r1 = r2.
Proof.
  intros [n1 H1] [n2 H2].
  apply (evaluate_mono n1 (n1 `max` n2)) in H1; [|lia].
  apply (evaluate_mono n2 (n1 `max` n2)) in H2; [|lia].
  congruence.
Qed.

Lemma unwrapNode_idempotent (node : Node) : unwrapNode (unwrapNode node) = unwrapNode node.
Proof. induction node; simpl; auto. Qed.

(** A wrapper around a literal is looked through: the result is that of the
    literal inside. *)
Lemma evaluate_wrapped_literal (fuel : nat) (node : Node) :
  isLiteralNode node = true →
  evaluate (S fuel) node = evaluate (S fuel) (unwrapNode node).
Proof.
  intros Hlit. simpl.
  unfold isLiteralNode in *. rewrite unwrapNode_idempotent, Hlit.
  unfold evaluateLiteral. rewrite unwrapNode_idempotent. reflexivity.
Qed.

(** C2.  A node wrapped in a type assertion or in parentheses whose inside
    is not a literal does not evaluate to what the inside evaluates to: the
    wrapper branch of [evaluate] hands the wrapper itself to the identifier
    resolver, which answers [undefined] for anything but an identifier, so
    the outcome is always the error "Cannot unwrap node". *)
Theorem evaluate_wrapped_non_literal_fails (fuel : nat) (node : Node) :
  isWrappedNode node = true →
  isLiteralNode node = false →
  evaluate (S fuel) node = Some (Err (createEvaluationError CannotUnwrapNode node)).
Proof.
  intros Hwrapped Hlit. simpl. rewrite Hlit.
  destruct node; simpl in Hwrapped; try discriminate; reflexivity.
Qed.

Lemma evaluate_binary_unfold (fuel : nat) (leftNode rightNode : Node) (op : OperatorToken) :
  evaluate (S fuel) (BinaryExpression leftNode op rightNode) =
  match BINARY_OPERATORS op with
  | Some f =>
      leftResult ← evaluate fuel leftNode;
      rightResult ← evaluate fuel rightNode;
      match leftResult, rightResult with
      | Err error, _ => Some (Err error)
      | _, Err error => Some (Err error)
      | Ok (LNumber l), Ok (LNumber r) => Some (Ok (LNumber (f l r)))
      | Ok _, Ok _ =>
          Some (Err (createEvaluationError OperandsMustBeNumbers
                       (BinaryExpression leftNode op rightNode)))
      end
  | None =>
      Some (Err (createEvaluationError CannotEvaluateNode
                   (BinaryExpression leftNode op rightNode)))
  end.
Proof.
  simpl. destruct (BINARY_OPERATORS op) as [f|] eqn:Hop.
  - rewrite bool_decide_eq_true_2 by eauto.
    destruct (evaluate fuel leftNode) as [[[]|]|]; simpl; try reflexivity;
      destruct (evaluate fuel rightNode) as [[[]|]|]; simpl; reflexivity.
  - rewrite bool_decide_eq_false_2; [reflexivity|].
    intros [? ?]; discriminate.
Qed.

(** The table of the source holds the operators that C3 lists, each with
    its operation, and no other. *)
Lemma BINARY_OPERATORS_listed (op : OperatorToken) (operation : number → number → number) :
  BINARY_OPERATORS op = Some operation ↔ (op, operation) ∈ listedOperators.
Proof.
  unfold listedOperators. split.
  - destruct op; simpl; intros [= <-];
      repeat (first [apply list_elem_of_here | apply list_elem_of_further]).
  - intros Hin.
    repeat (apply elem_of_cons in Hin as [[= -> ->] | Hin]; [reflexivity|]).
    by apply elem_of_nil in Hin.
Qed.

Lemma BINARY_OPERATORS_unlisted (op : OperatorToken) :
  op ∉ listedOperators.*1 → BINARY_OPERATORS op = None.
Proof.
  intros Hnot.
  destruct (BINARY_OPERATORS op) as [operation|] eqn:Hop; [|reflexivity].
  exfalso. apply Hnot. apply BINARY_OPERATORS_listed in Hop.
  apply list_elem_of_fmap. exists (op, operation). split; [reflexivity|exact Hop].
Qed.

(** C3.  A binary expression evaluates to a value exactly when its operator
    is one of [| & ^ << >> >>> + - * / %] and both operands evaluate to
    numbers, the value being the operation applied to the two; when the
    operands evaluate and one of them is an error or not a number the
    outcome is an error; with any other operator the outcome is an error,
    whatever the operands are. *)
Theorem evaluate_binary_expression (leftNode rightNode : Node) (op : OperatorToken) :
  let bin := BinaryExpression leftNode op rightNode in
  (∀ value,
     evaluatesTo bin (Ok value) ↔
     ∃ operation l r, (op, operation) ∈ listedOperators
                      ∧ evaluatesTo leftNode (Ok (LNumber l))
                      ∧ evaluatesTo rightNode (Ok (LNumber r))
                      ∧ value = LNumber (operation l r))
  ∧ (∀ leftResult rightResult,
       evaluatesTo leftNode leftResult →
       evaluatesTo rightNode rightResult →
       ¬ (∃ l r, leftResult = Ok (LNumber l) ∧ rightResult = Ok (LNumber r)) →
       ∃ error, evaluatesTo bin (Err error))
  ∧ (op ∉ listedOperators.*1 →
     ∀ fuel, evaluate (S fuel) bin
             = Some (Err (createEvaluationError CannotEvaluateNode bin))).
Proof.
  intros bin. subst bin. split; [|split].
  - intros value. split.
    + intros [[|fuel] Hev]; [discriminate|].
      rewrite evaluate_binary_unfold in Hev.
      destruct (BINARY_OPERATORS op) as [f|] eqn:Hop; [|discriminate].
      destruct (evaluate fuel leftNode) as [leftResult|] eqn:El; [|discriminate].
      destruct (evaluate fuel rightNode) as [rightResult|] eqn:Er; [|discriminate].
      simpl in Hev.
      destruct leftResult as [[| l |]|]; destruct rightResult as [[| r |]|];
        simplify_eq.
      exists f, l, r. split; [by apply BINARY_OPERATORS_listed|].
      repeat split; eexists; eassumption.
    + intros (f & l & r & Hop & [n1 H1] & [n2 H2] & ->).
      apply BINARY_OPERATORS_listed in Hop.
      exists (S (n1 `max` n2)).
      rewrite evaluate_binary_unfold, Hop.
      rewrite (evaluate_mono n1 (n1 `max` n2) _ _ ltac:(lia) H1). simpl.
      rewrite (evaluate_mono n2 (n1 `max` n2) _ _ ltac:(lia) H2). reflexivity.
  - intros leftResult rightResult [n1 H1] [n2 H2] Hnot.
    destruct (BINARY_OPERATORS op) as [f|] eqn:Hop.
    + assert (Hev : ∃ error,
                 evaluate (S (n1 `max` n2)) (BinaryExpression leftNode op rightNode)
                 = Some (Err error)).
      { rewrite evaluate_binary_unfold, Hop.
        rewrite (evaluate_mono n1 (n1 `max` n2) _ _ ltac:(lia) H1). simpl.
        rewrite (evaluate_mono n2 (n1 `max` n2) _ _ ltac:(lia) H2).
        destruct leftResult as [[| l |]|]; destruct rightResult as [[| r |]|];
          try (eexists; reflexivity).
        exfalso. apply Hnot. eauto. }
      destruct Hev as [error Hev]. exists error. eexists. exact Hev.
    + exists (createEvaluationError CannotEvaluateNode
                (BinaryExpression leftNode op rightNode)).
      exists 1%nat. rewrite evaluate_binary_unfold, Hop. reflexivity.
  - intros Hop fuel.
    rewrite evaluate_binary_unfold, (BINARY_OPERATORS_unlisted _ Hop). reflexivity.
Qed.

(** ** The classifier *)

(** [tsTypeToNixType] hands back no choices, or the choices it was given. *)
Lemma tsTypeToNixType_enumValues (setting : RawSetting) (base : NixTypeResult) :
  tsTypeToNixType setting = Some base →
  enumValues base = None
  ∨ enumValues base = Some (buildEnumValuesFromOptions (rawOptions setting)).
Proof.
  unfold tsTypeToNixType. intros Hbase.
  destruct (rawType setting) as [| n | | type].
  1-3: injection Hbase as <-; unfold nixTypeWithoutTypeNode;
       repeat case_match; simpl; auto.
  destruct (resolveOptionTypeNameFromNode type) as [[typeName|]|];
    simpl in Hbase; [| |discriminate].
  - injection Hbase as <-. unfold nixTypeForTypeName.
    repeat case_match; simpl; auto.
  - destruct (inferTypeFromTypeScriptType _ _); injection Hbase as <-; simpl; auto.
Qed.

Lemma setSize_two_booleans (b1 b2 : bool) :
  b1 ≠ b2 → setSize [LBoolean b1; LBoolean b2] = 2%nat.
Proof. destruct b1, b2; intros Hne; try reflexivity; contradiction. Qed.

(** The sibling path.  When the choices extracted from a setting are two
    distinct booleans, and the choices handed over with the raw setting are
    those or none, the classifier answers the boolean type and no enum
    choices, whatever the annotation and the default are. *)
Lemma boolean_pair_classified_as_bool (fuel : nat)
    (valueObj : list ObjectLiteralElement) (props : SettingProperties)
    (rawSetting : RawSetting) (base : NixTypeResult)
    (b1 b2 : bool) (extractedLabels : gmap string string) :
  b1 ≠ b2 →
  extractSelectOptions fuel valueObj
    = Some (Ok {| values := [LBoolean b1; LBoolean b2]; labels := extractedLabels |}) →
  rawOptions rawSetting = VUndefined
    ∨ rawOptions rawSetting = VArray [VBoolean b1; VBoolean b2] →
  tsTypeToNixType rawSetting = Some base →
  inferNixTypeAndEnumValues fuel valueObj props rawSetting
    = Some {| finalNixType := NIX_TYPE_BOOL;
              selectEnumValues := None;
              inferredDefault := defaultLiteralValue props |}.
Proof.
  intros Hne Hast Hraw Hbase.
  unfold inferNixTypeAndEnumValues. rewrite Hbase, Hast. simpl.
  assert (Hselected :
    match enumValues base with
    | Some (v :: vs) => Some (v :: vs)
    | _ => Some [LBoolean b1; LBoolean b2]
    end = Some [LBoolean b1; LBoolean b2]).
  { destruct (tsTypeToNixType_enumValues _ _ Hbase) as [-> | ->]; [reflexivity|].
    destruct Hraw as [-> | ->]; reflexivity. }
  rewrite Hselected.
  pose proof (setSize_two_booleans b1 b2 Hne) as Hsize.
  cbn [length forallb isBooleanLiteral andb Nat.eqb BOOLEAN_ENUM_LENGTH].
  rewrite Hsize. reflexivity.
Qed.

(** [tsTypeToNixType] on its own looks at the choices only under the
    annotation [SELECT] and when the type is not a node: under [STRING] the
    answer is the string type, whatever the choices are. *)
Lemma tsTypeToNixType_string_annotation (setting : RawSetting) (type : Node) :
  rawType setting = TypeNode type →
  resolveOptionTypeNameFromNode type = Some (Some OPTION_TYPE_STRING) →
  tsTypeToNixType setting = Some {| nixType := NIX_TYPE_STR; enumValues := None |}.
Proof.
  intros Htype Hname. unfold tsTypeToNixType. rewrite Htype, Hname. reflexivity.
Qed.

(** C6, as amended.  Under the annotation [NUMBER] the target type is the
    integer type when the default is an integral number and the float type
    otherwise: for a number that is not integral, and also when there is no
    default or the default is not a number. *)
Theorem number_annotation_type (setting : RawSetting) (type : Node) :
  rawType setting = TypeNode type →
  resolveOptionTypeNameFromNode type = Some (Some OPTION_TYPE_NUMBER) →
  tsTypeToNixType setting
    = Some {| nixType := match rawDefault setting with
                         | VNumber val =>
                             if isInteger val then NIX_TYPE_INT else NIX_TYPE_FLOAT
                         | _ => NIX_TYPE_FLOAT
                         end;
              enumValues := None |}.
Proof.
  intros Htype Hname. unfold tsTypeToNixType. rewrite Htype, Hname. reflexivity.
Qed.

(** ** The default resolver *)

Lemma getter_has_no_initializer (valueObj : list ObjectLiteralElement) (name : PropertyName) :
  getProperty valueObj DEFAULT_PROPERTY = Some (GetAccessor name) →
  getDefaultPropertyInitializer valueObj = None.
Proof.
  intros Hget.
  unfold getDefaultPropertyInitializer, getPropertyInitializer, getPropertyAssignment.
  rewrite Hget. reflexivity.
Qed.

(** C7.  For a setting of the attribute-set type without a literal default
    whose [default] is a getter, [resolveDefaultValue] sets the default to
    [null] and leaves the type as it was: the attribute-set type, not the
    nullable string. *)
Theorem getter_default_keeps_attrs_type (fuel : nat)
    (valueObj : list ObjectLiteralElement) (name : PropertyName)
    (choices : option (list EnumLiteral)) :
  getProperty valueObj DEFAULT_PROPERTY = Some (GetAccessor name) →
  resolveDefaultValue fuel valueObj NIX_TYPE_ATTRS VUndefined choices
    = Some {| resolvedNixType := NIX_TYPE_ATTRS; resolvedDefault := VNull |}.
Proof.
  intros Hget.
  pose proof (getter_has_no_initializer _ _ Hget) as Hinit.
  unfold resolveDefaultValue, resolveIdentifierArrayDefault, hasStringArrayDefault.
  rewrite Hinit. simpl.
  unfold resolveAttrsDefault. rewrite Hget. reflexivity.
Qed.

(** The sibling path: the classifier does turn a component setting whose
    [default] is a getter into a nullable string. *)
Lemma classifyComponentOrCustom_getter (valueObj : list ObjectLiteralElement)
    (name : PropertyName) (baseType : NixType) (defaultValue : Value) :
  getProperty valueObj DEFAULT_PROPERTY = Some (GetAccessor name) →
  classifyComponentOrCustom valueObj baseType defaultValue
    = {| classifiedType := NIX_TYPE_NULL_OR_STR; classifiedDefault := VNull |}.
Proof. intros Hget. unfold classifyComponentOrCustom. rewrite Hget. reflexivity. Qed.

(** A default that was read as an array goes through [resolveDefaultValue]
    untouched, and so does the type. *)
Lemma resolveDefaultValue_array (fuel : nat) (valueObj : list ObjectLiteralElement)
    (finalNixType : NixType) (items : list Value) (choices : option (list EnumLiteral)) :
  resolveDefaultValue fuel valueObj finalNixType (VArray items) choices
    = Some {| resolvedNixType := finalNixType; resolvedDefault := VArray items |}.
Proof. unfold resolveDefaultValue. destruct finalNixType; reflexivity. Qed.

Lemma extractLiteralValue_string_array (fuel : nat) (strs : list string) :
  extractLiteralValue fuel (ArrayLiteralExpression (StringLiteral <$> strs))
    = Some (VArray (VString <$> strs)).
Proof.
  induction strs as [|str strs IH]; [destruct fuel; reflexivity|].
  assert (Hstep : ∀ items,
            extractLiteralValue fuel (ArrayLiteralExpression items) = Some (VArray (VString <$> strs)) →
            extractLiteralValue fuel (ArrayLiteralExpression (StringLiteral str :: items))
              = Some (VArray (VString str :: (VString <$> strs)))).
  { intros items Hitems. destruct fuel; simpl in *.
    all: match type of Hitems with
         | VArray <$> ?x = _ => destruct x; simpl in *; congruence
         end. }
  apply Hstep, IH.
Qed.

Lemma inferNixTypeFromRuntimeDefault_not_list (defaultValue : Value) :
  inferNixTypeFromRuntimeDefault defaultValue ≠ NIX_TYPE_LIST_OF_STR.
Proof. destruct defaultValue; simpl; try discriminate; case_match; discriminate. Qed.

Lemma nixTypeForComponentOrCustom_not_list (defaultValue : Value) :
  nixTypeForComponentOrCustom defaultValue ≠ NIX_TYPE_LIST_OF_STR.
Proof. destruct defaultValue; simpl; try discriminate; case_match; discriminate. Qed.

(** [tsTypeToNixType] never answers the list-of-string type. *)
Lemma tsTypeToNixType_not_list (setting : RawSetting) (typed : NixTypeResult) :
  tsTypeToNixType setting = Some typed → nixType typed ≠ NIX_TYPE_LIST_OF_STR.
Proof.
  pose proof inferNixTypeFromRuntimeDefault_not_list as Hinfer.
  pose proof nixTypeForComponentOrCustom_not_list as Hcomponent.
  unfold tsTypeToNixType. intros Htyped.
  destruct (rawType setting) as [| n | | type].
  1-3: injection Htyped as <-; unfold nixTypeWithoutTypeNode;
       repeat case_match; simpl; auto; discriminate.
  destruct (resolveOptionTypeNameFromNode type) as [[typeName|]|];
    simpl in Htyped; [| |discriminate].
  - injection Htyped as <-. unfold nixTypeForTypeName.
    repeat case_match; simpl; auto; discriminate.
  - destruct (inferTypeFromTypeScriptType _ _) as [t|] eqn:Et;
      injection Htyped as <-; simpl; auto.
    unfold inferTypeFromTypeScriptType in Et.
    repeat case_match; simplify_eq; discriminate.
Qed.

(** C5.  A setting whose [default] is a literal array of string literals is
    emitted with those strings as its default, and its type is never the
    list-of-string type: [extractLiteralValue] reads the array as a value, so
    the rule of [resolveDefaultValue] for string arrays, which asks for no
    literal default, does not fire. *)
Theorem literal_string_array_default_is_emitted (fuel : nat) (skipHiddenCheck : bool)
    (key : string) (valueObj : list ObjectLiteralElement) (strs : list string)
    (setting : PluginSetting) :
  getPropertyInitializer valueObj DEFAULT_PROPERTY
    = Some (ArrayLiteralExpression (StringLiteral <$> strs)) →
  extractSetting fuel skipHiddenCheck key valueObj = Some (Some setting) →
  settingDefault setting = VArray (VString <$> strs)
  ∧ settingType setting ≠ NIX_TYPE_LIST_OF_STR.
Proof.
  intros Hdefault Hsetting.
  unfold extractSetting, extractProperties in Hsetting.
  change "default" with DEFAULT_PROPERTY in Hsetting.
  rewrite Hdefault, extractLiteralValue_string_array in Hsetting.
  cbn [mbind option_bind] in Hsetting.
  cbn [hidden defaultLiteralValue typeNode description placeholder restartNeeded]
    in Hsetting.
  destruct (negb skipHiddenCheck && hasHiddenMarker valueObj); [discriminate|].
  destruct (extractSelectOptions fuel valueObj) as [optionsResult|]; [|discriminate].
  cbn [mbind option_bind] in Hsetting.
  destruct (tsTypeToNixType _) as [typed|] eqn:Htyped; [|discriminate].
  cbn [mbind option_bind] in Hsetting.
  rewrite resolveDefaultValue_array in Hsetting.
  cbn [mbind option_bind resolvedNixType resolvedDefault] in Hsetting.
  injection Hsetting as <-. simpl.
  split; [reflexivity|]. eapply tsTypeToNixType_not_list, Htyped.
Qed.

(** The rule for string arrays fires when no literal default was read: so
    for an identifier bound to an array of string literals, which
    [extractLiteralValue] reads as [undefined]. *)
Lemma string_array_default_without_literal (fuel : nat)
    (valueObj : list ObjectLiteralElement) (finalNixType : NixType)
    (choices : option (list EnumLiteral)) :
  resolveIdentifierArrayDefault valueObj || hasStringArrayDefault valueObj = true →
  resolveDefaultValue fuel valueObj finalNixType VUndefined choices
    = Some {| resolvedNixType := NIX_TYPE_LIST_OF_STR; resolvedDefault := VArray [] |}.
Proof. intros Hguard. unfold resolveDefaultValue. rewrite Hguard. reflexivity. Qed.

(** The sibling path: the classifier gives the list-of-string type and the
    empty list to a default that is a literal array of strings. *)
Lemma classifySetting_string_array (valueObj : list ObjectLiteralElement)
    (props : SettingProperties) (baseType : NixType) :
  hasStringArrayDefault valueObj = true →
  classifySetting valueObj props baseType
    = {| classifiedType := NIX_TYPE_LIST_OF_STR; classifiedDefault := VArray [] |}.
Proof. intros Harray. unfold classifySetting. rewrite Harray. reflexivity. Qed.

(** Starting from the string type, [resolveDefaultValue] ends on a string,
    a nullable string, an attribute set or a list of strings. *)
Lemma resolveDefaultValue_from_string (fuel : nat) (valueObj : list ObjectLiteralElement)
    (defaultValue : Value) (choices : option (list EnumLiteral))
    (resolved : ResolvedDefaultValue) :
  resolveDefaultValue fuel valueObj NIX_TYPE_STR defaultValue choices = Some resolved →
  resolvedNixType resolved ≠ NIX_TYPE_BOOL.
Proof.
  unfold resolveDefaultValue. intros Hres.
  rewrite (bool_decide_eq_false_2 (NIX_TYPE_STR = NIX_TYPE_BOOL)) in Hres by discriminate.
  rewrite (bool_decide_eq_false_2 (NIX_TYPE_STR = NIX_ENUM_TYPE)) in Hres by discriminate.
  rewrite (bool_decide_eq_false_2 (NIX_TYPE_STR = NIX_TYPE_ATTRS)) in Hres by discriminate.
  rewrite (bool_decide_eq_false_2 (NIX_TYPE_STR = NIX_TYPE_NULL_OR_STR)) in Hres
    by discriminate.
  rewrite (bool_decide_eq_true_2 (NIX_TYPE_STR = NIX_TYPE_STR)) in Hres by reflexivity.
  destruct (isUndefined defaultValue && _); [by injection Hres as <-|].
  cbn -[promotesToAttrs attrsPromotionDefault isUndefined] in Hres.
  destruct (isUndefined defaultValue);
    cbn -[promotesToAttrs attrsPromotionDefault] in Hres.
  - destruct (promotesToAttrs valueObj); unfold attrsPromotionDefault in Hres;
      [destruct (hasObjectArrayDefault valueObj)|]; cbn in Hres;
      injection Hres as <-; discriminate.
  - injection Hres as <-; discriminate.
Qed.

(** C1.  The settings extractor takes the target type from [tsTypeToNixType]
    and [resolveDefaultValue]: a setting annotated [STRING] is never emitted
    as a boolean, whatever its choices are, two distinct booleans included.
    The collapse of such a pair to the boolean type is in the classifier
    [inferNixTypeAndEnumValues], which the extractor does not call. *)
Theorem string_annotation_is_never_boolean (fuel : nat) (skipHiddenCheck : bool)
    (key : string) (valueObj : list ObjectLiteralElement) (type : Node)
    (setting : PluginSetting) :
  getPropertyInitializer valueObj TYPE_PROPERTY = Some type →
  resolveOptionTypeNameFromNode type = Some (Some OPTION_TYPE_STRING) →
  extractSetting fuel skipHiddenCheck key valueObj = Some (Some setting) →
  settingType setting ≠ NIX_TYPE_BOOL.
Proof.
  intros Htype Hname Hsetting.
  unfold extractSetting, extractProperties in Hsetting.
  change "type" with TYPE_PROPERTY in Hsetting. rewrite Htype in Hsetting.
  destruct (match getPropertyInitializer valueObj "default" with
            | Some init => extractLiteralValue fuel init
            | None => Some VUndefined
            end) as [defaultValue|]; [|discriminate].
  cbn [mbind option_bind] in Hsetting.
  cbn [hidden defaultLiteralValue typeNode description placeholder restartNeeded]
    in Hsetting.
  destruct (negb skipHiddenCheck && hasHiddenMarker valueObj); [discriminate|].
  destruct (extractSelectOptions fuel valueObj) as [optionsResult|]; [|discriminate].
  cbn [mbind option_bind] in Hsetting.
  erewrite tsTypeToNixType_string_annotation in Hsetting; [|reflexivity|exact Hname].
  cbn [mbind option_bind nixType enumValues] in Hsetting.
  destruct (resolveDefaultValue _ _ _ _ _) as [resolved|] eqn:Hresolved; [|discriminate].
  cbn [mbind option_bind] in Hsetting. injection Hsetting as <-. simpl.
  eapply resolveDefaultValue_from_string, Hresolved.
Qed.

(** ** The default marker of an enumerated setting *)

Lemma findDefaultInElement_unmarked (fuel : nat)
    (recurse : list Node → option SelectDefaultResult) (element : Node) :
  unmarked element = true → findDefaultInElement fuel recurse element = Some (Ok None).
Proof.
  unfold unmarked, carriesDefaultMarker, findDefaultInElement.
  destruct element; try reflexivity; [|simpl; discriminate].
  destruct (getPropertyAssignment _ _) as [[? [[]|]]|]; simpl; try reflexivity.
  discriminate.
Qed.

Lemma findFirstDefault_unmarked (fuel : nat)
    (recurse : list Node → option SelectDefaultResult) (before rest : list Node) :
  Forall (λ el, unmarked el = true) before →
  findFirstDefault (findDefaultInElement fuel recurse) (before ++ rest)
    = findFirstDefault (findDefaultInElement fuel recurse) rest.
Proof.
  induction 1 as [|el before Hel _ IH]; [reflexivity|].
  simpl. rewrite (findDefaultInElement_unmarked _ _ _ Hel). exact IH.
Qed.

Lemma findDefaultInElement_marked (fuel : nat)
    (recurse : list Node → option SelectDefaultResult)
    (obj : list ObjectLiteralElement) (valueInit : Node) (value : EnumLiteral) :
  carriesDefaultMarker (ObjectLiteralExpression obj) = true →
  getPropertyInitializer obj VALUE_PROPERTY = Some valueInit →
  evaluate fuel valueInit = Some (Ok value) →
  findDefaultInElement fuel recurse (ObjectLiteralExpression obj) = Some (Ok (Some value)).
Proof.
  unfold carriesDefaultMarker, findDefaultInElement.
  intros Hmarker Hvalue Heval.
  destruct (getPropertyAssignment obj DEFAULT_PROPERTY) as [[? [[]|]]|];
    try discriminate.
  rewrite Hvalue, Heval. reflexivity.
Qed.

(** The blocks of [resolveDefaultValue] after the one for enumerated
    settings leave an enumerated setting alone. *)
Lemma resolveDefaultValue_enum (fuel : nat) (valueObj : list ObjectLiteralElement)
    (choices : option (list EnumLiteral)) (result : SelectDefaultResult) :
  resolveIdentifierArrayDefault valueObj || hasStringArrayDefault valueObj = false →
  extractSelectDefault fuel valueObj = Some result →
  resolveDefaultValue fuel valueObj NIX_ENUM_TYPE VUndefined choices
    = Some {| resolvedNixType := NIX_ENUM_TYPE;
              resolvedDefault :=
                match selectDefaultValue result with
                | Some v => ofLiteral v
                | None =>
                    match choices with
                    | Some (first :: _) => ofLiteral first
                    | _ => VUndefined
                    end
                end |}.
Proof.
  intros Hguard Hselect. unfold resolveDefaultValue.
  rewrite Hguard, Hselect. simpl.
  destruct (selectDefaultValue result) as [[]|]; [reflexivity..|].
  destruct choices as [[|[] ?]|]; reflexivity.
Qed.

(** The part that holds.  For an enumerated setting without a literal
    default, whose [default] does not resolve to an array of strings and whose
    [options] is written as an array literal, bare: the first element that
    carries [default: true], when its value evaluates, gives the default,
    wherever it stands among elements without a marker; when no element
    carries a marker the default is the first choice; and when there is no
    choice either it is left undefined. *)
Lemma enum_default_from_marker (fuel : nat) (valueObj : list ObjectLiteralElement)
    (optionsName : PropertyName) (elements : list Node)
    (choices : option (list EnumLiteral)) :
  getPropertyAssignment valueObj OPTIONS_PROPERTY
    = Some (optionsName, Some (ArrayLiteralExpression elements)) →
  resolveIdentifierArrayDefault valueObj || hasStringArrayDefault valueObj = false →
  (∀ before obj after valueInit value,
     elements = before ++ ObjectLiteralExpression obj :: after →
     Forall (λ el, unmarked el = true) before →
     carriesDefaultMarker (ObjectLiteralExpression obj) = true →
     getPropertyInitializer obj VALUE_PROPERTY = Some valueInit →
     evaluate fuel valueInit = Some (Ok value) →
     resolveDefaultValue fuel valueObj NIX_ENUM_TYPE VUndefined choices
       = Some {| resolvedNixType := NIX_ENUM_TYPE; resolvedDefault := ofLiteral value |})
  ∧ (fuel ≠ 0%nat →
     Forall (λ el, unmarked el = true) elements →
     (∀ first rest,
        choices = Some (first :: rest) →
        resolveDefaultValue fuel valueObj NIX_ENUM_TYPE VUndefined choices
          = Some {| resolvedNixType := NIX_ENUM_TYPE; resolvedDefault := ofLiteral first |})
     ∧ (choices = None ∨ choices = Some [] →
        resolveDefaultValue fuel valueObj NIX_ENUM_TYPE VUndefined choices
          = Some {| resolvedNixType := NIX_ENUM_TYPE; resolvedDefault := VUndefined |})).
Proof.
  intros Hoptions Hguard.
  assert (Hselect : extractSelectDefault fuel valueObj
                    = findDefaultInArrayLiteral fuel elements).
  { unfold extractSelectDefault. rewrite Hoptions. reflexivity. }
  split.
  - intros before obj after valueInit value -> Hbefore Hmarker Hvalue Heval.
    destruct fuel as [|fuel']; [discriminate|].
    erewrite resolveDefaultValue_enum; [|exact Hguard|].
    2:{ rewrite Hselect. cbn [findDefaultInArrayLiteral].
        rewrite findFirstDefault_unmarked by exact Hbefore.
        cbn [findFirstDefault].
        rewrite (findDefaultInElement_marked _ _ _ _ _ Hmarker Hvalue Heval).
        reflexivity. }
    reflexivity.
  - intros Hfuel Hall.
    destruct fuel as [|fuel']; [contradiction|].
    assert (Hnone : extractSelectDefault (S fuel') valueObj = Some (Ok None)).
    { rewrite Hselect. cbn [findDefaultInArrayLiteral].
      rewrite <- (app_nil_r elements).
      rewrite findFirstDefault_unmarked by exact Hall. reflexivity. }
    split.
    + intros first rest ->.
      rewrite (resolveDefaultValue_enum _ _ _ _ Hguard Hnone). reflexivity.
    + intros [-> | ->];
        rewrite (resolveDefaultValue_enum _ _ _ _ Hguard Hnone); reflexivity.
Qed.

(** The search for the marker does not look through a type assertion or a
    pair of parentheses around the initializer of [options]. *)
Lemma extractSelectDefault_wrapped (fuel : nat) (valueObj : list ObjectLiteralElement)
    (optionsName : PropertyName) (initializer : Node) :
  getPropertyAssignment valueObj OPTIONS_PROPERTY = Some (optionsName, Some initializer) →
  isWrappedNode initializer = true →
  extractSelectDefault fuel valueObj = Some (Ok None).
Proof.
  intros Hoptions Hwrapped. unfold extractSelectDefault. rewrite Hoptions.
  destruct initializer; simpl in Hwrapped; try discriminate; reflexivity.
Qed.

(** The choices are read through the wrappers. *)
Lemma extractSelectOptions_wrapped (fuel : nat) (valueObj : list ObjectLiteralElement)
    (optionsName : PropertyName) (initializer : Node) (elements : list Node) :
  getPropertyAssignment valueObj OPTIONS_PROPERTY = Some (optionsName, Some initializer) →
  unwrapNode initializer = ArrayLiteralExpression elements →
  extractSelectOptions fuel valueObj
    = extractOptionsFromObjectArray fuel (ArrayLiteralExpression elements) elements.
Proof.
  unfold getPropertyAssignment, extractSelectOptions. intros Hoptions Hunwrapped.
  destruct (getProperty valueObj OPTIONS_PROPERTY) as [[]|]; simplify_eq.
  rewrite Hunwrapped. reflexivity.
Qed.

(** C4.  When the initializer of [options] is an array literal under a type
    assertion or in parentheses, as in [options: [...] as const], the choices
    are extracted from the array, but the marker [default: true] is not
    looked for: the default of the enumerated setting is the first choice,
    whichever element carries the marker.  [extractSelectOptions] unwraps the
    initializer and [extractSelectDefault] does not. *)
Theorem wrapped_options_default_ignores_marker (fuel : nat)
    (valueObj : list ObjectLiteralElement) (optionsName : PropertyName)
    (initializer : Node) (elements : list Node)
    (first : EnumLiteral) (rest : list EnumLiteral) :
  getPropertyAssignment valueObj OPTIONS_PROPERTY = Some (optionsName, Some initializer) →
  isWrappedNode initializer = true →
  unwrapNode initializer = ArrayLiteralExpression elements →
  resolveIdentifierArrayDefault valueObj || hasStringArrayDefault valueObj = false →
  extractSelectOptions fuel valueObj
    = extractOptionsFromObjectArray fuel (ArrayLiteralExpression elements) elements
  ∧ resolveDefaultValue fuel valueObj NIX_ENUM_TYPE VUndefined (Some (first :: rest))
    = Some {| resolvedNixType := NIX_ENUM_TYPE; resolvedDefault := ofLiteral first |}.
Proof.
  intros Hoptions Hwrapped Hunwrapped Hguard. split.
  - eapply extractSelectOptions_wrapped; eassumption.
  - rewrite (resolveDefaultValue_enum fuel valueObj (Some (first :: rest)) (Ok None) Hguard
               (extractSelectDefault_wrapped _ _ _ _ Hoptions Hwrapped)).
    reflexivity.
Qed.

(** ** The options of a setting *)


Lemma addArrayElement_None (fuel : nat) (elements : list Node) :
  foldl (addArrayElement fuel) None elements = None.
Proof. induction elements; simpl; auto. Qed.











(** ** Hidden settings *)

Lemma addProperty_None (fuel : nat) (skipHiddenCheck : bool)
    (recurse : list (PropertyName * option Node) → option (gmap string SettingsEntry))
    (properties : list (PropertyName * option Node)) :
  foldl (addProperty fuel skipHiddenCheck recurse) None properties = None.
Proof. induction properties; simpl; auto. Qed.

(** One turn of the [reduce] touches the key of its property only. *)
Lemma addProperty_lookup_ne (fuel : nat) (skipHiddenCheck : bool)
    (recurse : list (PropertyName * option Node) → option (gmap string SettingsEntry))
    (acc acc' : gmap string SettingsEntry) (p : PropertyName * option Node) (k : string) :
  addProperty fuel skipHiddenCheck recurse (Some acc) p = Some acc' →
  k ≠ getNameText p.1 →
  acc' !! k = acc !! k.
Proof.
  unfold addProperty. intros Hstep Hne. simpl in Hstep.
  destruct p.2 as [[]|]; try discriminate.
  destruct (isSettingsGroup _).
  - destruct (recurse _); simplify_eq/=. by rewrite lookup_insert_ne.
  - destruct (extractSetting _ _ _ _) as [[setting|]|]; simplify_eq/=.
    + by rewrite lookup_insert_ne.
    + reflexivity.
Qed.

Lemma foldl_addProperty_lookup (fuel : nat) (skipHiddenCheck : bool)
    (recurse : list (PropertyName * option Node) → option (gmap string SettingsEntry))
    (properties : list (PropertyName * option Node)) (k : string) :
  k ∉ propertyNames properties →
  ∀ acc m,
    foldl (addProperty fuel skipHiddenCheck recurse) (Some acc) properties = Some m →
    m !! k = acc !! k.
Proof.
  induction properties as [|p properties IH]; intros Hnot acc m Hfold.
  - simpl in Hfold. by simplify_eq.
  - cbn [foldl] in Hfold.
    unfold propertyNames in Hnot. rewrite fmap_cons, not_elem_of_cons in Hnot.
    destruct Hnot as [Hne Hnot].
    destruct (addProperty fuel skipHiddenCheck recurse (Some acc) p) as [acc'|] eqn:Hstep.
    + rewrite (IH Hnot acc' m Hfold).
      eapply addProperty_lookup_ne; eassumption.
    + rewrite addProperty_None in Hfold. discriminate.
Qed.











(** * Further properties of the code *)

(** ** The evaluator *)

(** X1.  [unwrapNode] leaves no type assertion and no parenthesis at the top,
    however deep the wrappers are nested, and a second pass changes
    nothing. *)
Theorem unwrapNode_strips_wrappers (node : Node) :
  isWrappedNode (unwrapNode node) = false
  ∧ unwrapNode (unwrapNode node) = unwrapNode node.
Proof. split; induction node; simpl; auto. Qed.

(** X2.  A literal under any number of wrappers evaluates to its value, with any
    checker: nothing is resolved on the way. *)
Theorem wrapped_literal_evaluates (fuel : nat) (node : Node) :
  isLiteralNode node = true →
  ∃ value, evaluateLiteral (unwrapNode node) = Ok value
           ∧ evaluate (S fuel) node = Some (Ok value).
Proof.
  intros Hlit.
  destruct (isLiteralNode_literal_result node Hlit) as [value Hvalue].
  exists value. split.
  - unfold evaluateLiteral in *. rewrite unwrapNode_idempotent. exact Hvalue.
  - simpl. rewrite Hlit, Hvalue. reflexivity.
Qed.

(** X3.  Two identifiers bound to each other are never evaluated to an end: the
    evaluator recognises an identifier bound to itself only, and follows any
    longer cycle for ever. *)
Theorem mutually_bound_identifiers_never_evaluate (p q : nat) (a b : string) :
  p ≠ q →
  resolveIdentifierWithFallback (Identifier p a) = Some (Identifier q b) →
  resolveIdentifierWithFallback (Identifier q b) = Some (Identifier p a) →
  ∀ fuel, evaluate fuel (Identifier p a) = None.
Proof.
  intros Hne Hab Hba.
  assert (Hboth : ∀ fuel, evaluate fuel (Identifier p a) = None
                          ∧ evaluate fuel (Identifier q b) = None).
  { induction fuel as [|fuel [IHa IHb]]; [split; reflexivity|].
    split; cbn [evaluate]; unfold isLiteralNode; cbn [unwrapNode isLiteralKind].
    - rewrite Hab. cbn [sameNode].
      destruct (Nat.eqb_spec q p) as [->|_]; [contradiction|exact IHb].
    - rewrite Hba. cbn [sameNode].
      destruct (Nat.eqb_spec p q) as [->|_]; [contradiction|exact IHa]. }
  intros fuel. apply Hboth.
Qed.

(** X4.  A property access whose base is an identifier that nothing declares
    falls back on the table of external enums: when neither name is one that
    a plain object inherits from [Object.prototype], the outcome is the
    member's number when the table has it, and an error otherwise. *)
Theorem external_enum_fallback (fuel p : nat) (enumName member : string) :
  let node := PropertyAccessExpression (Identifier p enumName) member in
  symbolOf node = None →
  symbolOf (Identifier p enumName) = None →
  mjoin (getVariableDeclaration checker enumName) = None →
  isInheritedName enumName = false →
  isInheritedName member = false →
  evaluate (S fuel) node =
    Some (match assoc enumName EXTERNAL_ENUMS ≫= assoc member with
          | Some value => Ok (LNumber (ofZ value))
          | None => Err (createEvaluationError CannotResolvePropertyAccess node)
          end).
Proof.
  intros node Hnode Hbase Hdecl Henum Hmember. subst node.
  cbn [evaluate]. unfold isLiteralNode. cbn [unwrapNode isLiteralKind].
  unfold evaluatePropertyAccess, evaluateThroughBase.
  rewrite Hnode, Hbase, Hdecl.
  cbn -[getExternalEnumValue EXTERNAL_ENUMS assoc].
  unfold getExternalEnumValue. rewrite Henum, Hmember.
  destruct (assoc enumName EXTERNAL_ENUMS) as [members|]; [|reflexivity].
  cbn [mbind option_bind]. destruct (assoc member members); reflexivity.
Qed.

(** X5.  On an expression that names nothing the evaluator always returns, after
    as many nested calls as its binary expressions are deep: it can fail to
    return only by following declarations. *)
Theorem evaluate_returns_when_nothing_is_named (node : Node) :
  namesNothing node = true →
  ∀ fuel, (operatorDepth node < fuel)%nat → is_Some (evaluate fuel node).
Proof.
  induction node; intros Hnames fuel Hfuel;
    (destruct fuel as [|fuel']; [lia|]); cbn [evaluate];
    try discriminate;
    try (destruct (isLiteralNode _); eauto; fail).
  cbn [namesNothing operatorDepth] in *.
  apply andb_true_iff in Hnames as [Hleft Hright].
  destruct (isLiteralNode _); [eauto|].
  destruct (isSupportedBinaryExpression _); [|eauto].
  cbn [evaluateBinaryExpression].
  destruct (IHnode1 Hleft fuel' ltac:(lia)) as [leftResult ->].
  destruct (IHnode2 Hright fuel' ltac:(lia)) as [rightResult ->].
  cbn [mbind option_bind]. repeat case_match; eauto.
Qed.

(** ** The options of a setting and their default *)

Lemma addValueAndLabel_labels (state : list EnumLiteral * gmap string string)
    (valueResult : Result ValueAndLabel EvaluationError) :
  (∀ key label, state.2 !! key = Some label →
     ∃ value, value ∈ state.1 ∧ literalToString value = key) →
  ∀ key label, (addValueAndLabel state valueResult).2 !! key = Some label →
    ∃ value, value ∈ (addValueAndLabel state valueResult).1 ∧ literalToString value = key.
Proof.
  intros Hstate key label. unfold addValueAndLabel.
  destruct valueResult as [[value [l|]]|error]; cbn [fst snd]; [| |apply Hstate].
  - destruct (decide (literalToString value = key)) as [<-|Hne].
    + intros _. exists value. split; [|reflexivity].
      apply elem_of_app. right. apply list_elem_of_singleton. reflexivity.
    + rewrite lookup_insert_ne by exact Hne. intros Hkey.
      destruct (Hstate key label Hkey) as (v & Hv & Hstr).
      exists v. split; [|exact Hstr]. apply elem_of_app. by left.
  - intros Hkey. destruct (Hstate key label Hkey) as (v & Hv & Hstr).
    exists v. split; [|exact Hstr]. apply elem_of_app. by left.
Qed.

Lemma foldl_addObjectElement_labels (fuel : nat) (elements : list Node) :
  ∀ state state',
    (∀ key label, state.2 !! key = Some label →
       ∃ value, value ∈ state.1 ∧ literalToString value = key) →
    foldl (addObjectElement fuel) (Some state) elements = Some state' →
    ∀ key label, state'.2 !! key = Some label →
      ∃ value, value ∈ state'.1 ∧ literalToString value = key.
Proof.
  induction elements as [|element elements IH]; intros state state' Hstate Hfold.
  - cbn in Hfold. injection Hfold as <-. exact Hstate.
  - cbn [foldl] in Hfold.
    destruct (addObjectElement fuel (Some state) element) as [next|] eqn:Hstep.
    + apply (IH next state'); [|exact Hfold].
      unfold addObjectElement in Hstep. cbn [mbind option_bind] in Hstep.
      destruct element; try (injection Hstep as <-; exact Hstate).
      destruct (extractValueAndLabel _ _ _) as [r|]; [|discriminate].
      cbn in Hstep. injection Hstep as <-. by apply addValueAndLabel_labels.
    + assert (Hnone : ∀ els, foldl (addObjectElement fuel) None els = None)
        by (induction els; simpl; auto).
      rewrite Hnone in Hfold. discriminate.
Qed.

Lemma foldl_addArrayElement_labels (fuel : nat) (elements : list Node) :
  ∀ state state',
    (∀ key label, state.2 !! key = Some label →
       ∃ value, value ∈ state.1 ∧ literalToString value = key) →
    foldl (addArrayElement fuel) (Some state) elements = Some state' →
    ∀ key label, state'.2 !! key = Some label →
      ∃ value, value ∈ state'.1 ∧ literalToString value = key.
Proof.
  induction elements as [|element elements IH]; intros state state' Hstate Hfold.
  - cbn in Hfold. injection Hfold as <-. exact Hstate.
  - cbn [foldl] in Hfold.
    destruct (addArrayElement fuel (Some state) element) as [next|] eqn:Hstep;
      [|rewrite addArrayElement_None in Hfold; discriminate].
    apply (IH next state'); [|exact Hfold].
    unfold addArrayElement in Hstep. cbn [mbind option_bind] in Hstep.
    destruct element; try (injection Hstep as <-; exact Hstate).
    + destruct (extractValueAndLabel _ _ _) as [r|]; [|discriminate].
      cbn in Hstep. injection Hstep as <-. by apply addValueAndLabel_labels.
    + destruct (extractFromSpreadElement _ _ _) as [[[spreadValues spreadLabels]|]|] eqn:Hspread;
        cbn in Hstep; [| |discriminate]; injection Hstep as <-; [|exact Hstate].
      assert (Hinner : ∀ key label, spreadLabels !! key = Some label →
                ∃ value, value ∈ spreadValues ∧ literalToString value = key).
      { unfold extractFromSpreadElement in Hspread.
        destruct element; try discriminate.
        destruct (_ ≫= getInitializerOf) as [[]|]; try discriminate.
        destruct (foldl (addObjectElement fuel) _ _) as [inner|] eqn:Hinner;
          [|discriminate].
        cbn in Hspread. destruct inner as [innerValues innerLabels].
        injection Hspread as <- <-.
        refine (foldl_addObjectElement_labels fuel _ ([], ∅) (innerValues, innerLabels)
                  _ Hinner).
        intros key label Hkey. cbn [snd] in Hkey. by apply lookup_empty_Some in Hkey. }
      intros key label Hkey. cbn [fst snd] in *.
      apply lookup_union_Some_raw in Hkey as [Hkey|[_ Hkey]].
      * destruct (Hinner key label Hkey) as (v & Hv & Hstr).
        exists v. split; [|exact Hstr]. apply elem_of_app. by right.
      * destruct (Hstate key label Hkey) as (v & Hv & Hstr).
        exists v. split; [|exact Hstr]. apply elem_of_app. by left.
Qed.

(** X6.  The labels of the options of a literal array are filed under the
    string forms of values the result holds: no label stands for a choice
    that is not there. *)
Theorem option_labels_belong_to_values (fuel : nat) (arr : Node) (elements : list Node)
    (options : SelectOptions) :
  extractOptionsFromObjectArray fuel arr elements = Some (Ok options) →
  ∀ key label, labels options !! key = Some label →
    ∃ value, value ∈ values options ∧ literalToString value = key.
Proof.
  unfold extractOptionsFromObjectArray. intros Hoptions.
  destruct (foldl (addArrayElement fuel) (Some ([], ∅)) elements) as [state|] eqn:Hfold;
    [|discriminate].
  cbn [mbind option_bind] in Hoptions.
  case_match; [discriminate|].
  unfold createSelectOptionsResult in Hoptions. injection Hoptions as <-. cbn [labels values].
  apply (foldl_addArrayElement_labels fuel elements ([], ∅) state); [|exact Hfold].
  intros key label Hkey. cbn [snd] in Hkey. by apply lookup_empty_Some in Hkey.
Qed.

Lemma findFirstDefault_ok (f : Node → option SelectDefaultResult) (elements : list Node)
    (result : SelectDefaultResult) :
  (∀ el r, f el = Some r → isOk r = true) →
  findFirstDefault f elements = Some result → isOk result = true.
Proof.
  intros Hf. induction elements as [|el elements IH]; [by intros [= <-]|].
  cbn [findFirstDefault]. destruct (f el) as [r|] eqn:Hr; [|discriminate].
  cbn [mbind option_bind].
  destruct r as [[v|]|error]; [intros [= <-]; reflexivity| exact IH | exact IH].
Qed.

Lemma findDefaultInArrayLiteral_ok (fuel : nat) :
  ∀ elements result,
    findDefaultInArrayLiteral fuel elements = Some result → isOk result = true.
Proof.
  induction fuel as [|fuel IH]; intros elements result; [discriminate|].
  cbn [findDefaultInArrayLiteral]. apply findFirstDefault_ok.
  intros el r. unfold findDefaultInElement.
  repeat case_match; try (intros [= <-]; reflexivity); try apply IH.
  destruct (evaluate _ _); [|discriminate]. intros [= <-]. reflexivity.
Qed.

(** X8.  The search for the default of an enumerated setting never answers an
    error, whatever the shape of [options]: what it cannot read it reports
    as no default. *)
Theorem select_default_is_never_an_error (fuel : nat)
    (properties : list ObjectLiteralElement) (result : SelectDefaultResult) :
  extractSelectDefault fuel properties = Some result → isOk result = true.
Proof.
  unfold extractSelectDefault.
  destruct (getPropertyAssignment properties OPTIONS_PROPERTY) as [[? [initializer|]]|];
    try (intros [= <-]; reflexivity).
  destruct (default initializer (getArrowFunctionBody initializer));
    try (intros [= <-]; reflexivity).
  - apply findDefaultInArrayLiteral_ok.
  - destruct (extractDefaultFromCallExpression _ _) as [r|]; [|discriminate].
    cbn. intros [= <-]. destruct (hasDefinedValue r) eqn:Hr; [|reflexivity].
    destruct r as [[]|]; [reflexivity|discriminate..].
Qed.

Lemma getProperty_name (properties : list ObjectLiteralElement) (name : string)
    (p : ObjectLiteralElement) :
  getProperty properties name = Some p → getName p = Some name.
Proof.
  unfold getProperty. intros Hfind. apply List.find_some in Hfind as [_ Hname].
  destruct (getName p) as [n|]; [|discriminate].
  apply String.eqb_eq in Hname. by subst.
Qed.

(** X9.  A type assertion or a pair of parentheses around the initializer of
    [options] is looked through when the choices are extracted, but not when
    the default is searched: the marker [default: true] of such options is
    never found. *)
Theorem wrapped_options_lose_the_marker (fuel : nat)
    (properties : list ObjectLiteralElement) (name : PropertyName) (initializer : Node) :
  getProperty properties OPTIONS_PROPERTY = Some (PropertyAssignment name (Some initializer)) →
  isWrappedNode initializer = true →
  extractSelectDefault fuel properties = Some (Ok None)
  ∧ extractSelectOptions fuel properties
    = extractSelectOptions fuel [PropertyAssignment name (Some (unwrapNode initializer))].
Proof.
  intros Hoptions Hwrapped. split.
  - unfold extractSelectDefault, getPropertyAssignment. rewrite Hoptions.
    destruct initializer; try discriminate; reflexivity.
  - pose proof (getProperty_name _ _ _ Hoptions) as Hname. cbn in Hname.
    injection Hname as Hname.
    unfold extractSelectOptions. rewrite Hoptions.
    unfold getProperty. cbn [List.find getName]. rewrite Hname.
    change (String.eqb OPTIONS_PROPERTY OPTIONS_PROPERTY) with true. cbv iota.
    rewrite unwrapNode_idempotent. reflexivity.
Qed.

Lemma findFirstDefault_found (fuel : nat)
    (recurse : list Node → option SelectDefaultResult) (elements : list Node)
    (value : EnumLiteral) :
  Forall (λ el, isSpreadElement el = false) elements →
  findFirstDefault (findDefaultInElement fuel recurse) elements = Some (Ok (Some value)) →
  ∃ obj valueInit,
    ObjectLiteralExpression obj ∈ elements
    ∧ getPropertyInitializer obj VALUE_PROPERTY = Some valueInit
    ∧ evaluate fuel valueInit = Some (Ok value).
Proof.
  induction 1 as [|el elements Hel _ IH]; [discriminate|].
  cbn [findFirstDefault].
  destruct (findDefaultInElement fuel recurse el) as [r|] eqn:Hr; [|discriminate].
  cbn [mbind option_bind].
  assert (Hrest : findFirstDefault (findDefaultInElement fuel recurse) elements
                    = Some (Ok (Some value)) →
                  ∃ obj valueInit,
                    ObjectLiteralExpression obj ∈ el :: elements
                    ∧ getPropertyInitializer obj VALUE_PROPERTY = Some valueInit
                    ∧ evaluate fuel valueInit = Some (Ok value)).
  { intros Hfound. destruct (IH Hfound) as (obj & valueInit & Hin & Hinit & Heval).
    exists obj, valueInit. split; [by apply list_elem_of_further|by split]. }
  destruct r as [[v|]|error]; [|exact Hrest..].
  intros [= ->]. unfold findDefaultInElement in Hr.
  destruct el; try discriminate.
  destruct (getPropertyAssignment _ DEFAULT_PROPERTY) as [[? [[]|]]|]; try discriminate.
  destruct (getPropertyInitializer _ VALUE_PROPERTY) as [valueInit|] eqn:Hinit;
    [|discriminate].
  destruct (evaluate fuel valueInit) as [[v|e]|] eqn:Heval; try discriminate.
  cbn in Hr. injection Hr as ->.
  eexists _, valueInit. split; [apply list_elem_of_here|by split].
Qed.

Lemma addArrayElement_keeps (fuel : nat) (element : Node)
    (state state' : list EnumLiteral * gmap string string) (value : EnumLiteral) :
  addArrayElement fuel (Some state) element = Some state' →
  value ∈ state.1 → value ∈ state'.1.
Proof.
  unfold addArrayElement, addValueAndLabel. cbn [mbind option_bind]. intros Hstep Hin.
  destruct element; simplify_eq/=; try exact Hin.
  - destruct (extractValueAndLabel _ _ _) as [[[v l]|]|]; simplify_eq/=;
      [apply elem_of_app; by left|exact Hin].
  - destruct (extractFromSpreadElement _ _ _) as [[[vs ls]|]|]; simplify_eq/=;
      [apply elem_of_app; by left|exact Hin].
Qed.

Lemma foldl_addArrayElement_keeps (fuel : nat) (elements : list Node) (value : EnumLiteral) :
  ∀ state state',
    foldl (addArrayElement fuel) (Some state) elements = Some state' →
    value ∈ state.1 → value ∈ state'.1.
Proof.
  induction elements as [|element elements IH]; intros state state' Hfold Hin.
  - cbn in Hfold. by injection Hfold as <-.
  - cbn [foldl] in Hfold.
    destruct (addArrayElement fuel (Some state) element) as [next|] eqn:Hstep;
      [|rewrite addArrayElement_None in Hfold; discriminate].
    eapply IH; [exact Hfold|]. eapply addArrayElement_keeps; eassumption.
Qed.

Lemma foldl_addArrayElement_holds (fuel : nat) (elements : list Node)
    (obj : list ObjectLiteralElement) (valueInit : Node) (value : EnumLiteral) :
  ObjectLiteralExpression obj ∈ elements →
  getPropertyInitializer obj VALUE_PROPERTY = Some valueInit →
  evaluate fuel valueInit = Some (Ok value) →
  ∀ state state',
    foldl (addArrayElement fuel) (Some state) elements = Some state' →
    value ∈ state'.1.
Proof.
  intros Hin Hinit Heval.
  induction elements as [|element elements IH]; intros state state' Hfold;
    [by apply elem_of_nil in Hin|].
  cbn [foldl] in Hfold.
  destruct (addArrayElement fuel (Some state) element) as [next|] eqn:Hstep;
    [|rewrite addArrayElement_None in Hfold; discriminate].
  apply elem_of_cons in Hin as [<-|Hin]; [|by eapply IH].
  eapply foldl_addArrayElement_keeps; [exact Hfold|].
  unfold addArrayElement, extractValueAndLabel in Hstep. cbn [mbind option_bind] in Hstep.
  unfold getPropertyInitializer in Hinit.
  destruct (getPropertyAssignment obj VALUE_PROPERTY) as [[? [init|]]|];
    simplify_eq/=.
  rewrite Heval in Hstep. cbn in Hstep.
  repeat case_match; simplify_eq/=; apply elem_of_app; right;
    apply list_elem_of_singleton; reflexivity.
Qed.

(** X10.  In an options array without spreads, the default that the marker
    [default: true] gives is one of the choices extracted from the same
    array. *)
Theorem marked_default_is_a_choice (fuel : nat) (arr : Node) (elements : list Node)
    (value : EnumLiteral) (result : SelectOptionsResult) :
  Forall (λ el, isSpreadElement el = false) elements →
  findDefaultInArrayLiteral fuel elements = Some (Ok (Some value)) →
  extractOptionsFromObjectArray fuel arr elements = Some result →
  ∃ options, result = Ok options ∧ value ∈ values options.
Proof.
  intros Hplain Hdefault Hoptions.
  destruct fuel as [|fuel']; [discriminate|].
  cbn [findDefaultInArrayLiteral] in Hdefault.
  destruct (findFirstDefault_found _ _ _ _ Hplain Hdefault)
    as (obj & valueInit & Hin & Hinit & Heval).
  unfold extractOptionsFromObjectArray in Hoptions.
  destruct (foldl _ _ _) as [state|] eqn:Hfold; [|discriminate].
  pose proof (foldl_addArrayElement_holds _ _ _ _ _ Hin Hinit Heval _ _ Hfold) as Hvalue.
  cbn [mbind option_bind] in Hoptions.
  rewrite bool_decide_eq_false_2 in Hoptions.
  - injection Hoptions as <-. eexists. split; [reflexivity|exact Hvalue].
  - intros Hlength. destruct state.1; [by apply elem_of_nil in Hvalue|discriminate].
Qed.

(** ** Target types *)

Local Ltac elem_of_listed :=
  solve [repeat first [apply list_elem_of_here | apply list_elem_of_further]].

Local Ltac each_listed H :=
  repeat (apply elem_of_cons in H as [->|H]); [..|by apply elem_of_nil in H].

(** X11.  [isBooleanEnumValues] accepts two lists only: [true, false] and
    [false, true]. *)
Theorem isBooleanEnumValues_pairs (choices : list EnumLiteral) :
  isBooleanEnumValues choices = true
  ↔ choices = [LBoolean true; LBoolean false] ∨ choices = [LBoolean false; LBoolean true].
Proof.
  split.
  - unfold isBooleanEnumValues. intros Hpair.
    destruct choices as [|v1 [|v2 [|]]]; try discriminate.
    cbn [length Nat.eqb negb BOOLEAN_ENUM_LENGTH] in Hpair.
    destruct (negb (setSize [v1; v2] =? BOOLEAN_ENUM_LENGTH)%nat) eqn:Hsize;
      [discriminate|].
    cbn [forallb isBooleanLiteral] in Hpair.
    destruct v1 as [s1|n1|b1]; try discriminate.
    destruct v2 as [s2|n2|b2]; try discriminate.
    destruct b1, b2; cbn in Hsize; try discriminate; auto.
  - intros [-> | ->]; reflexivity.
Qed.

Lemma inferNixTypeFromRuntimeDefault_range (defaultValue : Value) :
  inferNixTypeFromRuntimeDefault defaultValue
    ∈ [NIX_TYPE_BOOL; NIX_TYPE_STR; NIX_TYPE_INT; NIX_TYPE_FLOAT; NIX_TYPE_ATTRS].
Proof. destruct defaultValue; simpl; try case_match; elem_of_listed. Qed.

Lemma nixTypeForComponentOrCustom_range (defaultValue : Value) :
  nixTypeForComponentOrCustom defaultValue
    ∈ [NIX_TYPE_BOOL; NIX_TYPE_STR; NIX_TYPE_INT; NIX_TYPE_FLOAT; NIX_TYPE_ATTRS].
Proof. destruct defaultValue; simpl; try case_match; elem_of_listed. Qed.

Lemma inferTypeFromTypeScriptType_range (typeNode : Node) (defaultValue : Value)
    (t : NixType) :
  inferTypeFromTypeScriptType typeNode defaultValue = Some t →
  t ∈ [NIX_TYPE_BOOL; NIX_TYPE_STR; NIX_TYPE_INT; NIX_TYPE_FLOAT; NIX_TYPE_ATTRS].
Proof.
  unfold inferTypeFromTypeScriptType. intros Ht.
  repeat case_match; simplify_eq; elem_of_listed.
Qed.

(** An array of primitives comes back as it is. *)
Lemma buildEnumValuesFromOptions_literals (choices : list EnumLiteral) :
  buildEnumValuesFromOptions (VArray (ofLiteral <$> choices)) = choices.
Proof.
  assert (Hvalid : omap asEnumLiteral (ofLiteral <$> choices) = choices).
  { induction choices as [|[] choices IH]; cbn in *; congruence. }
  unfold buildEnumValuesFromOptions. rewrite Hvalid.
  destruct choices; reflexivity.
Qed.

(** Every choice is taken from the options: it is an element of the array,
    or the [value] of an object of the array. *)
Lemma buildEnumValuesFromOptions_source (options : Value) (value : EnumLiteral) :
  value ∈ buildEnumValuesFromOptions options →
  ∃ items,
    options = VArray items
    ∧ (ofLiteral value ∈ items
       ∨ ∃ fields, VObject fields ∈ items ∧ assoc "value" fields = Some (ofLiteral value)).
Proof.
  unfold buildEnumValuesFromOptions.
  destruct options as [| | | | | items |];
    try (cbn; intros Hin; by apply elem_of_nil in Hin).
  intros Hin. exists items. split; [reflexivity|].
  case_bool_decide.
  - left. apply list_elem_of_omap in Hin as (item & Hitem & Hliteral).
    destruct item; simplify_eq/=; exact Hitem.
  - right. destruct (mapM parseOption items) as [data|] eqn:Hdata;
      [|by apply elem_of_nil in Hin].
    apply list_elem_of_omap in Hin as (parsed & Hparsed & Hid). cbn in Hid. subst parsed.
    apply mapM_Some_1 in Hdata.
    apply list_elem_of_lookup in Hparsed as [i Hi].
    destruct (Forall2_lookup_r _ _ _ _ _ Hdata Hi) as (item & Hitem & Hoption).
    unfold parseOption in Hoption.
    destruct item as [| | | | | |fields]; try discriminate.
    exists fields. split; [eapply list_elem_of_lookup_2, Hitem|].
    destruct (assoc "value" fields) as [field|]; [|discriminate].
    destruct field; simplify_eq/=; try reflexivity.
    case_match; simplify_eq/=. reflexivity.
Qed.

Lemma tsTypeToNixType_cases (setting : RawSetting) (typed : NixTypeResult) :
  tsTypeToNixType setting = Some typed →
  nixType typed ∈ [NIX_TYPE_BOOL; NIX_TYPE_STR; NIX_TYPE_INT; NIX_TYPE_FLOAT;
                   NIX_TYPE_ATTRS; NIX_ENUM_TYPE]
  ∧ (nixType typed = NIX_ENUM_TYPE →
     ∃ first rest,
       enumValues typed = Some (first :: rest)
       ∧ buildEnumValuesFromOptions (rawOptions setting) = first :: rest
       ∧ isBooleanEnumValues (first :: rest) = false).
Proof.
  pose proof (inferNixTypeFromRuntimeDefault_range (rawDefault setting)) as Hinfer.
  pose proof (nixTypeForComponentOrCustom_range (rawDefault setting)) as Hcomponent.
  assert (Hwiden : ∀ t, t ∈ [NIX_TYPE_BOOL; NIX_TYPE_STR; NIX_TYPE_INT; NIX_TYPE_FLOAT;
                              NIX_TYPE_ATTRS] →
                   t ∈ [NIX_TYPE_BOOL; NIX_TYPE_STR; NIX_TYPE_INT; NIX_TYPE_FLOAT;
                        NIX_TYPE_ATTRS; NIX_ENUM_TYPE]
                   ∧ t ≠ NIX_ENUM_TYPE).
  { intros t Ht. each_listed Ht; (split; [elem_of_listed|discriminate]). }
  assert (Hchoices : ∀ choices,
            buildEnumValuesFromOptions (rawOptions setting) = choices →
            choices ≠ [] → isBooleanEnumValues choices = false →
            ∃ first rest, Some choices = Some (first :: rest)
                          ∧ buildEnumValuesFromOptions (rawOptions setting) = first :: rest
                          ∧ isBooleanEnumValues (first :: rest) = false).
  { intros choices Hbuild Hne Hbool. destruct choices as [|first rest]; [contradiction|].
    exists first, rest. split; [reflexivity|]. split; [exact Hbuild|exact Hbool]. }
  assert (Hplain : ∀ t, t ∈ [NIX_TYPE_BOOL; NIX_TYPE_STR; NIX_TYPE_INT; NIX_TYPE_FLOAT;
                              NIX_TYPE_ATTRS] → ∀ choices,
            nixType {| nixType := t; enumValues := choices |}
              ∈ [NIX_TYPE_BOOL; NIX_TYPE_STR; NIX_TYPE_INT; NIX_TYPE_FLOAT;
                 NIX_TYPE_ATTRS; NIX_ENUM_TYPE]
            ∧ (nixType {| nixType := t; enumValues := choices |} = NIX_ENUM_TYPE →
               ∃ first rest,
                 enumValues {| nixType := t; enumValues := choices |} = Some (first :: rest)
                 ∧ buildEnumValuesFromOptions (rawOptions setting) = first :: rest
                 ∧ isBooleanEnumValues (first :: rest) = false)).
  { intros t Ht choices. destruct (Hwiden t Ht) as [Hin Hne]. split; [exact Hin|].
    cbn. intros Habs. contradiction. }
  assert (Henum : ∀ choices,
            buildEnumValuesFromOptions (rawOptions setting) = choices →
            choices ≠ [] → isBooleanEnumValues choices = false →
            nixType {| nixType := NIX_ENUM_TYPE; enumValues := Some choices |}
              ∈ [NIX_TYPE_BOOL; NIX_TYPE_STR; NIX_TYPE_INT; NIX_TYPE_FLOAT;
                 NIX_TYPE_ATTRS; NIX_ENUM_TYPE]
            ∧ (nixType {| nixType := NIX_ENUM_TYPE; enumValues := Some choices |}
                 = NIX_ENUM_TYPE →
               ∃ first rest,
                 enumValues {| nixType := NIX_ENUM_TYPE; enumValues := Some choices |}
                   = Some (first :: rest)
                 ∧ buildEnumValuesFromOptions (rawOptions setting) = first :: rest
                 ∧ isBooleanEnumValues (first :: rest) = false)).
  { intros choices Hbuild Hne Hbool. split; [elem_of_listed|]. intros _.
    apply Hchoices; assumption. }
  unfold tsTypeToNixType. intros Htyped.
  destruct (rawType setting) as [| n | | type].
  1-3: injection Htyped as <-; unfold nixTypeWithoutTypeNode;
       repeat case_match;
       first [ apply Hplain; first [exact Hinfer | exact Hcomponent | elem_of_listed]
             | apply Henum; [reflexivity | by case_bool_decide | assumption] ].
  destruct (resolveOptionTypeNameFromNode type) as [[typeName|]|];
    simpl in Htyped; [| |discriminate].
  - injection Htyped as <-. unfold nixTypeForTypeName.
    repeat case_match;
      first [ apply Hplain; first [exact Hinfer | exact Hcomponent | elem_of_listed]
            | apply Henum; [reflexivity | | assumption] ].
    intros Hnil.
    match goal with Hlen : (length _ =? 0)%nat = false |- _ => rewrite Hnil in Hlen end.
    discriminate.
  - destruct (inferTypeFromTypeScriptType _ _) as [t|] eqn:Ht;
      injection Htyped as <-; apply Hplain; [|exact Hinfer].
    eapply inferTypeFromTypeScriptType_range, Ht.
Qed.

(** X12.  [tsTypeToNixType] answers with one of six types, never a nullable
    or a list type; and when it answers the enum type, its choices are not
    empty, are not a pair of booleans, and are taken from the options: they
    are the options themselves when these are an array of primitives, and
    otherwise each of them is a primitive element of the array of options or
    the [value] of an object of that array. *)
Theorem tsTypeToNixType_range (setting : RawSetting) (typed : NixTypeResult) :
  tsTypeToNixType setting = Some typed →
  nixType typed ∈ [NIX_TYPE_BOOL; NIX_TYPE_STR; NIX_TYPE_INT; NIX_TYPE_FLOAT;
                   NIX_TYPE_ATTRS; NIX_ENUM_TYPE]
  ∧ (nixType typed = NIX_ENUM_TYPE →
     ∃ first rest items,
       enumValues typed = Some (first :: rest)
       ∧ isBooleanEnumValues (first :: rest) = false
       ∧ rawOptions setting = VArray items
       ∧ (∀ choices, items = ofLiteral <$> choices → first :: rest = choices)
       ∧ ∀ value, value ∈ first :: rest →
           ofLiteral value ∈ items
           ∨ ∃ fields, VObject fields ∈ items
                       ∧ assoc "value" fields = Some (ofLiteral value)).
Proof.
  intros Htyped. destruct (tsTypeToNixType_cases _ _ Htyped) as [Hrange Henum].
  split; [exact Hrange|]. intros Htype.
  destruct (Henum Htype) as (first & rest & Hvalues & Hbuilt & Hbool).
  assert (Hfirst : first ∈ buildEnumValuesFromOptions (rawOptions setting)).
  { rewrite Hbuilt. apply list_elem_of_here. }
  destruct (buildEnumValuesFromOptions_source _ _ Hfirst) as (items & Hitems & _).
  exists first, rest, items.
  split; [exact Hvalues|]. split; [exact Hbool|]. split; [exact Hitems|]. split.
  - intros choices ->. rewrite <- Hbuilt, Hitems.
    apply buildEnumValuesFromOptions_literals.
  - intros value Hvalue. rewrite <- Hbuilt in Hvalue.
    destruct (buildEnumValuesFromOptions_source _ _ Hvalue) as (items' & Hitems' & Hsource).
    rewrite Hitems in Hitems'. injection Hitems' as <-. exact Hsource.
Qed.

(** ** The resolution of defaults *)

(** X13.  A literal default that is neither [undefined] nor [null] goes through
    [resolveDefaultValue] as it is, and so does the type: none of the rules
    fires. *)
Theorem literal_default_is_kept (fuel : nat) (valueObj : list ObjectLiteralElement)
    (finalNixType : NixType) (defaultLiteralValue : Value)
    (choices : option (list EnumLiteral)) :
  defaultLiteralValue ≠ VUndefined →
  defaultLiteralValue ≠ VNull →
  resolveDefaultValue fuel valueObj finalNixType defaultLiteralValue choices
    = Some {| resolvedNixType := finalNixType; resolvedDefault := defaultLiteralValue |}.
Proof.
  intros Hundefined Hnull. unfold resolveDefaultValue.
  destruct defaultLiteralValue; try contradiction; destruct finalNixType; reflexivity.
Qed.

Lemma resolveDefaultValue_type_cases (fuel : nat) (valueObj : list ObjectLiteralElement)
    (finalNixType : NixType) (defaultLiteralValue : Value)
    (choices : option (list EnumLiteral)) (resolved : ResolvedDefaultValue) :
  resolveDefaultValue fuel valueObj finalNixType defaultLiteralValue choices
    = Some resolved →
  resolvedNixType resolved = finalNixType
  ∨ (resolvedNixType resolved = NIX_TYPE_LIST_OF_STR
     ∧ resolvedDefault resolved = VArray []
     ∧ defaultLiteralValue = VUndefined)
  ∨ (finalNixType = NIX_TYPE_STR
     ∧ defaultLiteralValue = VUndefined
     ∧ (resolvedNixType resolved = NIX_TYPE_ATTRS
        ∨ resolvedNixType resolved = NIX_TYPE_NULL_OR_STR))
  ∨ (finalNixType = NIX_TYPE_NULL_OR_STR
     ∧ (defaultLiteralValue = VUndefined ∨ defaultLiteralValue = VNull)
     ∧ resolvedNixType resolved = NIX_TYPE_ATTRS).
Proof.
  unfold resolveDefaultValue. intros Hresolved.
  destruct (isUndefined defaultLiteralValue && _) eqn:Hguard.
  { injection Hresolved as <-. right; left.
    apply andb_true_iff in Hguard as [Hguard _].
    destruct defaultLiteralValue; try discriminate. auto. }
  clear Hguard.
  destruct (resolveAttrsDefault fuel valueObj) as [[]|],
    (extractSelectDefault fuel valueObj) as [selected|];
    destruct defaultLiteralValue eqn:Hdefault, finalNixType;
    cbn -[promotesToAttrs attrsPromotionDefault isBareComponentSetting selectDefaultValue]
      in Hresolved;
    repeat (first [ progress simplify_option_eq
                  | case_match ]);
    cbn; auto 10.
Qed.

(** X14.  The cases in which [resolveDefaultValue] answers another type than the
    one it was given: the list of strings, with an empty list, when there is
    no literal default; an attribute set or a nullable string in place of a
    string without default; an attribute set in place of a nullable string
    whose default is [null] or missing. *)
Theorem resolved_type_changes (fuel : nat) (valueObj : list ObjectLiteralElement)
    (finalNixType : NixType) (defaultLiteralValue : Value)
    (choices : option (list EnumLiteral)) (resolved : ResolvedDefaultValue) :
  resolveDefaultValue fuel valueObj finalNixType defaultLiteralValue choices
    = Some resolved →
  resolvedNixType resolved = finalNixType
  ∨ (resolvedNixType resolved = NIX_TYPE_LIST_OF_STR
     ∧ resolvedDefault resolved = VArray []
     ∧ defaultLiteralValue = VUndefined)
  ∨ (finalNixType = NIX_TYPE_STR
     ∧ defaultLiteralValue = VUndefined
     ∧ (resolvedNixType resolved = NIX_TYPE_ATTRS
        ∨ resolvedNixType resolved = NIX_TYPE_NULL_OR_STR))
  ∨ (finalNixType = NIX_TYPE_NULL_OR_STR
     ∧ (defaultLiteralValue = VUndefined ∨ defaultLiteralValue = VNull)
     ∧ resolvedNixType resolved = NIX_TYPE_ATTRS).
Proof. apply resolveDefaultValue_type_cases. Qed.

Lemma resolveDefaultValue_defined (fuel : nat) (valueObj : list ObjectLiteralElement)
    (finalNixType : NixType) (defaultLiteralValue : Value)
    (choices : option (list EnumLiteral)) (resolved : ResolvedDefaultValue) :
  resolveDefaultValue fuel valueObj finalNixType defaultLiteralValue choices
    = Some resolved →
  resolvedNixType resolved ∈ [NIX_TYPE_BOOL; NIX_TYPE_STR; NIX_TYPE_NULL_OR_STR]
  ∨ (resolvedNixType resolved = NIX_ENUM_TYPE ∧ ∃ first rest, choices = Some (first :: rest)) →
  resolvedDefault resolved ≠ VUndefined.
Proof.
  unfold resolveDefaultValue. intros Hresolved Htype.
  destruct (isUndefined defaultLiteralValue && _).
  { injection Hresolved as <-. discriminate. }
  assert (Hliteral : ∀ v : EnumLiteral, ofLiteral v ≠ VUndefined) by (by intros []).
  assert (Hcases : resolvedNixType resolved = NIX_TYPE_BOOL
                   ∨ resolvedNixType resolved = NIX_TYPE_STR
                   ∨ resolvedNixType resolved = NIX_TYPE_NULL_OR_STR
                   ∨ (resolvedNixType resolved = NIX_ENUM_TYPE
                      ∧ ∃ first rest, choices = Some (first :: rest))).
  { destruct Htype as [Htype|Htype]; [|auto].
    repeat (apply elem_of_cons in Htype as [Htype|Htype]; [auto|]).
    by apply elem_of_nil in Htype. }
  clear Htype.
  destruct (resolveAttrsDefault fuel valueObj) as [[]|],
    (extractSelectDefault fuel valueObj) as [selected|];
    destruct defaultLiteralValue, finalNixType;
    cbn -[promotesToAttrs attrsPromotionDefault isBareComponentSetting selectDefaultValue]
      in Hresolved;
    repeat (first [ progress simplify_option_eq | case_match ]);
    try discriminate; try apply Hliteral;
    cbn in Hcases; destruct Hcases as [?|[?|[?|[? (first & rest & ?)]]]]; discriminate.
Qed.

(** X15.  A setting that comes out of [resolveDefaultValue] as a boolean, a
    string or a nullable string has a default; so has an enumerated setting
    with at least one choice. *)
Theorem resolved_default_is_defined (fuel : nat) (valueObj : list ObjectLiteralElement)
    (finalNixType : NixType) (defaultLiteralValue : Value)
    (choices : option (list EnumLiteral)) (resolved : ResolvedDefaultValue) :
  resolveDefaultValue fuel valueObj finalNixType defaultLiteralValue choices
    = Some resolved →
  resolvedNixType resolved ∈ [NIX_TYPE_BOOL; NIX_TYPE_STR; NIX_TYPE_NULL_OR_STR]
  ∨ (resolvedNixType resolved = NIX_ENUM_TYPE ∧ ∃ first rest, choices = Some (first :: rest)) →
  resolvedDefault resolved ≠ VUndefined.
Proof. apply resolveDefaultValue_defined. Qed.

(** X16.  An attribute-set setting with no [default] member at all gets the empty
    attribute set as its default. *)
Theorem attrs_without_default_member (fuel : nat) (valueObj : list ObjectLiteralElement)
    (choices : option (list EnumLiteral)) :
  getProperty valueObj DEFAULT_PROPERTY = None →
  resolveDefaultValue fuel valueObj NIX_TYPE_ATTRS VUndefined choices
    = Some {| resolvedNixType := NIX_TYPE_ATTRS; resolvedDefault := VObject [] |}.
Proof.
  intros Hnone.
  assert (Hinit : getDefaultPropertyInitializer valueObj = None).
  { unfold getDefaultPropertyInitializer, getPropertyInitializer, getPropertyAssignment.
    rewrite Hnone. reflexivity. }
  unfold resolveDefaultValue, resolveIdentifierArrayDefault, hasStringArrayDefault.
  rewrite Hinit. cbn -[resolveAttrsDefault isBareComponentSetting].
  unfold resolveAttrsDefault. rewrite Hnone. reflexivity.
Qed.

(** ** The settings of a plugin *)

Lemma extractSetting_name (fuel : nat) (skipHiddenCheck : bool) (key : string)
    (valueObj : list ObjectLiteralElement) (setting : PluginSetting) :
  extractSetting fuel skipHiddenCheck key valueObj = Some (Some setting) →
  settingName setting = key.
Proof.
  unfold extractSetting. intros Hsetting.
  destruct (extractProperties fuel valueObj) as [props|]; [|discriminate].
  cbn [mbind option_bind] in Hsetting.
  destruct (negb skipHiddenCheck && hidden props); [discriminate|].
  destruct (extractSelectOptions fuel valueObj); [|discriminate].
  cbn [mbind option_bind] in Hsetting.
  destruct (tsTypeToNixType _); [|discriminate].
  cbn [mbind option_bind] in Hsetting.
  destruct (resolveDefaultValue _ _ _ _ _); [|discriminate].
  cbn [mbind option_bind] in Hsetting. injection Hsetting as <-. reflexivity.
Qed.

(** A setting is left out only when it is hidden and hidden settings are
    not retained. *)
Lemma extractSetting_kept (fuel : nat) (skipHiddenCheck : bool) (key : string)
    (valueObj : list ObjectLiteralElement) (result : option PluginSetting) :
  skipHiddenCheck = true ∨ hasHiddenMarker valueObj = false →
  extractSetting fuel skipHiddenCheck key valueObj = Some result →
  is_Some result.
Proof.
  unfold extractSetting, extractProperties. intros Hkept Hresult.
  destruct (match getPropertyInitializer valueObj "default" with
            | Some init => extractLiteralValue fuel init
            | None => Some VUndefined
            end) as [defaultValue|]; [|discriminate].
  cbn in Hresult.
  assert (Hvisible : negb skipHiddenCheck && hasHiddenMarker valueObj = false).
  { destruct Hkept as [-> | ->]; [reflexivity|apply andb_false_r]. }
  rewrite Hvisible in Hresult.
  destruct (extractSelectOptions fuel valueObj); [|discriminate].
  cbn in Hresult.
  destruct (tsTypeToNixType _); [|discriminate].
  cbn in Hresult.
  destruct (resolveDefaultValue _ _ _ _ _); [|discriminate].
  cbn in Hresult. injection Hresult as <-. eauto.
Qed.

Lemma addProperty_entry (fuel : nat) (skipHiddenCheck : bool)
    (recurse : list (PropertyName * option Node) → option (gmap string SettingsEntry))
    (acc acc' : gmap string SettingsEntry) (p : PropertyName * option Node) :
  keepsProperty skipHiddenCheck p = true →
  addProperty fuel skipHiddenCheck recurse (Some acc) p = Some acc' →
  ∃ entry, acc' !! getNameText p.1 = Some entry ∧ entryName entry = getNameText p.1.
Proof.
  unfold keepsProperty, addProperty. cbn [mbind option_bind].
  destruct p.2 as [[]|]; try discriminate.
  intros [_ Hvisible]%andb_true_iff Hstep.
  destruct (isSettingsGroup _).
  - destruct (recurse _); simplify_eq/=.
    eexists. rewrite lookup_insert_eq. split; reflexivity.
  - destruct (extractSetting _ _ _ _) as [result|] eqn:Hresult; [|discriminate].
    destruct (extractSetting_kept _ _ _ _ _
                ltac:(apply orb_true_iff in Hvisible as [?|?%negb_true_iff]; eauto)
                Hresult) as [setting ->].
    cbn in Hstep. injection Hstep as <-.
    eexists. rewrite lookup_insert_eq. split; [reflexivity|].
    eapply extractSetting_name, Hresult.
Qed.

Lemma addProperty_preserves (fuel : nat) (skipHiddenCheck : bool)
    (recurse : list (PropertyName * option Node) → option (gmap string SettingsEntry))
    (acc acc' : gmap string SettingsEntry) (p : PropertyName * option Node) (key : string) :
  keepsProperty skipHiddenCheck p = true →
  addProperty fuel skipHiddenCheck recurse (Some acc) p = Some acc' →
  (∃ entry, acc !! key = Some entry ∧ entryName entry = key) →
  ∃ entry, acc' !! key = Some entry ∧ entryName entry = key.
Proof.
  intros Hkept Hstep Hentry.
  destruct (decide (key = getNameText p.1)) as [->|Hne].
  - eapply addProperty_entry; eassumption.
  - rewrite (addProperty_lookup_ne _ _ _ _ _ _ _ Hstep Hne). exact Hentry.
Qed.

Lemma foldl_addProperty_entries (fuel : nat) (skipHiddenCheck : bool)
    (recurse : list (PropertyName * option Node) → option (gmap string SettingsEntry))
    (properties : list (PropertyName * option Node)) (key : string) :
  Forall (λ p, keepsProperty skipHiddenCheck p = true) properties →
  ∀ acc settings,
    foldl (addProperty fuel skipHiddenCheck recurse) (Some acc) properties = Some settings →
    key ∈ propertyNames properties ∨ (∃ entry, acc !! key = Some entry ∧ entryName entry = key) →
    ∃ entry, settings !! key = Some entry ∧ entryName entry = key.
Proof.
  induction 1 as [|p properties Hp _ IH]; intros acc settings Hfold Hkey.
  - cbn in Hfold. injection Hfold as <-.
    destruct Hkey as [Hin|Hentry]; [by apply elem_of_nil in Hin|exact Hentry].
  - cbn [foldl] in Hfold.
    destruct (addProperty fuel skipHiddenCheck recurse (Some acc) p) as [acc'|] eqn:Hstep;
      [|rewrite addProperty_None in Hfold; discriminate].
    apply (IH acc' settings Hfold).
    destruct Hkey as [Hin|Hentry].
    + unfold propertyNames in Hin. rewrite fmap_cons in Hin.
      apply elem_of_cons in Hin as [->|Hin]; [right|by left].
      eapply addProperty_entry; eassumption.
    + right. eapply addProperty_preserves; eassumption.
Qed.

(** X17.  The result of the extraction has an entry under a key exactly when the
    settings object has a property of that name, not the empty one, whose
    value is an object literal and which is not hidden, unless hidden
    settings are retained; and every entry carries the key as its name.  The
    result is read as a map from keys to entries, which a JavaScript object
    is for every key but [__proto__]. *)
Theorem settings_keys_are_the_kept_properties (fuel : nat)
    (properties : list (PropertyName * option Node)) (skipHiddenCheck : bool)
    (settings : gmap string SettingsEntry) (key : string) :
  key ≠ "__proto__" →
  extractSettingsFromPropertyIterable fuel properties skipHiddenCheck = Some settings →
  (is_Some (settings !! key)
   ↔ ∃ name valueObj,
       (name, Some (ObjectLiteralExpression valueObj)) ∈ properties
       ∧ getNameText name = key
       ∧ key ≠ ""
       ∧ (skipHiddenCheck = true ∨ hasHiddenMarker valueObj = false))
  ∧ (∀ entry, settings !! key = Some entry → entryName entry = key).
Proof.
  intros _ Hsettings.
  destruct fuel as [|fuel']; [discriminate|].
  cbn [extractSettingsFromPropertyIterable] in Hsettings.
  set (kept := List.filter (keepsProperty skipHiddenCheck) properties) in *.
  assert (Hkept : Forall (λ p, keepsProperty skipHiddenCheck p = true) kept).
  { apply Forall_forall. intros p Hp. apply list_elem_of_In in Hp.
    by apply List.filter_In in Hp as [_ Hp]. }
  assert (Hnames : key ∈ propertyNames kept
                   ↔ ∃ name valueObj,
                       (name, Some (ObjectLiteralExpression valueObj)) ∈ properties
                       ∧ getNameText name = key
                       ∧ key ≠ ""
                       ∧ (skipHiddenCheck = true ∨ hasHiddenMarker valueObj = false)).
  { unfold propertyNames. rewrite list_elem_of_fmap. split.
    - intros ([name init] & -> & Hp). apply list_elem_of_In in Hp.
      apply List.filter_In in Hp as [Hp Hkeeps]. apply list_elem_of_In in Hp.
      unfold keepsProperty in Hkeeps. cbn [fst snd] in *.
      destruct init as [[]|]; try discriminate.
      apply andb_true_iff in Hkeeps as [Hname Hvisible].
      eexists name, _. split; [exact Hp|]. split; [reflexivity|]. split.
      + intros Hempty. rewrite Hempty in Hname. discriminate.
      + apply orb_true_iff in Hvisible as [?|?%negb_true_iff]; auto.
    - intros (name & valueObj & Hp & <- & Hname & Hvisible).
      exists (name, Some (ObjectLiteralExpression valueObj)). split; [reflexivity|].
      apply list_elem_of_In, List.filter_In. split; [by apply list_elem_of_In|].
      unfold keepsProperty. cbn [fst snd]. apply andb_true_iff. split.
      + apply negb_true_iff, String.eqb_neq. exact Hname.
      + apply orb_true_iff. destruct Hvisible as [-> | ->]; auto. }
  assert (Hentry : key ∈ propertyNames kept →
                   ∃ entry, settings !! key = Some entry ∧ entryName entry = key).
  { intros Hin. eapply foldl_addProperty_entries; [exact Hkept|exact Hsettings|by left]. }
  assert (Hin : is_Some (settings !! key) → key ∈ propertyNames kept).
  { intros Hsome. destruct (decide (key ∈ propertyNames kept)) as [|Hnot]; [assumption|].
    rewrite (foldl_addProperty_lookup _ _ _ _ key Hnot _ _ Hsettings), lookup_empty in Hsome.
    by destruct Hsome. }
  split.
  - rewrite <- Hnames. split; [exact Hin|].
    intros Hkey. destruct (Hentry Hkey) as (entry & -> & _). eauto.
  - intros entry Hlookup.
    destruct (Hentry (Hin (mk_is_Some _ _ Hlookup))) as (entry' & Hlookup' & Hname).
    congruence.
Qed.

(** X18.  A setting emitted with the enum type has at least one choice and a
    default. *)
Theorem emitted_enum_has_choices_and_default (fuel : nat) (skipHiddenCheck : bool)
    (key : string) (valueObj : list ObjectLiteralElement) (setting : PluginSetting) :
  extractSetting fuel skipHiddenCheck key valueObj = Some (Some setting) →
  settingType setting = NIX_ENUM_TYPE →
  (∃ first rest, settingEnumValues setting = Some (first :: rest))
  ∧ settingDefault setting ≠ VUndefined.
Proof.
  unfold extractSetting. intros Hsetting Htype.
  destruct (extractProperties fuel valueObj) as [props|]; [|discriminate].
  cbn [mbind option_bind] in Hsetting.
  destruct (negb skipHiddenCheck && hidden props); [discriminate|].
  destruct (extractSelectOptions fuel valueObj); [|discriminate].
  cbn [mbind option_bind] in Hsetting.
  destruct (tsTypeToNixType _) as [typed|] eqn:Htyped; [|discriminate].
  cbn [mbind option_bind] in Hsetting.
  destruct (resolveDefaultValue _ _ _ _ _) as [resolved|] eqn:Hresolved; [|discriminate].
  cbn [mbind option_bind] in Hsetting. injection Hsetting as <-.
  cbn [buildPluginSetting settingType settingEnumValues settingDefault] in *.
  assert (Hbase : nixType typed = NIX_ENUM_TYPE).
  { destruct (resolveDefaultValue_type_cases _ _ _ _ _ _ Hresolved)
      as [Hsame|[(Hlist & _)|[(_ & _ & [Hattrs|Hnull])|(_ & _ & Hattrs)]]]; congruence. }
  destruct (tsTypeToNixType_cases _ _ Htyped) as [_ Hchoices].
  destruct (Hchoices Hbase) as (first & rest & Hvalues & _).
  rewrite Hvalues in *. split; [eauto|].
  eapply resolveDefaultValue_defined; [exact Hresolved|]. right. eauto.
Qed.

(** ** The classifier *)

(** X19.  The classifier answers the enum type exactly when it hands back
    choices, and then there is at least one. *)
Theorem classifier_enum_iff_choices (fuel : nat) (valueObj : list ObjectLiteralElement)
    (props : SettingProperties) (rawSetting : RawSetting) (result : TypeInferenceResult) :
  inferNixTypeAndEnumValues fuel valueObj props rawSetting = Some result →
  finalNixType result = NIX_ENUM_TYPE
  ↔ ∃ first rest, selectEnumValues result = Some (first :: rest).
Proof.
  unfold inferNixTypeAndEnumValues. intros Hresult.
  destruct (tsTypeToNixType rawSetting) as [base|] eqn:Hbase; [|discriminate].
  cbn [mbind option_bind] in Hresult.
  destruct (extractSelectOptions fuel valueObj) as [astEnumResult|]; [|discriminate].
  cbn [mbind option_bind] in Hresult.
  destruct (tsTypeToNixType_cases _ _ Hbase) as [Hrange Hchoices].
  set (astEnumLiterals := match astEnumResult with Ok o => values o | Err _ => [] end) in *.
  destruct (enumValues base) as [[|first rest]|] eqn:Hvalues.
  - assert (Hne : nixType base ≠ NIX_ENUM_TYPE).
    { intros Habs. destruct (Hchoices Habs) as (? & ? & ? & _). discriminate. }
    destruct astEnumLiterals as [|first rest]; cbn in Hresult.
    + injection Hresult as <-. cbn. split; [|intros (? & ? & ?); discriminate].
      intros Habs. exfalso. revert Habs. unfold classifySetting, classifyComponentOrCustom.
      repeat case_match; cbn; try discriminate; try exact Hne.
      all: repeat case_bool_decide; try discriminate; try congruence.
    + case_match; injection Hresult as <-; cbn;
        (split; [try discriminate; eauto|intros (? & ? & ?); try discriminate; reflexivity]).
  - cbn in Hresult.
    case_match; injection Hresult as <-; cbn;
      (split; [try discriminate; eauto|intros (? & ? & ?); try discriminate; reflexivity]).
  - assert (Hne : nixType base ≠ NIX_ENUM_TYPE).
    { intros Habs. destruct (Hchoices Habs) as (? & ? & ? & _). discriminate. }
    destruct astEnumLiterals as [|first rest]; cbn in Hresult.
    + injection Hresult as <-. cbn. split; [|intros (? & ? & ?); discriminate].
      intros Habs. exfalso. revert Habs. unfold classifySetting, classifyComponentOrCustom.
      repeat case_match; cbn; try discriminate; try exact Hne.
      all: repeat case_bool_decide; try discriminate; try congruence.
    + case_match; injection Hresult as <-; cbn;
        (split; [try discriminate; eauto|intros (? & ? & ?); try discriminate; reflexivity]).
Qed.

(** X20.  When the type found from the annotation is not a list type, a setting
    that the classification rules turn into a list gets the empty list as its
    default. *)
Theorem classified_list_has_empty_default (valueObj : list ObjectLiteralElement)
    (props : SettingProperties) (baseType : NixType) :
  baseType ≠ NIX_TYPE_LIST_OF_STR →
  baseType ≠ NIX_TYPE_LIST_OF_ATTRS →
  classifiedType (classifySetting valueObj props baseType) = NIX_TYPE_LIST_OF_STR
  ∨ classifiedType (classifySetting valueObj props baseType) = NIX_TYPE_LIST_OF_ATTRS →
  classifiedDefault (classifySetting valueObj props baseType) = VArray [].
Proof.
  intros Hstr Hattrs. unfold classifySetting, classifyComponentOrCustom.
  repeat case_match; cbn; try reflexivity;
    intros [Habs|Habs]; try discriminate; congruence.
Qed.

(** ** The escaping of Nix strings *)

Lemma string_append_cons (c : ascii) (s t : string) : String c s +:+ t = String c (s +:+ t).
Proof. reflexivity. Qed.

Lemma string_append_nil_r (s : string) : s +:+ "" = s.
Proof. induction s as [|c s IH]; [reflexivity|]. rewrite string_append_cons, IH. reflexivity. Qed.

Lemma string_append_assoc (s t u : string) : (s +:+ t) +:+ u = s +:+ t +:+ u.
Proof. induction s as [|c s IH]; [reflexivity|]. rewrite !string_append_cons, IH. reflexivity. Qed.

Lemma string_length_append (s t : string) :
  String.length (s +:+ t) = (String.length s + String.length t)%nat.
Proof. induction s as [|c s IH]; [reflexivity|]. rewrite string_append_cons. simpl. lia. Qed.

(** Induction two characters at a time. *)
Lemma string_pair_ind (P : string → Prop) :
  P "" →
  (∀ c, P (String c "")) →
  (∀ c d rest, P rest → P (String d rest) → P (String c (String d rest))) →
  ∀ s, P s.
Proof.
  intros Hnil Hone Hstep.
  assert (Hboth : ∀ s, P s ∧ ∀ c, P (String c s)).
  { induction s as [|d s [IH1 IH2]]; [split; [exact Hnil|exact Hone]|].
    split; [apply IH2|]. intros c. apply Hstep; [exact IH1|apply IH2]. }
  intros s. apply Hboth.
Qed.

Lemma escape_cons (c : ascii) (rest : string) :
  escapeNixDoubleQuotedString (String c rest) =
  if Ascii.eqb c BACKSLASH_CHAR
  then ESCAPED_BACKSLASH +:+ escapeNixDoubleQuotedString rest
  else
    match rest with
    | String next rest' =>
        if Ascii.eqb c DOLLAR_CHAR && Ascii.eqb next OPEN_BRACE_CHAR
        then ESCAPED_INTERPOLATION +:+ escapeNixDoubleQuotedString rest'
        else if Ascii.eqb c DOUBLE_QUOTE_CHAR
             then ESCAPED_QUOTE +:+ escapeNixDoubleQuotedString rest
             else String c (escapeNixDoubleQuotedString rest)
    | EmptyString =>
        if Ascii.eqb c DOUBLE_QUOTE_CHAR
        then ESCAPED_QUOTE +:+ escapeNixDoubleQuotedString rest
        else String c (escapeNixDoubleQuotedString rest)
    end.
Proof. destruct rest; reflexivity. Qed.

Lemma unescape_escape (str : string) :
  unescapeDoubleQuoted (escapeNixDoubleQuotedString str) = str.
Proof.
  induction str as [|c|c d rest IH1 IH2] using string_pair_ind; [reflexivity| |].
  - rewrite escape_cons.
    destruct (Ascii.eqb_spec c BACKSLASH_CHAR) as [->|Hb]; [reflexivity|].
    destruct (Ascii.eqb_spec c DOUBLE_QUOTE_CHAR) as [->|Hq]; [reflexivity|].
    simpl. apply Ascii.eqb_neq in Hb. rewrite Hb. reflexivity.
  - rewrite escape_cons.
    destruct (Ascii.eqb_spec c BACKSLASH_CHAR) as [->|Hb].
    { change (ESCAPED_BACKSLASH +:+ ?x) with (String BACKSLASH_CHAR (String BACKSLASH_CHAR x)).
      cbn [unescapeDoubleQuoted]. rewrite Ascii.eqb_refl, IH2. reflexivity. }
    destruct (Ascii.eqb_spec c DOLLAR_CHAR) as [->|Hd];
      [destruct (Ascii.eqb_spec d OPEN_BRACE_CHAR) as [->|Ho]|].
    + change (unescapeDoubleQuoted
                (String BACKSLASH_CHAR (String DOLLAR_CHAR (String OPEN_BRACE_CHAR
                   (escapeNixDoubleQuotedString rest))))
              = String DOLLAR_CHAR (String OPEN_BRACE_CHAR rest)).
      cbn [unescapeDoubleQuoted]. rewrite Ascii.eqb_refl.
      change (Ascii.eqb OPEN_BRACE_CHAR BACKSLASH_CHAR) with false. cbv iota.
      rewrite IH1. reflexivity.
    + cbn [andb]. change (Ascii.eqb DOLLAR_CHAR DOUBLE_QUOTE_CHAR) with false. cbv iota.
      cbn [unescapeDoubleQuoted].
      change (Ascii.eqb DOLLAR_CHAR BACKSLASH_CHAR) with false. cbv iota.
      rewrite IH2. reflexivity.
    + cbn [andb].
      destruct (Ascii.eqb_spec c DOUBLE_QUOTE_CHAR) as [->|Hq].
      * change (ESCAPED_QUOTE +:+ ?x) with (String BACKSLASH_CHAR (String DOUBLE_QUOTE_CHAR x)).
        cbn [unescapeDoubleQuoted]. rewrite Ascii.eqb_refl, IH2. reflexivity.
      * cbn [unescapeDoubleQuoted]. apply Ascii.eqb_neq in Hb. rewrite Hb, IH2. reflexivity.
Qed.

(** X21.  Two strings with the same escaped form are the same string: the
    escaping for double-quoted strings loses nothing. *)
Theorem escapeNixDoubleQuotedString_injective (s t : string) :
  escapeNixDoubleQuotedString s = escapeNixDoubleQuotedString t → s = t.
Proof.
  intros Heq. rewrite <- (unescape_escape s), <- (unescape_escape t), Heq. reflexivity.
Qed.

Lemma escape_length (str : string) :
  (String.length str ≤ String.length (escapeNixDoubleQuotedString str))%nat.
Proof.
  induction str as [|c|c d rest IH1 IH2] using string_pair_ind; [reflexivity| |];
    rewrite escape_cons; repeat case_match; rewrite ?string_length_append; simpl in *; lia.
Qed.

Lemma includes_cons (c : ascii) (rest needle : string) :
  includes (String c rest) needle =
  String.prefix needle (String c rest) || includes rest needle.
Proof. simpl. destruct (String.prefix needle (String c rest)); reflexivity. Qed.

Lemma prefix_char (a c : ascii) (rest : string) :
  String.prefix (String a "") (String c rest) = Ascii.eqb c a.
Proof.
  simpl. destruct (ascii_dec a c) as [->|Hne].
  - rewrite Ascii.eqb_refl. destruct rest; reflexivity.
  - symmetry. apply Ascii.eqb_neq. congruence.
Qed.

Lemma prefix_pair (a b c : ascii) (rest : string) :
  String.prefix (String a (String b "")) (String c rest) =
  Ascii.eqb c a && match rest with String d _ => Ascii.eqb d b | EmptyString => false end.
Proof.
  cbn [String.prefix].
  destruct (ascii_dec a c) as [->|Hac].
  - rewrite Ascii.eqb_refl. destruct rest as [|d rest]; [reflexivity|].
    cbn [String.prefix andb].
    destruct (ascii_dec b d) as [->|Hbd].
    + rewrite Ascii.eqb_refl. destruct rest; reflexivity.
    + symmetry. apply Ascii.eqb_neq. congruence.
  - symmetry. apply andb_false_iff. left. apply Ascii.eqb_neq. congruence.
Qed.

(** X22.  The escaping for double-quoted strings leaves a string as it is exactly
    when the string holds no backslash, no double quote and no [${]. *)
Theorem escapeNixDoubleQuotedString_fixes_plain_strings (str : string) :
  escapeNixDoubleQuotedString str = str ↔ needsNoEscape str = true.
Proof.
  unfold needsNoEscape.
  induction str as [|c|c d rest IH1 IH2] using string_pair_ind; [done| |].
  - rewrite escape_cons, !includes_cons, !prefix_char, prefix_pair. simpl.
    rewrite !orb_false_r, andb_false_r.
    destruct (Ascii.eqb c BACKSLASH_CHAR); [split; discriminate|].
    destruct (Ascii.eqb c DOUBLE_QUOTE_CHAR); [split; discriminate|done].
  - pose proof (escape_length (String d rest)) as Hlen.
    rewrite escape_cons.
    rewrite (includes_cons c), (includes_cons c _ (String DOUBLE_QUOTE_CHAR "")),
      (includes_cons c _ (String DOLLAR_CHAR _)), !prefix_char, prefix_pair.
    destruct (Ascii.eqb_spec c BACKSLASH_CHAR) as [->|Hb].
    { split; [|discriminate]. intros Heq.
      remember (escapeNixDoubleQuotedString (String d rest)) as escaped.
      apply (f_equal String.length) in Heq. rewrite string_length_append in Heq.
      simpl in Heq, Hlen. lia. }
    destruct (Ascii.eqb_spec c DOLLAR_CHAR) as [->|Hd];
      [destruct (Ascii.eqb_spec d OPEN_BRACE_CHAR) as [->|Ho]|].
    + split; [discriminate|]. simpl. rewrite andb_false_r. discriminate.
    + cbn [andb orb negb]. change (Ascii.eqb DOLLAR_CHAR DOUBLE_QUOTE_CHAR) with false.
      cbv iota. cbn [orb]. rewrite <- IH2. split; congruence.
    + cbn [andb orb negb].
      destruct (Ascii.eqb_spec c DOUBLE_QUOTE_CHAR) as [->|Hq].
      * split; [discriminate|]. simpl. rewrite andb_false_r. discriminate.
      * cbn [orb]. rewrite <- IH2. split; congruence.
Qed.

(** X23.  Escaping goes through concatenation, unless the cut falls between a
    [$] and a [{]. *)
Theorem escapeNixDoubleQuotedString_append (s t : string) :
  endsWith s (String DOLLAR_CHAR "") && String.prefix (String OPEN_BRACE_CHAR "") t = false →
  escapeNixDoubleQuotedString (s +:+ t)
    = escapeNixDoubleQuotedString s +:+ escapeNixDoubleQuotedString t.
Proof.
  induction s as [|c|c d rest IH1 IH2] using string_pair_ind; intros Hseam; [reflexivity| |].
  - change (String c "" +:+ t) with (String c t).
    rewrite !escape_cons.
    destruct (Ascii.eqb_spec c BACKSLASH_CHAR) as [->|Hb]; [reflexivity|].
    destruct t as [|next t]; [repeat case_match; by rewrite ?string_append_nil_r|].
    rewrite prefix_char in Hseam.
    destruct (Ascii.eqb_spec c DOLLAR_CHAR) as [->|Hd].
    + simpl in Hseam. rewrite Hseam. reflexivity.
    + cbn [andb]. case_match; reflexivity.
  - assert (Hrest : endsWith rest (String DOLLAR_CHAR "")
                    && String.prefix (String OPEN_BRACE_CHAR "") t = false).
    { apply andb_false_iff in Hseam as [Hends|Hprefix]; apply andb_false_iff; [left|by right].
      cbn [endsWith] in Hends. apply orb_false_iff in Hends as [_ Hends].
      apply orb_false_iff in Hends as [_ Hends]. exact Hends. }
    assert (Htail : endsWith (String d rest) (String DOLLAR_CHAR "")
                    && String.prefix (String OPEN_BRACE_CHAR "") t = false).
    { apply andb_false_iff in Hseam as [Hends|Hprefix]; apply andb_false_iff; [left|by right].
      cbn [endsWith] in Hends. apply orb_false_iff in Hends as [_ Hends]. exact Hends. }
    rewrite !string_append_cons, (escape_cons c (String d (rest +:+ t))), (escape_cons c (String d rest)).
    rewrite <- string_append_cons, (IH2 Htail), (IH1 Hrest).
    repeat case_match; rewrite ?string_append_assoc, ?string_append_cons; reflexivity.
Qed.

Lemma replacePair_cons (a b : ascii) (replacement : string) (x : ascii) (rest : string) :
  replacePair a b replacement (String x rest) =
  match rest with
  | String y rest' =>
      if Ascii.eqb x a && Ascii.eqb y b
      then replacement +:+ replacePair a b replacement rest'
      else String x (replacePair a b replacement rest)
  | EmptyString => String x ""
  end.
Proof. destruct rest; reflexivity. Qed.

Lemma dollarsGuarded_more (str : string) (m n : nat) :
  (m ≤ n)%nat → dollarsGuarded m str → dollarsGuarded n str.
Proof.
  revert m n. induction str as [|c rest IH]; intros m n Hle; [done|].
  simpl. repeat case_match.
  - intros [? ?]. split; [lia|done].
  - apply IH. lia.
  - done.
Qed.

Lemma dollarsGuarded_replaceChar (str : string) (quotes : nat) :
  dollarsGuarded quotes (replaceChar DOLLAR_CHAR DOLLAR_PREFIX str).
Proof.
  revert quotes. induction str as [|c rest IH]; intros quotes; [done|].
  cbn [replaceChar].
  destruct (Ascii.eqb_spec c DOLLAR_CHAR) as [->|Hd].
  - change (DOLLAR_PREFIX +:+ ?x)
      with (String SINGLE_QUOTE_CHAR (String SINGLE_QUOTE_CHAR (String DOLLAR_CHAR x))).
    cbn. split; [lia|apply IH].
  - cbn [dollarsGuarded]. apply Ascii.eqb_neq in Hd. rewrite Hd.
    case_match; apply IH.
Qed.

Lemma dollarsGuarded_replacePair (str : string) :
  ∀ quotes,
    dollarsGuarded quotes str →
    dollarsGuarded quotes (replacePair BACKSLASH_CHAR NEWLINE_CHAR ESCAPED_NEWLINE str).
Proof.
  induction str as [|c|c d rest IH1 IH2] using string_pair_ind; intros quotes; [done..|].
  rewrite replacePair_cons.
  destruct (Ascii.eqb_spec c BACKSLASH_CHAR) as [->|Hb];
    [destruct (Ascii.eqb_spec d NEWLINE_CHAR) as [->|Hn]|].
  - cbn. apply IH1.
  - cbn [andb dollarsGuarded].
    change (Ascii.eqb BACKSLASH_CHAR DOLLAR_CHAR) with false.
    change (Ascii.eqb BACKSLASH_CHAR SINGLE_QUOTE_CHAR) with false. cbv iota.
    apply IH2.
  - cbn [andb]. change (dollarsGuarded quotes (String c (String d rest)))
      with (if Ascii.eqb c DOLLAR_CHAR then (2 ≤ quotes)%nat ∧ dollarsGuarded 0 (String d rest)
            else if Ascii.eqb c SINGLE_QUOTE_CHAR then dollarsGuarded (S quotes) (String d rest)
            else dollarsGuarded 0 (String d rest)).
    change (dollarsGuarded quotes (String c ?x))
      with (if Ascii.eqb c DOLLAR_CHAR then (2 ≤ quotes)%nat ∧ dollarsGuarded 0 x
            else if Ascii.eqb c SINGLE_QUOTE_CHAR then dollarsGuarded (S quotes) x
            else dollarsGuarded 0 x).
    repeat case_match; [intros [? ?]; split; [done|by apply IH2]|apply IH2..].
Qed.

Lemma dollarsGuarded_append_space (str : string) (quotes : nat) :
  dollarsGuarded quotes str → dollarsGuarded quotes (str +:+ String SPACE_CHAR "").
Proof.
  revert quotes. induction str as [|c rest IH]; intros quotes; [done|].
  rewrite string_append_cons. cbn [dollarsGuarded].
  repeat case_match; [intros [? ?]; split; [done|by apply IH]|apply IH..].
Qed.

Lemma dollarsGuarded_escapeNixString (str : string) :
  dollarsGuarded 0 (escapeNixString str).
Proof.
  unfold escapeNixString.
  case_match; [apply dollarsGuarded_append_space|];
    apply dollarsGuarded_replacePair, dollarsGuarded_replaceChar.
Qed.

Lemma singleQuotes_snoc (n : nat) :
  singleQuotes (S n) = singleQuotes n +:+ String SINGLE_QUOTE_CHAR "".
Proof. induction n as [|n IH]; [reflexivity|]. simpl in *. rewrite string_append_cons, <- IH. reflexivity. Qed.

Lemma dollarsGuarded_before (pre post : string) :
  ∀ quotes,
    dollarsGuarded quotes (pre +:+ String DOLLAR_CHAR post) →
    ∃ pre', singleQuotes quotes +:+ pre = pre' +:+ NIX_MULTILINE_START.
Proof.
  induction pre as [|c pre IH]; intros quotes.
  - cbn. intros [Hquotes _]. destruct quotes as [|[|n]]; [lia..|].
    exists (singleQuotes n). rewrite string_append_nil_r, !singleQuotes_snoc, string_append_assoc.
    reflexivity.
  - rewrite string_append_cons. cbn [dollarsGuarded].
    destruct (Ascii.eqb_spec c DOLLAR_CHAR) as [->|Hd];
      [|destruct (Ascii.eqb_spec c SINGLE_QUOTE_CHAR) as [->|Hq]].
    + intros [_ Hrest]. destruct (IH 0%nat Hrest) as [pre' Hpre'].
      change (singleQuotes 0 +:+ pre) with pre in Hpre'.
      exists (singleQuotes quotes +:+ String DOLLAR_CHAR pre').
      rewrite Hpre', string_append_assoc, string_append_cons. reflexivity.
    + intros Hrest. destruct (IH (S quotes) Hrest) as [pre' Hpre'].
      exists pre'. rewrite <- Hpre', singleQuotes_snoc, string_append_assoc. reflexivity.
    + intros Hrest. destruct (IH 0%nat Hrest) as [pre' Hpre'].
      change (singleQuotes 0 +:+ pre) with pre in Hpre'.
      exists (singleQuotes quotes +:+ String c pre').
      rewrite Hpre', string_append_assoc, string_append_cons. reflexivity.
Qed.

(** X24.  In the escaped form for multi-line strings every [$] comes right after
    two single quotes. *)
Theorem escapeNixString_guards_dollars (str pre post : string) :
  escapeNixString str = pre +:+ String DOLLAR_CHAR post →
  ∃ pre', pre = pre' +:+ NIX_MULTILINE_START.
Proof.
  intros Hsplit. pose proof (dollarsGuarded_escapeNixString str) as Hguard.
  rewrite Hsplit in Hguard. exact (dollarsGuarded_before pre post 0 Hguard).
Qed.

Lemma includes_char_cons (a c : ascii) (rest : string) :
  includes (String c rest) (String a "") = Ascii.eqb c a || includes rest (String a "").
Proof. rewrite includes_cons, prefix_char. reflexivity. Qed.

Lemma replaceChar_absent (a : ascii) (replacement str : string) :
  includes str (String a "") = false → replaceChar a replacement str = str.
Proof.
  induction str as [|c rest IH]; [reflexivity|].
  rewrite includes_char_cons. intros [Hc Hrest]%orb_false_iff.
  cbn [replaceChar]. rewrite Hc, IH by exact Hrest. reflexivity.
Qed.

Lemma replacePair_absent (a b : ascii) (replacement str : string) :
  includes str (String a "") = false → replacePair a b replacement str = str.
Proof.
  induction str as [|c rest IH]; [reflexivity|].
  rewrite includes_char_cons. intros [Hc Hrest]%orb_false_iff.
  rewrite replacePair_cons. destruct rest as [|d rest]; [reflexivity|].
  rewrite Hc. cbn [andb]. rewrite IH by exact Hrest. reflexivity.
Qed.

Lemma endsWith_absent (a : ascii) (str : string) :
  includes str (String a "") = false → endsWith str (String a "") = false.
Proof.
  induction str as [|c rest IH]; [reflexivity|].
  rewrite includes_char_cons. intros [Hc Hrest]%orb_false_iff.
  cbn [endsWith]. rewrite IH by exact Hrest. rewrite orb_false_r.
  apply String.eqb_neq. intros [= -> ->]. by rewrite Ascii.eqb_refl in Hc.
Qed.

(** X25.  The escaping for multi-line strings leaves a string without single
    quote, [$] and backslash as it is. *)
Theorem escapeNixString_fixes_plain_strings (str : string) :
  includes str (String SINGLE_QUOTE_CHAR "") = false →
  includes str (String DOLLAR_CHAR "") = false →
  includes str (String BACKSLASH_CHAR "") = false →
  escapeNixString str = str.
Proof.
  intros Hquote Hdollar Hbackslash. unfold escapeNixString.
  rewrite (replacePair_absent _ _ _ _ Hquote), (replaceChar_absent _ _ _ Hdollar),
    (replacePair_absent _ _ _ _ Hbackslash), (endsWith_absent _ _ Hquote).
  reflexivity.
Qed.

End Extractor.

(** * The statements on concrete settings *)

(** ** The evaluator *)

(** [(1 + 2)] is an error although [1 + 2] is [3]. *)
Lemma parenthesized_sum_fails :
  evaluate (declares []) 3 (ParenthesizedExpression onePlusTwo)
    = Some (Err (createEvaluationError CannotUnwrapNode (ParenthesizedExpression onePlusTwo)))
  ∧ evaluate (declares []) 3 onePlusTwo = Some (Ok (LNumber (1 + 2)%Q)).
Proof.
  split.
  - apply evaluate_wrapped_non_literal_fails; reflexivity.
  - reflexivity.
Defined.

(** [1 | 2] is [3] and [7 % 4] is [3]; ["a" + 2] and [1 === 2] are errors. *)
Lemma binary_expression_outcomes :
  evaluatesTo (declares [])
    (BinaryExpression (NumericLiteral 1%Q) BarToken (NumericLiteral 2%Q))
    (Ok (LNumber 3%Q))
  ∧ evaluatesTo (declares [])
      (BinaryExpression (NumericLiteral 7%Q) PercentToken (NumericLiteral 4%Q))
      (Ok (LNumber (7 - 4 * 1)%Q))
  ∧ (∃ error,
       evaluatesTo (declares [])
         (BinaryExpression (StringLiteral "a") PlusToken (NumericLiteral 2%Q)) (Err error))
  ∧ evaluate (declares []) 1
      (BinaryExpression (NumericLiteral 1%Q) EqualsEqualsEqualsToken (NumericLiteral 2%Q))
    = Some (Err (createEvaluationError CannotEvaluateNode
                   (BinaryExpression (NumericLiteral 1%Q) EqualsEqualsEqualsToken
                      (NumericLiteral 2%Q)))).
Proof.
  split; [|split; [|split]].
  - apply (proj1 (evaluate_binary_expression (declares [])
                    (NumericLiteral 1%Q) (NumericLiteral 2%Q) BarToken)).
    exists bitOr, 1%Q, 2%Q. split; [apply list_elem_of_here|].
    repeat split; exists 1%nat; reflexivity.
  - apply (proj1 (evaluate_binary_expression (declares [])
                    (NumericLiteral 7%Q) (NumericLiteral 4%Q) PercentToken)).
    exists remainder, 7%Q, 4%Q.
    split; [repeat first [apply list_elem_of_here | apply list_elem_of_further]|].
    repeat split; exists 1%nat; reflexivity.
  - apply (proj1 (proj2 (evaluate_binary_expression (declares [])
                           (StringLiteral "a") (NumericLiteral 2%Q) PlusToken))
             (Ok (LString "a")) (Ok (LNumber 2%Q))).
    + exists 1%nat. reflexivity.
    + exists 1%nat. reflexivity.
    + intros (l & r & Hl & Hr). discriminate.
  - apply (proj2 (proj2 (evaluate_binary_expression (declares [])
                           (NumericLiteral 1%Q) (NumericLiteral 2%Q)
                           EqualsEqualsEqualsToken))).
    intros Hin. repeat (apply elem_of_cons in Hin as [Hin|Hin]; [discriminate|]).
    by apply elem_of_nil in Hin.
Defined.

(** ** The classifier *)

(** A [STRING] setting whose choices are [true] and [false] is classified
    as a boolean. *)
Lemma string_annotation_with_boolean_choices :
  inferNixTypeAndEnumValues (declares []) noMatch noMatch noThemeMatch
    noPattern noPattern sourceText optionTypes 3 stringWithBooleanChoices
    {| typeNode := Some (optionType "STRING"); description := None; placeholder := None;
       restartNeeded := false; hidden := false; defaultLiteralValue := VUndefined |}
    {| rawType := TypeNode (optionType "STRING"); rawDefault := VUndefined;
       rawOptions := VArray [VBoolean true; VBoolean false] |}
  = Some {| finalNixType := NIX_TYPE_BOOL; selectEnumValues := None;
            inferredDefault := VUndefined |}.
Proof.
  apply (boolean_pair_classified_as_bool (declares []) noMatch noMatch noThemeMatch
           noPattern noPattern sourceText optionTypes 3 stringWithBooleanChoices
           {| typeNode := Some (optionType "STRING"); description := None;
              placeholder := None; restartNeeded := false; hidden := false;
              defaultLiteralValue := VUndefined |}
           {| rawType := TypeNode (optionType "STRING"); rawDefault := VUndefined;
              rawOptions := VArray [VBoolean true; VBoolean false] |}
           {| nixType := NIX_TYPE_STR; enumValues := None |} true false ∅).
  - discriminate.
  - reflexivity.
  - right. reflexivity.
  - reflexivity.
Defined.

(** [{ type: NUMBER, default: 3 }] is an integer, [{ type: NUMBER,
    default: 3.5 }] a float. *)
Lemma number_with_default :
  tsTypeToNixType (declares []) optionTypes
    {| rawType := TypeNode (optionType "NUMBER"); rawDefault := VNumber 3%Q;
       rawOptions := VUndefined |}
    = Some {| nixType := NIX_TYPE_INT; enumValues := None |}
  ∧ tsTypeToNixType (declares []) optionTypes
      {| rawType := TypeNode (optionType "NUMBER"); rawDefault := VNumber (7 # 2)%Q;
         rawOptions := VUndefined |}
    = Some {| nixType := NIX_TYPE_FLOAT; enumValues := None |}.
Proof.
  split.
  - exact (number_annotation_type (declares []) optionTypes
             {| rawType := TypeNode (optionType "NUMBER"); rawDefault := VNumber 3%Q;
                rawOptions := VUndefined |} (optionType "NUMBER") eq_refl eq_refl).
  - exact (number_annotation_type (declares []) optionTypes
             {| rawType := TypeNode (optionType "NUMBER"); rawDefault := VNumber (7 # 2)%Q;
                rawOptions := VUndefined |} (optionType "NUMBER") eq_refl eq_refl).
Defined.

(** [{ type: NUMBER }] has no default, so none that is a number and not
    integral, and yet it is a float: C6 as it is written asks for the
    integer type. *)
Lemma number_without_default_is_float :
  let setting :=
    {| rawType := TypeNode (optionType "NUMBER"); rawDefault := VUndefined;
       rawOptions := VUndefined |} in
  tsTypeToNixType (declares []) optionTypes setting
    = Some {| nixType := NIX_TYPE_FLOAT; enumValues := None |}
  ∧ claimedNumberType (rawDefault setting) = NIX_TYPE_INT.
Proof. split; reflexivity. Qed.

(** ** The default resolver *)

(** In [[{ value: "x" }, { value: "y", default: true }]] the marked
    element gives the default ["y"]; without the marker the first choice
    ["x"] does. *)
Lemma select_default_follows_marker :
  resolveDefaultValue (declares []) noPattern noPattern sourceText noFold 3
    selectWithMarker NIX_ENUM_TYPE VUndefined (Some [LString "x"; LString "y"])
    = Some {| resolvedNixType := NIX_ENUM_TYPE; resolvedDefault := VString "y" |}
  ∧ resolveDefaultValue (declares []) noPattern noPattern sourceText noFold 3
      selectWithoutMarker NIX_ENUM_TYPE VUndefined (Some [LString "x"; LString "y"])
    = Some {| resolvedNixType := NIX_ENUM_TYPE; resolvedDefault := VString "x" |}.
Proof.
  split.
  - refine (proj1 (enum_default_from_marker (declares []) noPattern noPattern sourceText
                     noFold 3 selectWithMarker (IdentifierName "options")
                     [choice (StringLiteral "x"); defaultChoice (StringLiteral "y")]
                     (Some [LString "x"; LString "y"]) eq_refl eq_refl)
              [choice (StringLiteral "x")]
              [property "value" (StringLiteral "y"); property "default" TrueKeyword]
              [] (StringLiteral "y") (LString "y") eq_refl _ eq_refl eq_refl eq_refl).
    repeat constructor.
  - refine (proj1 (proj2 (enum_default_from_marker (declares []) noPattern noPattern
                            sourceText noFold 3 selectWithoutMarker
                            (IdentifierName "options")
                            [choice (StringLiteral "x"); choice (StringLiteral "y")]
                            (Some [LString "x"; LString "y"]) eq_refl eq_refl) _ _)
              (LString "x") [LString "y"] eq_refl).
    + discriminate.
    + repeat constructor.
Defined.

(** [options: [{ value: "x" }, { value: "y", default: true }] as const]: the
    choices ["x"] and ["y"] are read through the wrapper, the marker on ["y"]
    is not, and the setting is emitted with the default ["x"]. *)
Lemma wrapped_options_hide_marker :
  values <$> (extractSelectOptions (declares []) noMatch noMatch noThemeMatch 3
                selectWithWrappedOptions ≫= okValue)
    = Some [LString "x"; LString "y"]
  ∧ resolveDefaultValue (declares []) noPattern noPattern sourceText noFold 3
      selectWithWrappedOptions NIX_ENUM_TYPE VUndefined (Some [LString "x"; LString "y"])
    = Some {| resolvedNixType := NIX_ENUM_TYPE; resolvedDefault := VString "x" |}
  ∧ ∃ setting,
      extractSetting (declares []) noMatch noMatch noThemeMatch noPattern noPattern
        sourceText optionTypes noFold 3 false "choice" selectWithWrappedOptions
        = Some (Some setting)
      ∧ settingEnumValues setting = Some [LString "x"; LString "y"]
      ∧ settingDefault setting = VString "x".
Proof.
  destruct (wrapped_options_default_ignores_marker (declares []) noMatch noMatch
              noThemeMatch noPattern noPattern sourceText noFold 3
              selectWithWrappedOptions (IdentifierName "options")
              (AsExpression
                 (ArrayLiteralExpression
                    [choice (StringLiteral "x"); defaultChoice (StringLiteral "y")])
                 "const")
              [choice (StringLiteral "x"); defaultChoice (StringLiteral "y")]
              (LString "x") [LString "y"] eq_refl eq_refl eq_refl eq_refl)
    as [Hoptions Hdefault].
  split; [rewrite Hoptions; reflexivity|]. split; [exact Hdefault|].
  eexists. repeat split; reflexivity.
Defined.

(** The rule for string arrays comes before the marker: with [default: LIST]
    and [const LIST = ["x"]] the resolved default is the empty list, of the
    list-of-string type. *)
Lemma marker_overridden_by_string_array_default :
  let checker := declares listDeclaration in
  tsTypeToNixType checker optionTypes
    {| rawType := TypeNode (optionType "SELECT"); rawDefault := VUndefined;
       rawOptions := VArray [VString "a"; VString "b"] |}
    = Some {| nixType := NIX_ENUM_TYPE; enumValues := Some [LString "a"; LString "b"] |}
  ∧ defaultLiteralValue
      <$> extractProperties checker 3 selectWithListDefault = Some VUndefined
  ∧ extractSelectDefault checker 3 selectWithListDefault = Some (Ok (Some (LString "b")))
  ∧ resolveDefaultValue checker noPattern noPattern sourceText noFold 3
      selectWithListDefault NIX_ENUM_TYPE VUndefined (Some [LString "a"; LString "b"])
    = Some {| resolvedNixType := NIX_TYPE_LIST_OF_STR; resolvedDefault := VArray [] |}.
Proof. repeat split; reflexivity. Qed.

(** [{ type: STRING, default: ["a", "b"] }] is emitted as a string whose
    default is the list. *)
Lemma string_array_literal_default_emitted :
  ∃ setting,
    extractSetting (declares []) noMatch noMatch noThemeMatch noPattern noPattern
      sourceText optionTypes noFold 3 false "tags" stringWithArrayDefault
      = Some (Some setting)
    ∧ settingType setting = NIX_TYPE_STR
    ∧ settingDefault setting = VArray [VString "a"; VString "b"]
    ∧ settingType setting ≠ NIX_TYPE_LIST_OF_STR.
Proof.
  eexists. split; [reflexivity|]. split; [reflexivity|].
  exact (literal_string_array_default_is_emitted (declares []) noMatch noMatch
           noThemeMatch noPattern noPattern sourceText optionTypes noFold 3 false "tags"
           stringWithArrayDefault ["a"; "b"] _ eq_refl eq_refl).
Defined.

(** [{ type: COMPONENT, get default() {...} }] keeps the attribute-set
    type, with [null] for default. *)
Lemma component_getter_default :
  resolveDefaultValue (declares []) noPattern noPattern sourceText noFold 3
    componentWithGetter NIX_TYPE_ATTRS VUndefined None
    = Some {| resolvedNixType := NIX_TYPE_ATTRS; resolvedDefault := VNull |}
  ∧ nixType <$> tsTypeToNixType (declares []) optionTypes
      {| rawType := TypeNode (optionType "COMPONENT"); rawDefault := VUndefined;
         rawOptions := VUndefined |} = Some NIX_TYPE_ATTRS.
Proof.
  split.
  - exact (getter_default_keeps_attrs_type (declares []) noPattern noPattern sourceText
             noFold 3 componentWithGetter (IdentifierName "default") None eq_refl).
  - reflexivity.
Defined.

(** ** Options and hidden settings *)





(** The settings extractor calls [tsTypeToNixType] and not the classifier:
    the [STRING] setting with the choices [true] and [false] comes out as a
    nullable string. *)
Lemma string_setting_with_boolean_choices :
  values <$> (extractSelectOptions (declares []) noMatch noMatch noThemeMatch 3
                stringWithBooleanChoices ≫= okValue)
    = Some [LBoolean true; LBoolean false]
  ∧ ∃ setting,
      extractSetting (declares []) noMatch noMatch noThemeMatch noPattern noPattern
        sourceText optionTypes noFold 3 false "flag" stringWithBooleanChoices
        = Some (Some setting)
      ∧ settingType setting = NIX_TYPE_NULL_OR_STR
      ∧ settingType setting ≠ NIX_TYPE_BOOL.
Proof.
  split; [reflexivity|].
  eexists. split; [reflexivity|]. split; [reflexivity|].
  exact (string_annotation_is_never_boolean (declares []) noMatch noMatch noThemeMatch
           noPattern noPattern sourceText optionTypes noFold 3 false "flag"
           stringWithBooleanChoices (optionType "STRING") _ eq_refl eq_refl eq_refl).
Defined.

(** * The further properties on concrete inputs *)

(** ** The evaluator *)

(** [("x") as const] evaluates to ["x"]. *)
Lemma wrapped_string_evaluates :
  ∃ value, evaluateLiteral (unwrapNode wrappedString) = Ok value
           ∧ evaluate (declares []) 1 wrappedString = Some (Ok value).
Proof. exact (wrapped_literal_evaluates (declares []) 0 wrappedString eq_refl). Defined.

(** With [const a = b; const b = a] the evaluation of [a] does not end. *)
Lemma cyclic_declarations_never_evaluate :
  evaluate (declares cyclicDeclarations) 100 (Identifier 1 "a") = None.
Proof.
  exact (mutually_bound_identifiers_never_evaluate (declares cyclicDeclarations)
           1 2 "a" "b" ltac:(discriminate) eq_refl eq_refl 100%nat).
Defined.

(** [ActivityType.LISTENING] is [2] when nothing declares [ActivityType]. *)
Lemma undeclared_activity_type :
  evaluate (declares []) 1 listening = Some (Ok (LNumber (inject_Z 2))).
Proof.
  exact (external_enum_fallback (declares []) 0 9 "ActivityType" "LISTENING"
           eq_refl eq_refl eq_refl eq_refl eq_refl).
Defined.

(** [(1 + 2) * "x"] is evaluated to an end, with room for three nested
    calls. *)
Lemma sum_times_string_returns :
  is_Some (evaluate (declares []) 3 sumTimesString).
Proof.
  exact (evaluate_returns_when_nothing_is_named (declares []) sumTimesString eq_refl
           3%nat (le_n 3)).
Defined.

(** ** The options of a setting and their default *)

(** The label [One] is filed under ["1"], the string form of the value [1]. *)
Lemma labelled_choices_keep_their_values :
  ∃ options,
    extractOptionsFromObjectArray (declares []) 3 (ArrayLiteralExpression labelledChoices)
      labelledChoices = Some (Ok options)
    ∧ ∀ key label, labels options !! key = Some label →
        ∃ value, value ∈ values options ∧ literalToString value = key.
Proof.
  eexists. split; [reflexivity|].
  exact (option_labels_belong_to_values (declares []) 3
           (ArrayLiteralExpression labelledChoices) labelledChoices _ eq_refl).
Defined.

(** The default of the setting with a marker is found, as a success. *)
Lemma marked_default_is_a_success :
  ∃ result,
    extractSelectDefault (declares []) 3 selectWithMarker = Some result
    ∧ isOk result = true.
Proof.
  eexists. split; [reflexivity|].
  exact (select_default_is_never_an_error (declares []) 3 selectWithMarker _ eq_refl).
Defined.

(** Under [as const] the choices are found and the marker is not. *)
Lemma wrapped_options_on_a_select :
  extractSelectDefault (declares []) 3 selectWithWrappedOptions = Some (Ok None)
  ∧ extractSelectOptions (declares []) noMatch noMatch noThemeMatch 3
      selectWithWrappedOptions
    = extractSelectOptions (declares []) noMatch noMatch noThemeMatch 3
        [PropertyAssignment (IdentifierName "options")
           (Some (ArrayLiteralExpression
                    [choice (StringLiteral "x"); defaultChoice (StringLiteral "y")]))].
Proof.
  exact (wrapped_options_lose_the_marker (declares []) noMatch noMatch noThemeMatch 3
           selectWithWrappedOptions (IdentifierName "options") _ eq_refl eq_refl).
Defined.

(** The marked value ["y"] is among the choices ["x"] and ["y"]. *)
Lemma marked_value_among_the_choices :
  let elements := [choice (StringLiteral "x"); defaultChoice (StringLiteral "y")] in
  ∃ options,
    extractOptionsFromObjectArray (declares []) 3 (ArrayLiteralExpression elements) elements
      = Some (Ok options)
    ∧ LString "y" ∈ values options.
Proof.
  intros elements.
  destruct (marked_default_is_a_choice (declares []) 3 (ArrayLiteralExpression elements)
              elements (LString "y") _
              ltac:(repeat constructor) eq_refl eq_refl) as (options & Hresult & Hvalue).
  exists options. split; [|exact Hvalue].
  rewrite <- Hresult. reflexivity.
Defined.

(** ** Target types and defaults *)

(** A [SELECT] setting whose options are the objects [{ value: "x" }] and
    [{ value: "y", label: "Y" }]: the choices are ["x"] and ["y"]. *)
Lemma select_with_two_objects_is_an_enum :
  let items := [VObject [("value", VString "x")];
                VObject [("value", VString "y"); ("label", VString "Y")]] in
  let setting := {| rawType := TypeNode (optionType "SELECT"); rawDefault := VUndefined;
                    rawOptions := VArray items |} in
  tsTypeToNixType (declares []) optionTypes setting
    = Some {| nixType := NIX_ENUM_TYPE; enumValues := Some [LString "x"; LString "y"] |}
  ∧ ∃ first rest items',
      Some [LString "x"; LString "y"] = Some (first :: rest)
      ∧ isBooleanEnumValues (first :: rest) = false
      ∧ VArray items = VArray items'
      ∧ (∀ choices, items' = ofLiteral <$> choices → first :: rest = choices)
      ∧ ∀ value, value ∈ first :: rest →
          ofLiteral value ∈ items'
          ∨ ∃ fields, VObject fields ∈ items'
                      ∧ assoc "value" fields = Some (ofLiteral value).
Proof.
  intros items setting. split; [reflexivity|].
  exact (proj2 (tsTypeToNixType_range (declares []) optionTypes setting
                  {| nixType := NIX_ENUM_TYPE;
                     enumValues := Some [LString "x"; LString "y"] |} eq_refl) eq_refl).
Defined.

(** The default ["x"] of an integer setting stays. *)
Lemma string_default_is_kept :
  resolveDefaultValue (declares []) noPattern noPattern sourceText noFold 3
    plainBoolean NIX_TYPE_INT (VString "x") None
  = Some {| resolvedNixType := NIX_TYPE_INT; resolvedDefault := VString "x" |}.
Proof.
  exact (literal_default_is_kept (declares []) noPattern noPattern sourceText noFold 3
           plainBoolean NIX_TYPE_INT (VString "x") None
           ltac:(discriminate) ltac:(discriminate)).
Defined.

(** A string setting without default becomes a nullable string with [null]. *)
Lemma string_without_default_changes_type :
  ∃ resolved,
    resolveDefaultValue (declares []) noPattern noPattern sourceText noFold 3
      hiddenString NIX_TYPE_STR VUndefined None = Some resolved
    ∧ resolvedNixType resolved = NIX_TYPE_NULL_OR_STR
    ∧ (resolvedNixType resolved = NIX_TYPE_STR
       ∨ (resolvedNixType resolved = NIX_TYPE_LIST_OF_STR
          ∧ resolvedDefault resolved = VArray []
          ∧ VUndefined = VUndefined :> Value Q)
       ∨ (NIX_TYPE_STR = NIX_TYPE_STR
          ∧ VUndefined = VUndefined :> Value Q
          ∧ (resolvedNixType resolved = NIX_TYPE_ATTRS
             ∨ resolvedNixType resolved = NIX_TYPE_NULL_OR_STR))
       ∨ (NIX_TYPE_STR = NIX_TYPE_NULL_OR_STR
          ∧ (VUndefined = VUndefined :> Value Q ∨ VUndefined = VNull :> Value Q)
          ∧ resolvedNixType resolved = NIX_TYPE_ATTRS)).
Proof.
  eexists. split; [reflexivity|]. split; [reflexivity|].
  exact (resolved_type_changes (declares []) noPattern noPattern sourceText noFold 3
           hiddenString NIX_TYPE_STR VUndefined None _ eq_refl).
Defined.

(** And that default, [null], is a default. *)
Lemma string_without_default_gets_one :
  ∃ resolved,
    resolveDefaultValue (declares []) noPattern noPattern sourceText noFold 3
      hiddenString NIX_TYPE_STR VUndefined None = Some resolved
    ∧ resolvedDefault resolved ≠ VUndefined.
Proof.
  eexists. split; [reflexivity|].
  refine (resolved_default_is_defined (declares []) noPattern noPattern sourceText noFold 3
            hiddenString NIX_TYPE_STR VUndefined None _ eq_refl _).
  left. apply list_elem_of_further, list_elem_of_further, list_elem_of_here.
Defined.

(** A component setting that has no [default] gets [{}]. *)
Lemma bare_component_default :
  resolveDefaultValue (declares []) noPattern noPattern sourceText noFold 3
    bareComponent NIX_TYPE_ATTRS VUndefined None
  = Some {| resolvedNixType := NIX_TYPE_ATTRS; resolvedDefault := VObject [] |}.
Proof.
  exact (attrs_without_default_member (declares []) noPattern noPattern sourceText noFold 3
           bareComponent None eq_refl).
Defined.

(** ** The settings of a plugin *)

(** Of the properties [visible], [secret] (hidden) and [count] (a number),
    [visible] has an entry and the other two have none. *)
Lemma three_properties_one_entry :
  ∃ settings,
    extractSettingsFromPropertyIterable (declares []) noMatch noMatch noThemeMatch
      noPattern noPattern sourceText optionTypes noFold 3 threeProperties false
      = Some settings
    ∧ is_Some (settings !! "visible")
    ∧ settings !! "secret" = None
    ∧ settings !! "count" = None.
Proof.
  destruct (extractSettingsFromPropertyIterable (declares []) noMatch noMatch noThemeMatch
              noPattern noPattern sourceText optionTypes noFold 3 threeProperties false)
    as [settings|] eqn:Hsettings; [|vm_compute in Hsettings; discriminate].
  exists settings. split; [reflexivity|].
  assert (Hkeys := λ key Hkey,
            proj1 (settings_keys_are_the_kept_properties (declares []) noMatch noMatch
                     noThemeMatch noPattern noPattern sourceText optionTypes noFold 3
                     threeProperties false settings key Hkey Hsettings)).
  assert (Hnone : ∀ key : string,
            ¬ is_Some (settings !! key) → settings !! key = None).
  { intros key Hnot. destruct (settings !! key); [|reflexivity].
    exfalso. apply Hnot. eauto. }
  split; [|split].
  - apply (Hkeys "visible"); [discriminate|].
    exists (IdentifierName "visible"), plainBoolean.
    split; [apply list_elem_of_here|]. split; [reflexivity|]. split; [discriminate|].
    right. reflexivity.
  - apply Hnone. intros Hsome.
    apply (Hkeys "secret") in Hsome as (name & valueObj & Hin & Hname & _ & Hvisible);
      [|discriminate].
    repeat (apply elem_of_cons in Hin as [Hin|Hin]); try (by apply elem_of_nil in Hin);
      simplify_eq/=.
    destruct Hvisible; discriminate.
  - apply Hnone. intros Hsome.
    apply (Hkeys "count") in Hsome as (name & valueObj & Hin & Hname & _ & Hvisible);
      [|discriminate].
    repeat (apply elem_of_cons in Hin as [Hin|Hin]); try (by apply elem_of_nil in Hin);
      simplify_eq/=.
Defined.

(** The [SELECT] setting with a marker is emitted with its two choices and
    with a default. *)
Lemma select_is_emitted_with_choices_and_default :
  ∃ setting,
    extractSetting (declares []) noMatch noMatch noThemeMatch noPattern noPattern
      sourceText optionTypes noFold 3 false "choice" selectWithMarker
      = Some (Some setting)
    ∧ (∃ first rest, settingEnumValues setting = Some (first :: rest))
    ∧ settingDefault setting ≠ VUndefined.
Proof.
  eexists. split; [reflexivity|].
  exact (emitted_enum_has_choices_and_default (declares []) noMatch noMatch noThemeMatch
           noPattern noPattern sourceText optionTypes noFold 3 false "choice"
           selectWithMarker _ eq_refl eq_refl).
Defined.

(** ** The classifier *)

(** The classifier on the [SELECT] setting with a marker. *)
Lemma classified_select_has_choices :
  let props := {| typeNode := Some (optionType "SELECT"); description := None;
                  placeholder := None; restartNeeded := false; hidden := false;
                  defaultLiteralValue := VUndefined |} in
  let rawSetting := {| rawType := TypeNode (optionType "SELECT"); rawDefault := VUndefined;
                       rawOptions := VArray [VString "x"; VString "y"] |} in
  ∃ result,
    inferNixTypeAndEnumValues (declares []) noMatch noMatch noThemeMatch noPattern noPattern
      sourceText optionTypes 3 selectWithMarker props rawSetting = Some result
    ∧ (finalNixType result = NIX_ENUM_TYPE
       ↔ ∃ first rest, selectEnumValues result = Some (first :: rest)).
Proof.
  intros props rawSetting. eexists. split; [reflexivity|].
  exact (classifier_enum_iff_choices (declares []) noMatch noMatch noThemeMatch noPattern
           noPattern sourceText optionTypes 3 selectWithMarker props rawSetting _ eq_refl).
Defined.

(** A default that is a literal array of strings is classified as a list
    with the empty list as its default. *)
Lemma classified_string_array :
  let props := {| typeNode := Some (optionType "STRING"); description := None;
                  placeholder := None; restartNeeded := false; hidden := false;
                  defaultLiteralValue := VArray [VString "a"; VString "b"] |} in
  classifiedDefault
    (classifySetting (declares []) noPattern noPattern sourceText stringWithArrayDefault
       props NIX_TYPE_STR)
  = VArray [].
Proof.
  intros props.
  exact (classified_list_has_empty_default (declares []) noPattern noPattern sourceText
           stringWithArrayDefault props NIX_TYPE_STR
           ltac:(discriminate) ltac:(discriminate) (or_introl eq_refl)).
Defined.

(** ** The escaping of Nix strings *)

(** The one string with the escaped form of [a\${b}]. *)
Lemma escaped_forms_tell_strings_apart : "a\${b}" = "a\${b}".
Proof. exact (escapeNixDoubleQuotedString_injective "a\${b}" "a\${b}" eq_refl). Defined.

(** ["cost: $"] and ["5 {x}"] are escaped piece by piece. *)
Lemma escaping_two_pieces :
  escapeNixDoubleQuotedString ("cost: $" +:+ "5 {x}")
  = escapeNixDoubleQuotedString "cost: $" +:+ escapeNixDoubleQuotedString "5 {x}".
Proof. exact (escapeNixDoubleQuotedString_append "cost: $" "5 {x}" eq_refl). Defined.

(** In the escaped form of [a${b}] the [$] follows two single quotes. *)
Lemma escaped_dollar_follows_quotes : ∃ pre', "a''" = pre' +:+ NIX_MULTILINE_START.
Proof. exact (escapeNixString_guards_dollars "a${b}" "a''" "{b}" eq_refl). Defined.

(** A string of letters and a space. *)
Lemma plain_text_is_not_escaped : escapeNixString "plain text" = "plain text".
Proof.
  exact (escapeNixString_fixes_plain_strings "plain text" eq_refl eq_refl eq_refl).
Defined.
